(** * Order service: carts, orders, pickup tokens and the order cache

    A shallow embedding of [services/order] (cart_service.py,
    order_service.py, utils.py, config.py, database.py and the routes of
    routers/orders.py and routers/admin.py that the properties are about),
    followed by the properties of the specification that are stated about
    it.

    Conventions of the embedding:
    - a MongoDB collection is a list of documents in insertion order;
      [find_one] returns the first match, [update_one] rewrites the first
      match, [insert_one] appends and enforces the unique indexes that
      database.py declares;
    - Redis is a finite map from keys to values with an expiry instant; a
      call to Redis reaches it, and [json.dumps] and [json.loads] carry a
      value over unchanged (the exceptions that utils.py swallows around
      them are not raised);
    - a Python [float] is an IEEE-754 binary64 number ([PrimFloat.float]);
    - a [datetime] is a number of seconds since the epoch, and the clock is
      read once per request;
    - [uuid.uuid4()], [random.choice], [random.choices] and the answers of the
      catalog service are inputs of a request (its environment);
    - a service method is a function from the world (store, cache, outbox of
      the queue service) to a result and the world it leaves behind: a raised
      exception keeps the writes made before it. *)

From Stdlib Require Import ZArith Floats Ascii DecimalString.
From stdpp Require Import gmap strings list.

Local Open Scope string_scope.
Local Open Scope Z_scope.

(** ** Python values *)

Module Py.

(** [datetime]: seconds since the epoch. *)
Definition datetime := Z.

Definition seconds_per_day : Z := 86400.

(** [datetime.combine(t.date(), datetime.min.time())] *)
Definition start_of_day (t : datetime) : datetime :=
  (t / seconds_per_day) * seconds_per_day.

(** [timedelta(minutes=m)] and [timedelta(days=d)] *)
Definition minutes (m : Z) : Z := 60 * m.
Definition days (d : Z) : Z := seconds_per_day * d.

(** [int(td.total_seconds() / 60)]: truncation towards zero. *)
Definition whole_minutes (seconds : Z) : Z := Z.quot seconds 60.

(** [float(n)] for a Python int: the nearest binary64 number. *)
Definition float_of_Z (n : Z) : float :=
  SF2Prim (binary_normalize prec emax n 0 false).

(** The integer nearest to [a / b] for [0 < b], ties going to the even
    one (the rounding of [round] on the exact decimal expansion). *)
Definition round_half_even (a b : Z) : Z :=
  let q := a / b in
  match (2 * (a mod b)) ?= b with
  | Lt => q
  | Gt => q + 1
  | Eq => if Z.even q then q else q + 1
  end.

(** [round(x, 2)] on a float: the exact value of [x] is rounded half-even
    to two decimals and the nearest float to that decimal is returned.
    When the hundredths no longer fit in 53 bits, the spacing of floats
    around [x] exceeds 0.01 and [x] itself is the answer; zeros,
    infinities and nan are returned as they are. *)
Definition round2 (x : float) : float :=
  match Prim2SF x with
  | S754_finite s m e =>
      if 0 <=? e then x
      else
        let q := round_half_even (Z.pos m * 100) (2 ^ (- e)) in
        if q <? 2 ^ 53 then
          let r := (float_of_Z q / float_of_Z 100)%float in
          if s then (- r)%float else r
        else x
  | _ => x
  end.

(** [str(n)] for an int. *)
Definition str_of_Z (n : Z) : string :=
  NilZero.string_of_int (Z.to_int n).

Fixpoint zeros (k : nat) : string :=
  match k with
  | O => ""
  | S k' => String "0"%char (zeros k')
  end.

(** [f"{n:03d}"]: sign first, then zeros up to a width of three
    characters, then the decimal digits. *)
Definition format_03d (n : Z) : string :=
  if n <? 0 then
    let d := str_of_Z (- n) in
    "-" +:+ zeros (2 - String.length d) +:+ d
  else
    let d := str_of_Z n in
    zeros (3 - String.length d) +:+ d.

(** Truthiness of an [Optional[str]]: [None] and [""] are falsy. *)
Definition truthy (s : option string) : bool :=
  match s with
  | Some s' => negb (String.eqb s' "")
  | None => false
  end.

(** [a or b] on optional strings. *)
Definition or_else (a : option string) (b : string) : string :=
  match a with
  | Some s => if String.eqb s "" then b else s
  | None => b
  end.

(** [s.replace(old, new)] for a non-empty [old]: the occurrences of [old]
    are replaced from the left, without overlap. [skip] counts the
    characters of a matched occurrence that are still to be dropped. *)
Fixpoint replace_from (old new : string) (skip : nat) (s : string) : string :=
  match s with
  | EmptyString => EmptyString
  | String c r =>
      match skip with
      | S k => replace_from old new k r
      | O =>
          if String.prefix old s
          then new +:+ replace_from old new (pred (String.length old)) r
          else String c (replace_from old new O r)
      end
  end.

Definition replace (old new s : string) : string := replace_from old new O s.

End Py.

Abbreviation datetime := Py.datetime.

(** ** config.py *)

Module settings.
Definition REDIS_CACHE_TTL : Z := 300.
Definition DEFAULT_TAX_PERCENTAGE : float := 5%float.
Definition ORDER_NUMBER_PREFIX : string := "ORD".
Definition TOKEN_PREFIX_OPTIONS : list string := ["A"; "B"; "C"; "D"; "E"].
Definition MAX_CART_ITEMS : Z := 50.
Definition MAX_QUANTITY_PER_ITEM : Z := 50.
End settings.

(** ** schemas.py: enumerations *)

Module OrderStatus.
Inductive t :=
  CART | PENDING | CONFIRMED | PREPARING | READY | COMPLETED | CANCELLED | REFUNDED.

#[global] Instance eq_dec : EqDecision t.
Proof. solve_decision. Defined.

(** The value of the member, which is what JSON carries and what an
    f-string prints for a [str] enumeration up to Python 3.10. *)
Definition value (s : t) : string :=
  match s with
  | CART => "CART" | PENDING => "PENDING" | CONFIRMED => "CONFIRMED"
  | PREPARING => "PREPARING" | READY => "READY" | COMPLETED => "COMPLETED"
  | CANCELLED => "CANCELLED" | REFUNDED => "REFUNDED"
  end.
End OrderStatus.

Module PaymentMethod.
Inductive t := CASH | UPI | CARD | WALLET | CAMPUS_CARD | MEAL_COUPON.

Definition value (m : t) : string :=
  match m with
  | CASH => "CASH" | UPI => "UPI" | CARD => "CARD" | WALLET => "WALLET"
  | CAMPUS_CARD => "CAMPUS_CARD" | MEAL_COUPON => "MEAL_COUPON"
  end.
End PaymentMethod.

Module PaymentStatus.
Inductive t := PENDING | PROCESSING | COMPLETED | FAILED | REFUNDED | CANCELLED.

#[global] Instance eq_dec : EqDecision t.
Proof. solve_decision. Defined.

Definition value (s : t) : string :=
  match s with
  | PENDING => "PENDING" | PROCESSING => "PROCESSING" | COMPLETED => "COMPLETED"
  | FAILED => "FAILED" | REFUNDED => "REFUNDED" | CANCELLED => "CANCELLED"
  end.
End PaymentStatus.

Module CardType.
Inductive t := VISA | MASTERCARD | RUPAY | AMEX.
End CardType.

(** ** Documents of the store

    One record per collection; a key that a document may lack is an
    [option]. Field names are the keys of the documents. *)

Module Customization.
(** [CustomizationSchema] *)
Record t := mk {
  customization_id : string;
  customization_name : string;
  selected_label : string;
  selected_value : string;
  price_modifier : float
}.
End Customization.

Module Cart.
Record t := mk {
  id : string;
  user_id : string;
  subtotal : float;
  tax : float;
  tax_percentage : float;
  total : float;
  item_count : Z;
  created_at : datetime;
  updated_at : datetime
}.

(** [{"$set": {"subtotal", "tax", "total", "item_count", "updated_at"}}] *)
Definition set_totals (st tx tt : float) (n : Z) (now : datetime) (c : t) : t :=
  mk (id c) (user_id c) st tx (tax_percentage c) tt n (created_at c) now.
End Cart.

Module CartItem.
Record t := mk {
  id : string;
  cart_id : string;
  menu_item_id : string;
  menu_item_name : string;
  menu_item_image : option string;
  quantity : Z;
  unit_price : float;
  total_price : float;
  special_instructions : option string;
  added_at : datetime;
  updated_at : datetime
}.

(** [{"$set": {"quantity", "total_price", "updated_at"}}] *)
Definition set_quantity (q : Z) (tp : float) (now : datetime) (i : t) : t :=
  mk (id i) (cart_id i) (menu_item_id i) (menu_item_name i) (menu_item_image i)
     q (unit_price i) tp (special_instructions i) (added_at i) now.

(** The [update_data] dictionary of [update_cart_item]: each key is set
    only when it is present. *)
Definition set_update_data (q : option (Z * float)) (si : option string)
    (now : datetime) (i : t) : t :=
  mk (id i) (cart_id i) (menu_item_id i) (menu_item_name i) (menu_item_image i)
     (from_option fst (quantity i) q) (unit_price i)
     (from_option snd (total_price i) q)
     (match si with Some s => Some s | None => special_instructions i end)
     (added_at i) now.
End CartItem.

Module CartItemCustomization.
Record t := mk {
  id : string;
  cart_item_id : string;
  custom : Customization.t
}.
End CartItemCustomization.

Module Order.
Record t := mk {
  id : string;
  order_number : string;
  user_id : string;
  user_name : option string;
  user_email : option string;
  user_phone : option string;
  status : OrderStatus.t;
  subtotal : float;
  tax : float;
  total : float;
  special_instructions : option string;
  estimated_preparation_time : Z;
  estimated_ready_time : option datetime;
  actual_preparation_time : option Z;
  actual_ready_time : option datetime;
  completed_at : option datetime;
  cancelled_at : option datetime;
  cancellation_reason : option string;
  cancelled_by : option string;
  rating : option Z;
  feedback : option string;
  feedback_submitted_at : option datetime;
  created_at : datetime;
  updated_at : datetime
}.

(** The [update_data] of [update_order_status]: status and [updated_at]
    always, the other keys when the branch taken sets them. *)
Definition set_status (s : OrderStatus.t) (now : datetime)
    (est : option (Z * datetime)) (ready : option (datetime * option Z))
    (completed : option datetime) (o : t) : t :=
  mk (id o) (order_number o) (user_id o) (user_name o) (user_email o) (user_phone o)
     s (subtotal o) (tax o) (total o) (special_instructions o)
     (from_option fst (estimated_preparation_time o) est)
     (match est with Some e => Some (snd e) | None => estimated_ready_time o end)
     (match ready with
      | Some (_, Some m) => Some m
      | _ => actual_preparation_time o
      end)
     (match ready with Some r => Some (fst r) | None => actual_ready_time o end)
     (match completed with Some c => Some c | None => completed_at o end)
     (cancelled_at o) (cancellation_reason o) (cancelled_by o)
     (rating o) (feedback o) (feedback_submitted_at o) (created_at o) now.

(** [{"$set": {"status": CANCELLED, "cancelled_at", "cancellation_reason",
    "cancelled_by", "updated_at"}}] *)
Definition set_cancelled (reason by_user : string) (now : datetime) (o : t) : t :=
  mk (id o) (order_number o) (user_id o) (user_name o) (user_email o) (user_phone o)
     OrderStatus.CANCELLED (subtotal o) (tax o) (total o) (special_instructions o)
     (estimated_preparation_time o) (estimated_ready_time o)
     (actual_preparation_time o) (actual_ready_time o) (completed_at o)
     (Some now) (Some reason) (Some by_user)
     (rating o) (feedback o) (feedback_submitted_at o) (created_at o) now.

(** [{"$set": {"rating", "feedback", "feedback_submitted_at", "updated_at"}}];
    a [feedback] of [None] is stored as such. *)
Definition set_feedback (r : Z) (fb : option string) (now : datetime) (o : t) : t :=
  mk (id o) (order_number o) (user_id o) (user_name o) (user_email o) (user_phone o)
     (status o) (subtotal o) (tax o) (total o) (special_instructions o)
     (estimated_preparation_time o) (estimated_ready_time o)
     (actual_preparation_time o) (actual_ready_time o) (completed_at o)
     (cancelled_at o) (cancellation_reason o) (cancelled_by o)
     (Some r) fb (Some now) (created_at o) now.
End Order.

Module OrderItem.
Record t := mk {
  id : string;
  order_id : string;
  menu_item_id : string;
  menu_item_name : string;
  menu_item_image : option string;
  quantity : Z;
  unit_price : float;
  total_price : float;
  special_instructions : option string
}.
End OrderItem.

Module OrderItemCustomization.
Record t := mk {
  id : string;
  order_item_id : string;
  custom : Customization.t
}.
End OrderItemCustomization.

Module OrderToken.
Record t := mk {
  id : string;
  order_id : string;
  token : string;
  token_number : Z;
  token_prefix : string;
  generated_at : datetime;
  expires_at : datetime
}.
End OrderToken.

Module Payment.
Record t := mk {
  id : string;
  order_id : string;
  method : PaymentMethod.t;
  status : PaymentStatus.t;
  amount : float;
  upi_id : option string;
  card_last_4_digits : option string;
  card_type : option CardType.t;
  initiated_at : datetime;
  retry_count : Z
}.

(** [{"$set": {"status": s}}] *)
Definition set_status (s : PaymentStatus.t) (p : t) : t :=
  mk (id p) (order_id p) (method p) s (amount p) (upi_id p)
     (card_last_4_digits p) (card_type p) (initiated_at p) (retry_count p).
End Payment.

Module TimelineEntry.
Record t := mk {
  id : string;
  order_id : string;
  status : OrderStatus.t;
  message : string;
  updated_by : option string;
  updated_by_name : option string;
  timestamp : datetime
}.
End TimelineEntry.

Module ItemFeedback.
Record t := mk {
  id : string;
  order_id : string;
  order_item_id : string;
  rating : Z;
  comment : option string;
  created_at : datetime
}.
End ItemFeedback.

(** ** schemas.py: requests and responses *)

Module CartItemResponse.
Record t := mk {
  item : CartItem.t;
  customizations : list Customization.t
}.
End CartItemResponse.

Module CartResponse.
Record t := mk {
  cart : Cart.t;
  items : list CartItemResponse.t
}.
End CartResponse.

Module OrderItemResponse.
Record t := mk {
  item : OrderItem.t;
  customizations : list Customization.t
}.
End OrderItemResponse.

Module OrderResponse.
Record t := mk {
  order : Order.t;
  items : list OrderItemResponse.t;
  token : option OrderToken.t;
  payment : option Payment.t;
  timeline : list TimelineEntry.t
}.
End OrderResponse.

Module AddToCartRequest.
Record t := mk {
  menu_item_id : string;
  quantity : Z;
  special_instructions : option string;
  customizations : option (list Customization.t)
}.
End AddToCartRequest.

Module UpdateCartItemRequest.
Record t := mk {
  quantity : option Z;
  special_instructions : option string;
  customizations : option (list Customization.t)
}.
End UpdateCartItemRequest.

Module CreateOrderRequest.
Record t := mk {
  payment_method : PaymentMethod.t;
  special_instructions : option string;
  upi_id : option string;
  card_last_4_digits : option string;
  card_type : option CardType.t
}.
End CreateOrderRequest.

Module UpdateOrderStatusRequest.
Record t := mk {
  status : OrderStatus.t;
  message : option string;
  estimated_preparation_time : option Z
}.
End UpdateOrderStatusRequest.

Module CancelOrderRequest.
Record t := mk { cancellation_reason : string }.
End CancelOrderRequest.

Module OrderItemFeedbackRequest.
Record t := mk {
  order_item_id : string;
  rating : Z;
  comment : option string
}.
End OrderItemFeedbackRequest.

Module OrderFeedbackRequest.
Record t := mk {
  rating : Z;
  feedback : option string;
  item_feedback : option (list OrderItemFeedbackRequest.t)
}.
End OrderFeedbackRequest.

(** The user dictionary that the authentication layer hands to the routes;
    [role] and [roles] default to [""] and [[]]. *)
Module User.
Record t := mk {
  id : string;
  name : option string;
  email : option string;
  phone : option string;
  role : string;
  roles : list string
}.
End User.

(** What the catalog service answers for an item. *)
Module MenuItem.
Record t := mk {
  name : string;
  price : float;
  image : option string
}.
End MenuItem.

(** The JSON body and bearer credential of a POST to the queue service. *)
Module QueuePost.
Record t := mk {
  order_id : string;
  user_id : string;
  user_name : string;
  user_phone : string;
  item_count : Z;
  priority : string;
  bearer : string
}.
End QueuePost.

(** ** The world: store, cache and queue outbox *)

Module Store.
Record t := mk {
  shopping_carts : list Cart.t;
  cart_items : list CartItem.t;
  cart_item_customizations : list CartItemCustomization.t;
  orders : list Order.t;
  order_items : list OrderItem.t;
  order_item_customizations : list OrderItemCustomization.t;
  order_tokens : list OrderToken.t;
  payments : list Payment.t;
  order_timeline : list TimelineEntry.t;
  order_item_feedback : list ItemFeedback.t
}.

Definition empty : t := mk [] [] [] [] [] [] [] [] [] [].

Definition on_shopping_carts (f : list Cart.t → list Cart.t) (s : t) : t :=
  mk (f (shopping_carts s)) (cart_items s) (cart_item_customizations s)
    (orders s) (order_items s) (order_item_customizations s) (order_tokens s)
    (payments s) (order_timeline s) (order_item_feedback s).

Definition on_cart_items (f : list CartItem.t → list CartItem.t) (s : t) : t :=
  mk (shopping_carts s) (f (cart_items s)) (cart_item_customizations s)
    (orders s) (order_items s) (order_item_customizations s) (order_tokens s)
    (payments s) (order_timeline s) (order_item_feedback s).

Definition on_cart_item_customizations (f : list CartItemCustomization.t → list CartItemCustomization.t)
    (s : t) : t :=
  mk (shopping_carts s) (cart_items s) (f (cart_item_customizations s))
    (orders s) (order_items s) (order_item_customizations s) (order_tokens s)
    (payments s) (order_timeline s) (order_item_feedback s).

Definition on_orders (f : list Order.t → list Order.t) (s : t) : t :=
  mk (shopping_carts s) (cart_items s) (cart_item_customizations s)
    (f (orders s)) (order_items s) (order_item_customizations s)
    (order_tokens s) (payments s) (order_timeline s) (order_item_feedback s).

Definition on_order_items (f : list OrderItem.t → list OrderItem.t)
    (s : t) : t :=
  mk (shopping_carts s) (cart_items s) (cart_item_customizations s) (orders s)
    (f (order_items s)) (order_item_customizations s) (order_tokens s)
    (payments s) (order_timeline s) (order_item_feedback s).

Definition on_order_item_customizations (f : list OrderItemCustomization.t → list OrderItemCustomization.t)
    (s : t) : t :=
  mk (shopping_carts s) (cart_items s) (cart_item_customizations s) (orders s)
    (order_items s) (f (order_item_customizations s)) (order_tokens s)
    (payments s) (order_timeline s) (order_item_feedback s).

Definition on_order_tokens (f : list OrderToken.t → list OrderToken.t)
    (s : t) : t :=
  mk (shopping_carts s) (cart_items s) (cart_item_customizations s) (orders s)
    (order_items s) (order_item_customizations s) (f (order_tokens s))
    (payments s) (order_timeline s) (order_item_feedback s).

Definition on_payments (f : list Payment.t → list Payment.t) (s : t) : t :=
  mk (shopping_carts s) (cart_items s) (cart_item_customizations s) (orders s)
    (order_items s) (order_item_customizations s) (order_tokens s)
    (f (payments s)) (order_timeline s) (order_item_feedback s).

Definition on_order_timeline (f : list TimelineEntry.t → list TimelineEntry.t)
    (s : t) : t :=
  mk (shopping_carts s) (cart_items s) (cart_item_customizations s) (orders s)
    (order_items s) (order_item_customizations s) (order_tokens s)
    (payments s) (f (order_timeline s)) (order_item_feedback s).

Definition on_order_item_feedback (f : list ItemFeedback.t → list ItemFeedback.t)
    (s : t) : t :=
  mk (shopping_carts s) (cart_items s) (cart_item_customizations s) (orders s)
    (order_items s) (order_item_customizations s) (order_tokens s)
    (payments s) (order_timeline s) (f (order_item_feedback s)).
End Store.

(** Redis holds two families of keys, [cart:{user_id}] and
    [order:{order_id}]; each family is a map from the variable part of the
    key to the instant the entry expires at and the value stored. *)
Module Redis.
Record t := mk {
  cart : gmap string (datetime * CartResponse.t);
  order : gmap string (datetime * Order.t)
}.

Definition empty : t := mk ∅ ∅.
End Redis.

Module World.
Record t := mk {
  db : Store.t;
  redis : Redis.t;
  queue : list QueuePost.t
}.

Definition empty : t := mk Store.empty Redis.empty [].

Definition on_db (f : Store.t → Store.t) (w : t) : t :=
  mk (f (db w)) (redis w) (queue w).

Definition on_redis (f : Redis.t → Redis.t) (w : t) : t :=
  mk (db w) (f (redis w)) (queue w).

Definition on_queue (f : list QueuePost.t → list QueuePost.t) (w : t) : t :=
  mk (db w) (redis w) (f (queue w)).
End World.

(** ** MongoDB collections *)

Module Mongo.
Section Collection.
Context {A : Type}.

(** [collection.find_one(query)]: the first match. *)
Definition find_one (q : A → bool) (c : list A) : option A := List.find q c.

(** [collection.find(query)]: the matches, in insertion order. *)
Definition find (q : A → bool) (c : list A) : list A := List.filter q c.

Definition count_documents (q : A → bool) (c : list A) : Z :=
  Z.of_nat (length (List.filter q c)).

(** [collection.update_one(query, {"$set": ...})]: the first match is
    rewritten; without a match nothing changes. *)
Fixpoint update_one (q : A → bool) (f : A → A) (c : list A) : list A :=
  match c with
  | [] => []
  | d :: r => if q d then f d :: r else d :: update_one q f r
  end.

Definition delete_many (q : A → bool) (c : list A) : list A :=
  List.filter (λ d, negb (q d)) c.

(** [collection.delete_one(query)]: the first match is removed. *)
Fixpoint delete_one (q : A → bool) (c : list A) : list A :=
  match c with
  | [] => []
  | d :: r => if q d then r else d :: delete_one q r
  end.

(** [result.deleted_count] of [delete_one]. *)
Definition deleted_count (q : A → bool) (c : list A) : Z :=
  if existsb q c then 1 else 0.

(** A unique index on key [k] refuses a document whose key is already
    stored. *)
Definition duplicate_key (unique : list (A → string)) (doc : A) (c : list A) : bool :=
  existsb (λ d, existsb (λ k, String.eqb (k d) (k doc)) unique) c.

(** [collection.insert_one(doc)] under the unique indexes [unique]:
    [None] stands for DuplicateKeyError. *)
Definition insert_one (unique : list (A → string)) (doc : A) (c : list A)
    : option (list A) :=
  if duplicate_key unique doc c then None else Some (c ++ [doc])%list.

(** [cursor.sort(key, -1)]: descending, documents of equal key staying
    in insertion order. *)
Fixpoint insert_desc (key : A → Z) (d : A) (sorted : list A) : list A :=
  match sorted with
  | [] => [d]
  | d' :: r => if key d' <? key d then d :: d' :: r else d' :: insert_desc key d r
  end.

Definition sort_desc (key : A → Z) (c : list A) : list A :=
  fold_left (λ sorted d, insert_desc key d sorted) c [].

(** [cursor.skip(n)] for [0 <= n]; the driver refuses a negative [n] with
    ValueError("skip must be >= 0"). *)
Definition skip (n : Z) (c : list A) : list A := List.skipn (Z.to_nat n) c.

(** [cursor.limit(n)]: a limit of 0 is no limit, and the sign of a
    negative limit is dropped. *)
Definition limit (n : Z) (c : list A) : list A :=
  if n =? 0 then c else List.firstn (Z.to_nat (Z.abs n)) c.

End Collection.
End Mongo.

(** The unique indexes of database.py, [create_indexes]. *)
Module Index.
Definition shopping_carts : list (Cart.t → string) := [Cart.user_id].
Definition orders : list (Order.t → string) := [Order.order_number].
Definition order_tokens : list (OrderToken.t → string) :=
  [OrderToken.order_id; OrderToken.token].
Definition payments : list (Payment.t → string) := [Payment.order_id].
End Index.

(** ** Requests as state transformers that may raise *)

Inductive Exception :=
| ValueError (msg : string)
| DuplicateKeyError.

Inductive Result (A : Type) :=
| Ok (a : A)
| Raise (e : Exception).
Arguments Ok {A} a.
Arguments Raise {A} e.

Definition M (A : Type) : Type := World.t → Result A * World.t.

Definition ret {A} (a : A) : M A := λ w, (Ok a, w).

Definition bind {A B} (m : M A) (k : A → M B) : M B :=
  λ w, match m w with
       | (Ok a, w') => k a w'
       | (Raise e, w') => (Raise e, w')
       end.

Definition raise {A} (e : Exception) : M A := λ w, (Raise e, w).

Notation "'let*' x ':=' m 'in' k" := (bind m (λ x, k))
  (at level 10, x pattern, m at level 100, k at level 200).
Notation "m1 ';;' m2" := (bind m1 (λ _, m2))
  (at level 100, m2 at level 200, right associativity).

(** A read of the store. *)
Definition query {A} (f : Store.t → A) : M A := λ w, (Ok (f (World.db w)), w).

(** A write to the store that cannot fail. *)
Definition write (f : Store.t → Store.t) : M unit :=
  λ w, (Ok tt, World.on_db f w).

(** [await collection.insert_one(doc)] *)
Definition insert {A} (coll : Store.t → list A)
    (on_coll : (list A → list A) → Store.t → Store.t)
    (unique : list (A → string)) (doc : A) : M unit :=
  λ w, match Mongo.insert_one unique doc (coll (World.db w)) with
       | Some c' => (Ok tt, World.on_db (on_coll (λ _, c')) w)
       | None => (Raise DuplicateKeyError, w)
       end.

(** [for x in xs: await body(i, x)], with the index of the iteration. *)
Fixpoint for_each {A} (body : nat → A → M unit) (i : nat) (xs : list A) : M unit :=
  match xs with
  | [] => ret tt
  | x :: r => body i x ;; for_each body (S i) r
  end.

(** [ys = []; for x in xs: ys.append(await f(x))] *)
Fixpoint map_m {A B} (f : A → M B) (xs : list A) : M (list B) :=
  match xs with
  | [] => ret []
  | x :: r =>
      let* y := f x in
      let* ys := map_m f r in
      ret (y :: ys)
  end.

(** ** The environment of a request *)

Module Env.
Record t := mk {
  (** [datetime.utcnow()] *)
  utcnow : datetime;
  (** [str(uuid.uuid4())] at the call site numbered by its position in the
      method and the indices of the loops around it *)
  uuid4 : list nat → string;
  (** [fetch_menu_item_details(menu_item_id)] *)
  fetch_menu_item_details : string → option MenuItem.t;
  (** [datetime.now().strftime("%Y%m%d%H%M%S")] *)
  strftime_now : string;
  (** [''.join(random.choices(string.digits, k=4))] *)
  random_digits : string;
  (** the index that [random.choice] draws *)
  randbelow : nat
}.
End Env.

(** ** utils.py *)

Definition generate_order_number (env : Env.t) : string :=
  settings.ORDER_NUMBER_PREFIX +:+ Env.strftime_now env +:+ Env.random_digits env.

(** [random.choice(seq)] is [seq[i]] for the index [i] drawn below
    [len(seq)]; no other index is ever drawn. *)
Definition random_choice (i : nat) (seq : list string) : string :=
  default "" (seq !! i).

Definition generate_order_token (env : Env.t) (token_number : Z) : string * string :=
  let prefix := random_choice (Env.randbelow env) settings.TOKEN_PREFIX_OPTIONS in
  let token := prefix +:+ Py.format_03d token_number in
  (token, prefix).

Definition calculate_tax (subtotal : float) (tax_percentage : option float) : float :=
  let tax_percentage := default settings.DEFAULT_TAX_PERCENTAGE tax_percentage in
  let tax := ((subtotal * tax_percentage) / Py.float_of_Z 100)%float in
  Py.round2 tax.

Definition calculate_total (subtotal tax : float) : float :=
  Py.round2 (subtotal + tax)%float.

Definition estimate_preparation_time (item_count : Z) : Z :=
  let base_time := 10 in
  let additional_time := item_count * 2 in
  base_time + additional_time.

Definition calculate_estimated_ready_time (env : Env.t) (preparation_time : Z) : datetime :=
  Env.utcnow env + Py.minutes preparation_time.

(** The POST is attempted and its failure swallowed: the outbox records
    the attempt. *)
Definition notify_queue_service (order_id user_id auth_token : string)
    (user_name user_phone : string) (item_count : Z) : M unit :=
  λ w, (Ok tt, World.on_queue
          (λ q, (q ++ [QueuePost.mk order_id user_id user_name user_phone
                         item_count "NORMAL" auth_token])%list) w).

(** [cache_get], [cache_set] and [cache_delete] on the two key families. *)
Definition live {V} (now : datetime) (e : option (datetime * V)) : option V :=
  match e with
  | Some (expires, v) => if now <? expires then Some v else None
  | None => None
  end.

Definition cache_get_cart (env : Env.t) (user_id : string) : M (option CartResponse.t) :=
  λ w, (Ok (live (Env.utcnow env) (Redis.cart (World.redis w) !! user_id)), w).

Definition cache_get_order (env : Env.t) (order_id : string) : M (option Order.t) :=
  λ w, (Ok (live (Env.utcnow env) (Redis.order (World.redis w) !! order_id)), w).

Definition cache_set_cart (env : Env.t) (user_id : string) (v : CartResponse.t) : M unit :=
  λ w, (Ok tt, World.on_redis
          (λ r, Redis.mk (<[user_id := (Env.utcnow env + settings.REDIS_CACHE_TTL, v)]>
                            (Redis.cart r)) (Redis.order r)) w).

Definition cache_set_order (env : Env.t) (order_id : string) (v : Order.t) : M unit :=
  λ w, (Ok tt, World.on_redis
          (λ r, Redis.mk (Redis.cart r)
                  (<[order_id := (Env.utcnow env + settings.REDIS_CACHE_TTL, v)]>
                     (Redis.order r))) w).

Definition cache_delete_cart (user_id : string) : M unit :=
  λ w, (Ok tt, World.on_redis
          (λ r, Redis.mk (delete user_id (Redis.cart r)) (Redis.order r)) w).

Definition cache_delete_order (order_id : string) : M unit :=
  λ w, (Ok tt, World.on_redis
          (λ r, Redis.mk (Redis.cart r) (delete order_id (Redis.order r))) w).

(** [cache_delete_pattern(redis, f"orders:{user_id}:*")]: no key of the two
    families starts with [orders:], so the sweep finds nothing to delete. *)
Definition cache_delete_pattern_orders (user_id : string) : M unit := ret tt.

(** ** services/cart_service.py *)

Module CartService.

Definition by_user (user_id : string) (c : Cart.t) : bool :=
  String.eqb (Cart.user_id c) user_id.

Definition by_id (cart_id : string) (c : Cart.t) : bool :=
  String.eqb (Cart.id c) cart_id.

Definition in_cart (cart_id : string) (i : CartItem.t) : bool :=
  String.eqb (CartItem.cart_id i) cart_id.

Definition item_by_id (item_id : string) (i : CartItem.t) : bool :=
  String.eqb (CartItem.id i) item_id.

Definition of_item (cart_item_id : string) (c : CartItemCustomization.t) : bool :=
  String.eqb (CartItemCustomization.cart_item_id c) cart_item_id.

Definition get_or_create_cart (env : Env.t) (user_id : string) : M Cart.t :=
  let* cart := query (λ s, Mongo.find_one (by_user user_id) (Store.shopping_carts s)) in
  match cart with
  | Some cart => ret cart
  | None =>
      let cart := Cart.mk (Env.uuid4 env [0%nat]) user_id 0%float 0%float
                    settings.DEFAULT_TAX_PERCENTAGE 0%float 0
                    (Env.utcnow env) (Env.utcnow env) in
      insert Store.shopping_carts Store.on_shopping_carts Index.shopping_carts cart ;;
      ret cart
  end.

(** The items of a cart with the customizations of each, as [get_cart]
    assembles them. *)
Definition cart_items_of (s : Store.t) (cart_id : string) : list CartItemResponse.t :=
  List.map
    (λ item, CartItemResponse.mk item
       (List.map CartItemCustomization.custom
          (Mongo.find (of_item (CartItem.id item)) (Store.cart_item_customizations s))))
    (Mongo.find (in_cart cart_id) (Store.cart_items s)).

Definition get_cart (env : Env.t) (user_id : string) : M CartResponse.t :=
  let* cached := cache_get_cart env user_id in
  match cached with
  | Some cached => ret cached
  | None =>
      let* cart := get_or_create_cart env user_id in
      let* items := query (λ s, cart_items_of s (Cart.id cart)) in
      let response := CartResponse.mk cart items in
      cache_set_cart env user_id response ;;
      ret response
  end.

(** The running sums of [recalculate_cart], from [0.0] and [0]. *)
Definition sum_total_price (items : list CartItem.t) : float :=
  fold_left (λ subtotal item, (subtotal + CartItem.total_price item)%float) items 0%float.

Definition sum_quantity (items : list CartItem.t) : Z :=
  fold_left (λ item_count item, item_count + CartItem.quantity item) items 0.

Definition recalculate_cart (env : Env.t) (cart_id : string) : M unit :=
  let* items := query (λ s, Mongo.find (in_cart cart_id) (Store.cart_items s)) in
  let subtotal := sum_total_price items in
  let item_count := sum_quantity items in
  let tax := calculate_tax subtotal None in
  let total := calculate_total subtotal tax in
  write (Store.on_shopping_carts
           (Mongo.update_one (by_id cart_id)
              (Cart.set_totals subtotal tax total item_count (Env.utcnow env)))).

(** The customizations of a request replace those stored for the item;
    [site] numbers the call site of [uuid4]. *)
Definition replace_customizations (env : Env.t) (site : nat) (cart_item_id : string)
    (customs : list Customization.t) : M unit :=
  write (Store.on_cart_item_customizations (Mongo.delete_many (of_item cart_item_id))) ;;
  for_each
    (λ k custom,
       insert Store.cart_item_customizations Store.on_cart_item_customizations []
         (CartItemCustomization.mk (Env.uuid4 env [site; k]) cart_item_id custom))
    0%nat customs.

Definition max_quantity_message : string :=
  "Maximum quantity per item is " +:+ Py.str_of_Z settings.MAX_QUANTITY_PER_ITEM.

Definition add_to_cart (env : Env.t) (user_id : string) (request : AddToCartRequest.t)
    : M CartResponse.t :=
  let* cart := get_or_create_cart env user_id in
  match Env.fetch_menu_item_details env (AddToCartRequest.menu_item_id request) with
  | None => raise (ValueError "Menu item not found")
  | Some menu_item =>
      let* existing_item :=
        query (λ s, Mongo.find_one
                      (λ i, in_cart (Cart.id cart) i &&
                            String.eqb (CartItem.menu_item_id i)
                              (AddToCartRequest.menu_item_id request))
                      (Store.cart_items s)) in
      let* cart_item_id :=
        match existing_item with
        | Some existing_item =>
            let new_quantity :=
              CartItem.quantity existing_item + AddToCartRequest.quantity request in
            if settings.MAX_QUANTITY_PER_ITEM <? new_quantity then
              raise (ValueError max_quantity_message)
            else
              let total_price :=
                (MenuItem.price menu_item * Py.float_of_Z new_quantity)%float in
              write (Store.on_cart_items
                       (Mongo.update_one (item_by_id (CartItem.id existing_item))
                          (CartItem.set_quantity new_quantity total_price
                             (Env.utcnow env)))) ;;
              ret (CartItem.id existing_item)
        | None =>
            let cart_item_id := Env.uuid4 env [1%nat] in
            let total_price :=
              (MenuItem.price menu_item
               * Py.float_of_Z (AddToCartRequest.quantity request))%float in
            let cart_item :=
              CartItem.mk cart_item_id (Cart.id cart)
                (AddToCartRequest.menu_item_id request)
                (MenuItem.name menu_item) (MenuItem.image menu_item)
                (AddToCartRequest.quantity request)
                (MenuItem.price menu_item) total_price
                (AddToCartRequest.special_instructions request)
                (Env.utcnow env) (Env.utcnow env) in
            insert Store.cart_items Store.on_cart_items [] cart_item ;;
            ret cart_item_id
        end in
      match AddToCartRequest.customizations request with
      | Some (c :: cs) => replace_customizations env 2 cart_item_id (c :: cs)
      | _ => ret tt
      end ;;
      recalculate_cart env (Cart.id cart) ;;
      cache_delete_cart user_id ;;
      get_cart env user_id
  end.

Definition update_cart_item (env : Env.t) (user_id cart_item_id : string)
    (request : UpdateCartItemRequest.t) : M CartResponse.t :=
  let* cart := get_or_create_cart env user_id in
  let* cart_item :=
    query (λ s, Mongo.find_one
                  (λ i, item_by_id cart_item_id i && in_cart (Cart.id cart) i)
                  (Store.cart_items s)) in
  match cart_item with
  | None => raise (ValueError "Cart item not found")
  | Some cart_item =>
      let* quantity :=
        match UpdateCartItemRequest.quantity request with
        | Some quantity =>
            if settings.MAX_QUANTITY_PER_ITEM <? quantity then
              raise (ValueError max_quantity_message)
            else
              ret (Some (quantity,
                         (CartItem.unit_price cart_item * Py.float_of_Z quantity)%float))
        | None => ret None
        end in
      let special_instructions := UpdateCartItemRequest.special_instructions request in
      match quantity, special_instructions with
      | None, None => ret tt
      | _, _ =>
          write (Store.on_cart_items
                   (Mongo.update_one (item_by_id cart_item_id)
                      (CartItem.set_update_data quantity special_instructions
                         (Env.utcnow env))))
      end ;;
      match UpdateCartItemRequest.customizations request with
      | Some customs => replace_customizations env 1 cart_item_id customs
      | None => ret tt
      end ;;
      recalculate_cart env (Cart.id cart) ;;
      cache_delete_cart user_id ;;
      get_cart env user_id
  end.

Definition remove_cart_item (env : Env.t) (user_id cart_item_id : string)
    : M CartResponse.t :=
  let* cart := get_or_create_cart env user_id in
  let q := λ i, item_by_id cart_item_id i && in_cart (Cart.id cart) i in
  let* deleted_count := query (λ s, Mongo.deleted_count q (Store.cart_items s)) in
  write (Store.on_cart_items (Mongo.delete_one q)) ;;
  if deleted_count =? 0 then
    raise (ValueError "Cart item not found")
  else
    recalculate_cart env (Cart.id cart) ;;
    cache_delete_cart user_id ;;
    get_cart env user_id.

Definition clear_cart (env : Env.t) (user_id : string) : M bool :=
  let* cart := get_or_create_cart env user_id in
  write (Store.on_cart_items (Mongo.delete_many (in_cart (Cart.id cart)))) ;;
  write (Store.on_shopping_carts
           (Mongo.update_one (by_id (Cart.id cart))
              (Cart.set_totals 0%float 0%float 0%float 0 (Env.utcnow env)))) ;;
  cache_delete_cart user_id ;;
  ret true.

End CartService.

(** ** services/order_service.py *)

Module OrderService.

Definition by_id (order_id : string) (o : Order.t) : bool :=
  String.eqb (Order.id o) order_id.

(** [{"id": order_id, "user_id": user_id}] *)
Definition by_id_and_user (order_id user_id : string) (o : Order.t) : bool :=
  String.eqb (Order.id o) order_id && String.eqb (Order.user_id o) user_id.

Definition item_of (order_id : string) (i : OrderItem.t) : bool :=
  String.eqb (OrderItem.order_id i) order_id.

Definition custom_of (order_item_id : string) (c : OrderItemCustomization.t) : bool :=
  String.eqb (OrderItemCustomization.order_item_id c) order_item_id.

Definition token_of (order_id : string) (t : OrderToken.t) : bool :=
  String.eqb (OrderToken.order_id t) order_id.

Definition payment_of (order_id : string) (p : Payment.t) : bool :=
  String.eqb (Payment.order_id p) order_id.

Definition entry_of (order_id : string) (e : TimelineEntry.t) : bool :=
  String.eqb (TimelineEntry.order_id e) order_id.

(** [.sort("timestamp", 1)]: ascending and stable. *)
Fixpoint insert_by_timestamp (e : TimelineEntry.t) (l : list TimelineEntry.t)
    : list TimelineEntry.t :=
  match l with
  | [] => [e]
  | e' :: r =>
      if TimelineEntry.timestamp e <? TimelineEntry.timestamp e'
      then e :: e' :: r
      else e' :: insert_by_timestamp e r
  end.

Definition sort_by_timestamp (l : list TimelineEntry.t) : list TimelineEntry.t :=
  fold_left (λ sorted e, insert_by_timestamp e sorted) l [].

Definition _add_timeline_entry (env : Env.t) (site : list nat) (order_id : string)
    (status : OrderStatus.t) (message : string)
    (updated_by updated_by_name : option string) : M unit :=
  let entry :=
    TimelineEntry.mk (Env.uuid4 env site) order_id status message
      updated_by updated_by_name (Env.utcnow env) in
  insert Store.order_timeline Store.on_order_timeline [] entry.

Definition _get_next_token_number (env : Env.t) : M Z :=
  let today_start := Py.start_of_day (Env.utcnow env) in
  let* count :=
    query (λ s, Mongo.count_documents
                  (λ t, today_start <=? OrderToken.generated_at t)
                  (Store.order_tokens s)) in
  ret (count + 1).

Definition get_order (env : Env.t) (order_id : string) (user_id : option string)
    : M OrderResponse.t :=
  let* cached := cache_get_order env order_id in
  let* order :=
    match cached with
    | Some cached => ret cached
    | None =>
        let q := match user_id with
                 | Some u => if Py.truthy user_id
                             then by_id_and_user order_id u
                             else by_id order_id
                 | None => by_id order_id
                 end in
        let* order := query (λ s, Mongo.find_one q (Store.orders s)) in
        match order with
        | None => raise (ValueError "Order not found")
        | Some order => cache_set_order env order_id order ;; ret order
        end
    end in
  let* items :=
    query (λ s, List.map
                  (λ item, OrderItemResponse.mk item
                     (List.map OrderItemCustomization.custom
                        (Mongo.find (custom_of (OrderItem.id item))
                           (Store.order_item_customizations s))))
                  (Mongo.find (item_of order_id) (Store.order_items s))) in
  let* token := query (λ s, Mongo.find_one (token_of order_id) (Store.order_tokens s)) in
  let* payment := query (λ s, Mongo.find_one (payment_of order_id) (Store.payments s)) in
  let* timeline :=
    query (λ s, sort_by_timestamp
                  (Mongo.find (entry_of order_id) (Store.order_timeline s))) in
  ret (OrderResponse.mk order items token payment timeline).

(** The cart items read by [create_order], each with its customizations. *)
Definition cart_items_with_customizations (s : Store.t) (cart_id : string)
    : list (CartItem.t * list CartItemCustomization.t) :=
  List.map
    (λ item, (item, Mongo.find (CartService.of_item (CartItem.id item))
                      (Store.cart_item_customizations s)))
    (Mongo.find (CartService.in_cart cart_id) (Store.cart_items s)).

(** [create_order] up to and including [_get_next_token_number]: the cart
    is read and checked, the order and its items are written, and the
    tokens of the day are counted. *)
Definition create_order_begin (env : Env.t) (user_id : string) (user_data : User.t)
    (request : CreateOrderRequest.t) : M (Cart.t * string * Z) :=
  let* cart :=
    query (λ s, Mongo.find_one (CartService.by_user user_id) (Store.shopping_carts s)) in
  match cart with
  | None => raise (ValueError "Cart is empty")
  | Some cart =>
      if Cart.item_count cart =? 0 then raise (ValueError "Cart is empty")
      else
        let* cart_items :=
          query (λ s, cart_items_with_customizations s (Cart.id cart)) in
        match cart_items with
        | [] => raise (ValueError "Cart is empty")
        | _ :: _ =>
            let order_id := Env.uuid4 env [0%nat] in
            let order_number := generate_order_number env in
            let prep_time := estimate_preparation_time (Cart.item_count cart) in
            let estimated_ready := calculate_estimated_ready_time env prep_time in
            let order :=
              Order.mk order_id order_number user_id
                (User.name user_data) (User.email user_data) (User.phone user_data)
                OrderStatus.PENDING (Cart.subtotal cart) (Cart.tax cart) (Cart.total cart)
                (CreateOrderRequest.special_instructions request)
                prep_time (Some estimated_ready)
                None None None None None None None None None
                (Env.utcnow env) (Env.utcnow env) in
            insert Store.orders Store.on_orders Index.orders order ;;
            for_each
              (λ i '(cart_item, customizations),
                 let order_item_id := Env.uuid4 env [1%nat; i] in
                 let order_item :=
                   OrderItem.mk order_item_id order_id
                     (CartItem.menu_item_id cart_item) (CartItem.menu_item_name cart_item)
                     (CartItem.menu_item_image cart_item) (CartItem.quantity cart_item)
                     (CartItem.unit_price cart_item) (CartItem.total_price cart_item)
                     (CartItem.special_instructions cart_item) in
                 insert Store.order_items Store.on_order_items [] order_item ;;
                 for_each
                   (λ j custom,
                      insert Store.order_item_customizations
                        Store.on_order_item_customizations []
                        (OrderItemCustomization.mk (Env.uuid4 env [2%nat; i; j])
                           order_item_id (CartItemCustomization.custom custom)))
                   0%nat customizations)
              0%nat cart_items ;;
            let* token_number := _get_next_token_number env in
            ret (cart, order_id, token_number)
        end
  end.

(** The rest of [create_order], from [generate_order_token] on. *)
Definition create_order_finish (env : Env.t) (user_id : string) (user_data : User.t)
    (request : CreateOrderRequest.t) (auth_token : option string)
    (begun : Cart.t * string * Z) : M OrderResponse.t :=
  let '(cart, order_id, token_number) := begun in
  let '(token, token_prefix) := generate_order_token env token_number in
  let order_token :=
    OrderToken.mk (Env.uuid4 env [3%nat]) order_id token token_number token_prefix
      (Env.utcnow env) (Env.utcnow env + Py.days 1) in
  insert Store.order_tokens Store.on_order_tokens Index.order_tokens order_token ;;
  let payment :=
    Payment.mk (Env.uuid4 env [4%nat]) order_id
      (CreateOrderRequest.payment_method request) PaymentStatus.PENDING
      (Cart.total cart) (CreateOrderRequest.upi_id request)
      (CreateOrderRequest.card_last_4_digits request)
      (CreateOrderRequest.card_type request) (Env.utcnow env) 0 in
  insert Store.payments Store.on_payments Index.payments payment ;;
  _add_timeline_entry env [5%nat] order_id OrderStatus.PENDING "Order created"
    (Some user_id) (User.name user_data) ;;
  write (Store.on_cart_items (Mongo.delete_many (CartService.in_cart (Cart.id cart)))) ;;
  write (Store.on_shopping_carts
           (Mongo.update_one (CartService.by_id (Cart.id cart))
              (Cart.set_totals 0%float 0%float 0%float 0 (Env.utcnow env)))) ;;
  cache_delete_cart user_id ;;
  cache_delete_pattern_orders user_id ;;
  match auth_token with
  | Some auth_token' =>
      if Py.truthy auth_token then
        notify_queue_service order_id user_id auth_token'
          (default "" (User.name user_data)) (default "" (User.phone user_data))
          (Cart.item_count cart)
      else ret tt
  | None => ret tt
  end ;;
  get_order env order_id (Some user_id).

Definition create_order (env : Env.t) (user_id : string) (user_data : User.t)
    (request : CreateOrderRequest.t) (auth_token : option string)
    : M OrderResponse.t :=
  let* begun := create_order_begin env user_id user_data request in
  create_order_finish env user_id user_data request auth_token begun.

(** [{"user_id": user_id}], with ["status": status] when a status is
    given: every member of OrderStatus is a non-empty string, hence true. *)
Definition of_user (user_id : string) (status : option OrderStatus.t) (o : Order.t)
    : bool :=
  String.eqb (Order.user_id o) user_id
  && match status with
     | Some status => bool_decide (Order.status o = status)
     | None => true
     end.

Definition get_my_orders (env : Env.t) (user_id : string)
    (status : option OrderStatus.t) (page page_size : Z)
    : M (list OrderResponse.t * Z) :=
  let q := of_user user_id status in
  let* total := query (λ s, Mongo.count_documents q (Store.orders s)) in
  let skip := (page - 1) * page_size in
  if skip <? 0 then raise (ValueError "skip must be >= 0")
  else
    let* cursor :=
      query (λ s, Mongo.limit page_size
                    (Mongo.skip skip
                       (Mongo.sort_desc Order.created_at
                          (Mongo.find q (Store.orders s))))) in
    let* orders :=
      map_m (λ order, get_order env (Order.id order) (Some user_id)) cursor in
    ret (orders, total).

Definition update_order_status (env : Env.t) (order_id : string)
    (request : UpdateOrderStatusRequest.t) (updated_by updated_by_name : string)
    (is_staff : bool) : M OrderResponse.t :=
  let status := UpdateOrderStatusRequest.status request in
  let* order := query (λ s, Mongo.find_one (by_id order_id) (Store.orders s)) in
  match order with
  | None => raise (ValueError "Order not found")
  | Some order =>
      if negb is_staff && negb (bool_decide (status = OrderStatus.CANCELLED)) then
        raise (ValueError "Only staff can change order status")
      else
        let estimated : option (Z * datetime) :=
          match status, UpdateOrderStatusRequest.estimated_preparation_time request with
          | OrderStatus.PREPARING, Some minutes =>
              if minutes =? 0 then None
              else Some (minutes, calculate_estimated_ready_time env minutes)
          | _, _ => None
          end in
        let ready : option (datetime * option Z) :=
          match status with
          | OrderStatus.READY =>
              Some (Env.utcnow env,
                    match Order.estimated_ready_time order with
                    | Some _ =>
                        Some (Py.whole_minutes (Env.utcnow env - Order.updated_at order))
                    | None => None
                    end)
          | _ => None
          end in
        let completed : option datetime :=
          match status with
          | OrderStatus.COMPLETED => Some (Env.utcnow env)
          | _ => None
          end in
        write (Store.on_orders
                 (Mongo.update_one (by_id order_id)
                    (Order.set_status status (Env.utcnow env) estimated ready completed))) ;;
        _add_timeline_entry env [0%nat] order_id status
          (Py.or_else (UpdateOrderStatusRequest.message request)
             ("Order status changed to " +:+ OrderStatus.value status))
          (Some updated_by) (Some updated_by_name) ;;
        cache_delete_order order_id ;;
        let* token_data :=
          query (λ s, Mongo.find_one (token_of order_id) (Store.order_tokens s)) in
        match token_data with
        | Some token_data =>
            notify_queue_service order_id (Order.order_number order)
              (OrderToken.token token_data) (OrderStatus.value status) "" 0
        | None => ret tt
        end ;;
        get_order env order_id None
  end.

Definition terminal (s : OrderStatus.t) : bool :=
  match s with
  | OrderStatus.COMPLETED | OrderStatus.CANCELLED | OrderStatus.REFUNDED => true
  | _ => false
  end.

Definition cancel_order (env : Env.t) (order_id user_id : string)
    (request : CancelOrderRequest.t) : M OrderResponse.t :=
  let* order :=
    query (λ s, Mongo.find_one (by_id_and_user order_id user_id) (Store.orders s)) in
  match order with
  | None => raise (ValueError "Order not found")
  | Some order =>
      if terminal (Order.status order) then
        raise (ValueError "Order cannot be cancelled")
      else
        write (Store.on_orders
                 (Mongo.update_one (by_id order_id)
                    (Order.set_cancelled (CancelOrderRequest.cancellation_reason request)
                       user_id (Env.utcnow env)))) ;;
        write (Store.on_payments
                 (Mongo.update_one (payment_of order_id)
                    (Payment.set_status PaymentStatus.CANCELLED))) ;;
        _add_timeline_entry env [0%nat] order_id OrderStatus.CANCELLED
          ("Order cancelled: " +:+ CancelOrderRequest.cancellation_reason request)
          (Some user_id) (Order.user_name order) ;;
        cache_delete_order order_id ;;
        get_order env order_id (Some user_id)
  end.

Definition submit_feedback (env : Env.t) (order_id user_id : string)
    (request : OrderFeedbackRequest.t) : M OrderResponse.t :=
  let* order :=
    query (λ s, Mongo.find_one (by_id_and_user order_id user_id) (Store.orders s)) in
  match order with
  | None => raise (ValueError "Order not found")
  | Some order =>
      if negb (bool_decide (Order.status order = OrderStatus.COMPLETED)) then
        raise (ValueError "Can only rate completed orders")
      else
        write (Store.on_orders
                 (Mongo.update_one (by_id order_id)
                    (Order.set_feedback (OrderFeedbackRequest.rating request)
                       (OrderFeedbackRequest.feedback request) (Env.utcnow env)))) ;;
        match OrderFeedbackRequest.item_feedback request with
        | Some item_feedback =>
            for_each
              (λ k fb,
                 insert Store.order_item_feedback Store.on_order_item_feedback []
                   (ItemFeedback.mk (Env.uuid4 env [0%nat; k]) order_id
                      (OrderItemFeedbackRequest.order_item_id fb)
                      (OrderItemFeedbackRequest.rating fb)
                      (OrderItemFeedbackRequest.comment fb) (Env.utcnow env)))
              0%nat item_feedback
        | None => ret tt
        end ;;
        cache_delete_order order_id ;;
        get_order env order_id (Some user_id)
  end.

End OrderService.

(** ** routers/orders.py *)

Module Routes.

(** What a route hands to the framework: the value returned, or the
    HTTPException raised. *)
Inductive Response (A : Type) :=
| Returns (a : A)
| HTTPException (status_code : Z) (detail : string).
Arguments Returns {A} a.
Arguments HTTPException {A} status_code detail.

Definition check_staff_role (user : User.t) : bool :=
  let role := User.role user in
  let roles := User.roles user in
  (String.eqb role "staff" || String.eqb role "admin")
  || existsb (String.eqb "staff") roles
  || existsb (String.eqb "admin") roles.

(** [except ValueError] answers with [on_value_error] and the message,
    [except Exception] with 500 and [failure]. *)
Definition guarded {A} (on_value_error : Z) (failure : string) (r : Result A * World.t)
    : Response A * World.t :=
  match r with
  | (Ok a, w) => (Returns a, w)
  | (Raise (ValueError e), w) => (HTTPException on_value_error e, w)
  | (Raise _, w) => (HTTPException 500 failure, w)
  end.

(** [GET /api/orders/{order_id}] *)
Definition get_order (env : Env.t) (order_id : string) (user : User.t)
    : World.t → Response OrderResponse.t * World.t :=
  λ w,
    let user_id := User.id user in
    let is_staff := check_staff_role user in
    guarded 404 "Failed to retrieve order"
      (OrderService.get_order env order_id (if is_staff then None else Some user_id) w).

Module StatusView.
Record t := mk {
  order_id : string;
  order_number : string;
  status : OrderStatus.t;
  token : option string;
  estimated_ready_time : option datetime;
  actual_ready_time : option datetime
}.
End StatusView.


(** [PATCH /api/orders/{order_id}/status]. The HTTPException with status
    403 is raised inside the [try] block, where [except Exception] turns it
    into the 500 of the route. *)
Definition update_order_status (env : Env.t) (order_id : string)
    (request : UpdateOrderStatusRequest.t) (user : User.t)
    : World.t → Response OrderResponse.t * World.t :=
  λ w,
    let is_staff := check_staff_role user in
    if negb is_staff then
      (HTTPException 500 "Failed to update order status", w)
    else
      let user_id := User.id user in
      let user_name := default "Staff" (User.name user) in
      guarded 400 "Failed to update order status"
        (OrderService.update_order_status env order_id request user_id user_name true w).

(** [POST /api/orders]. The token handed to the service is the
    Authorization header without its occurrences of ["Bearer "]. *)
Definition create_order (env : Env.t) (request : CreateOrderRequest.t)
    (authorization : option string) (user : User.t)
    : World.t → Response OrderResponse.t * World.t :=
  λ w,
    let user_id := User.id user in
    let token :=
      match authorization with
      | Some a => if Py.truthy authorization then Some (Py.replace "Bearer " "" a) else None
      | None => None
      end in
    guarded 400 "Failed to create order"
      (OrderService.create_order env user_id user request token w).

(** [POST /api/orders/{order_id}/cancel] *)
Definition cancel_order (env : Env.t) (order_id : string) (request : CancelOrderRequest.t)
    (user : User.t) : World.t → Response OrderResponse.t * World.t :=
  λ w,
    let user_id := User.id user in
    guarded 400 "Failed to cancel order"
      (OrderService.cancel_order env order_id user_id request w).

(** [POST /api/orders/{order_id}/feedback] *)
Definition submit_feedback (env : Env.t) (order_id : string)
    (request : OrderFeedbackRequest.t) (user : User.t)
    : World.t → Response OrderResponse.t * World.t :=
  λ w,
    let user_id := User.id user in
    guarded 400 "Failed to submit feedback"
      (OrderService.submit_feedback env order_id user_id request w).

(** schemas.py: PaginatedResponse *)
Module PaginatedResponse.
Record t (A : Type) := mk {
  items : list A;
  total : Z;
  page : Z;
  page_size : Z;
  total_pages : Z;
  has_next : bool;
  has_prev : bool
}.
Arguments mk {A} items total page page_size total_pages has_next has_prev.
Arguments items {A} t.
Arguments total {A} t.
Arguments page {A} t.
Arguments page_size {A} t.
Arguments total_pages {A} t.
Arguments has_next {A} t.
Arguments has_prev {A} t.
End PaginatedResponse.

(** The page of a listing: [//] by a [page_size] of 0 raises
    ZeroDivisionError, which the [except Exception] of the listing routes
    answers like any other exception. *)
Definition paginated {A} (failure : string) (items : list A) (total page page_size : Z)
    (w : World.t) : Response (PaginatedResponse.t A) * World.t :=
  if page_size =? 0 then (HTTPException 500 failure, w)
  else
    let total_pages := (total + page_size - 1) / page_size in
    (Returns (PaginatedResponse.mk items total page page_size total_pages
                (page <? total_pages) (1 <? page)), w).

(** [GET /api/orders/my-orders]: every exception is answered with 500. *)
Definition get_my_orders (env : Env.t) (status_filter : option OrderStatus.t)
    (page page_size : Z) (user : User.t)
    : World.t → Response (PaginatedResponse.t OrderResponse.t) * World.t :=
  λ w,
    let user_id := User.id user in
    match OrderService.get_my_orders env user_id status_filter page page_size w with
    | (Ok (orders, total), w') =>
        paginated "Failed to retrieve orders" orders total page page_size w'
    | (Raise _, w') => (HTTPException 500 "Failed to retrieve orders", w')
    end.

End Routes.

(** ** routers/admin.py *)

Module Admin.

(** [require_staff(user)]: the user, or the HTTPException with status 403.
    The routes call it before their [try] block. *)
Definition require_staff (user : User.t) : Routes.Response User.t :=
  let role := User.role user in
  let roles := User.roles user in
  if negb (String.eqb role "staff" || String.eqb role "admin")
     && negb (existsb (String.eqb "staff") roles)
     && negb (existsb (String.eqb "admin") roles)
  then Routes.HTTPException 403 "Staff access required"
  else Routes.Returns user.

(** The query of [get_all_payments]: a filter that is [None] or [""] is
    left out. *)
Definition payment_query (status_filter method_filter : option string) (p : Payment.t)
    : bool :=
  match status_filter with
  | Some f => if Py.truthy status_filter
              then String.eqb (PaymentStatus.value (Payment.status p)) f
              else true
  | None => true
  end
  && match method_filter with
     | Some f => if Py.truthy method_filter
                 then String.eqb (PaymentMethod.value (Payment.method p)) f
                 else true
     | None => true
     end.

(** [GET /api/admin/payments]: a payment with the number of its order. *)
Definition get_all_payments (status_filter method_filter : option string)
    (page page_size : Z) (user : User.t)
    : World.t → Routes.Response (Routes.PaginatedResponse.t (Payment.t * option string))
                * World.t :=
  λ w,
    let roles := User.roles user in
    if negb (existsb (String.eqb "admin") roles) then
      (Routes.HTTPException 403 "Admin access required", w)
    else
      let q := payment_query status_filter method_filter in
      let total := Mongo.count_documents q (Store.payments (World.db w)) in
      let skip := (page - 1) * page_size in
      if skip <? 0 then (Routes.HTTPException 500 "Failed to retrieve payments", w)
      else
        let cursor :=
          Mongo.limit page_size
            (Mongo.skip skip
               (Mongo.sort_desc Payment.initiated_at
                  (Mongo.find q (Store.payments (World.db w))))) in
        let payments :=
          List.map
            (λ payment,
               (payment,
                Order.order_number
                  <$> Mongo.find_one (OrderService.by_id (Payment.order_id payment))
                        (Store.orders (World.db w))))
            cursor in
        Routes.paginated "Failed to retrieve payments" payments total page page_size w.

End Admin.

(** ** Sample runs *)

Module Sample.

Definition env (now : datetime) (tag : string) (r : nat) : Env.t :=
  Env.mk now
    (λ site, tag +:+ "-" +:+
             String.concat "." (List.map (λ k, Py.str_of_Z (Z.of_nat k)) site))
    (λ item, if String.eqb item "dosa"
             then Some (MenuItem.mk "Masala dosa" 100%float None)
             else if String.eqb item "chai"
             then Some (MenuItem.mk "Chai" 12.5%float None)
             else None)
    "20240301120000" (Py.format_03d (now mod 1000) +:+ "7") r.

Definition alice : User.t := User.mk "alice" (Some "Alice") None (Some "555") "" [].
Definition bob : User.t := User.mk "bob" (Some "Bob") None None "" [].
Definition staff : User.t := User.mk "carol" (Some "Carol") None None "staff" [].

Definition add (item : string) (q : Z) : AddToCartRequest.t :=
  AddToCartRequest.mk item q None None.

Definition pay_cash : CreateOrderRequest.t :=
  CreateOrderRequest.mk PaymentMethod.CASH None None None None.

(** alice has put two dosas in her cart. *)
Definition w_cart : World.t :=
  snd (CartService.add_to_cart (env 1000 "a1" 0) "alice" (add "dosa" 2) World.empty).

(** alice has ordered them. *)
Definition w_order : World.t :=
  snd (OrderService.create_order (env 2000 "o1" 0) "alice" alice pay_cash (Some "jwt")
         w_cart).

(** alice has two dosas in her cart and bob a chai in his. *)
Definition w_two_carts : World.t :=
  snd (CartService.add_to_cart (env 1100 "b1" 0) "bob" (add "chai" 1) w_cart).

Definition status_request (s : OrderStatus.t) : UpdateOrderStatusRequest.t :=
  UpdateOrderStatusRequest.mk s None None.

(** carol, of the staff, has marked the order COMPLETED. *)
Definition w_completed : World.t :=
  snd (OrderService.update_order_status (env 2600 "s1" 0) "o1-0"
         (status_request OrderStatus.COMPLETED) "carol" "Carol" true w_order).

Definition admin : User.t := User.mk "root" (Some "Root") None None "" ["admin"].

(** After alice's order, bob has ordered a chai and alice another. *)
Definition w_three_orders : World.t :=
  let w1 := snd (CartService.add_to_cart (env 3000 "b2" 0) "bob" (add "chai" 1) w_order) in
  let w2 := snd (OrderService.create_order (env 3100 "o3" 1) "bob" bob pay_cash None w1) in
  let w3 := snd (CartService.add_to_cart (env 3200 "a3" 0) "alice" (add "chai" 1) w2) in
  snd (OrderService.create_order (env 3300 "o4" 2) "alice" alice pay_cash None w3).

(** The day after her order, alice has put a chai in her cart. *)
Definition w_next_day : World.t :=
  snd (CartService.add_to_cart (env 90000 "a2" 0) "alice" (add "chai" 1) w_order).

End Sample.

(** * Vocabulary of the properties *)

(** The world after a request, whatever its result. *)
Definition after {A} (m : M A) (w : World.t) : World.t := snd (m w).

(** The order as [get_order] returns it: the order document with the
    items, token, payment and timeline read from the store. *)
Definition hydrate (s : Store.t) (order_id : string) (order : Order.t) : OrderResponse.t :=
  OrderResponse.mk order
    (List.map
       (λ item, OrderItemResponse.mk item
          (List.map OrderItemCustomization.custom
             (Mongo.find (OrderService.custom_of (OrderItem.id item))
                (Store.order_item_customizations s))))
       (Mongo.find (OrderService.item_of order_id) (Store.order_items s)))
    (Mongo.find_one (OrderService.token_of order_id) (Store.order_tokens s))
    (Mongo.find_one (OrderService.payment_of order_id) (Store.payments s))
    (OrderService.sort_by_timestamp
       (Mongo.find (OrderService.entry_of order_id) (Store.order_timeline s))).

(** The query of [get_order] on a cache miss. *)
Definition order_query (order_id : string) (user_id : option string) : Order.t → bool :=
  match user_id with
  | Some u => if Py.truthy user_id
              then OrderService.by_id_and_user order_id u
              else OrderService.by_id order_id
  | None => OrderService.by_id order_id
  end.

(** The entry of the order cache that is live at the instant of [env]. *)
Definition cached_order (env : Env.t) (w : World.t) (order_id : string) : option Order.t :=
  live (Env.utcnow env) (Redis.order (World.redis w) !! order_id).

(** Identifiers drawn by [uuid4] are unique: no two documents of a
    collection share their [id]. *)
Definition unique_order_ids (w : World.t) : Prop :=
  List.NoDup (List.map Order.id (Store.orders (World.db w))).

Definition unique_cart_ids (w : World.t) : Prop :=
  List.NoDup (List.map Cart.id (Store.shopping_carts (World.db w))).

Definition unique_cart_item_ids (w : World.t) : Prop :=
  List.NoDup (List.map CartItem.id (Store.cart_items (World.db w))).

(** ** C7 *)

(** The cart of the user is missing, counts no item, or has no line. *)
Definition cart_is_empty (w : World.t) (user_id : string) : Prop :=
  match Mongo.find_one (CartService.by_user user_id) (Store.shopping_carts (World.db w)) with
  | None => True
  | Some cart =>
      Cart.item_count cart = 0
      ∨ Mongo.find (CartService.in_cart (Cart.id cart)) (Store.cart_items (World.db w)) = []
  end.

(** ** C9 *)

(** The world without the per-item feedback entries. *)
Definition without_item_feedback (w : World.t) : World.t :=
  World.on_db (Store.on_order_item_feedback (λ _, [])) w.

(** ** C2 *)


(** The status of the stored order of a given id. *)
Definition stored_status (w : World.t) (order_id : string) : option OrderStatus.t :=
  Order.status <$> Mongo.find_one (OrderService.by_id order_id) (Store.orders (World.db w)).

(** ** C4 *)


(** The tokens issued on the day of [now]. *)
Definition issued_today (now : datetime) (w : World.t) : Z :=
  Mongo.count_documents (λ t, Py.start_of_day now <=? OrderToken.generated_at t)
    (Store.order_tokens (World.db w)).

(** ** C3 *)

(** One creation of an order, as far as the task runs. *)
Module Creation.
Record t := mk {
  env : Env.t;
  user : User.t;
  request : CreateOrderRequest.t;
  auth_token : option string
}.

Definition begin (c : t) : M (Cart.t * string * Z) :=
  OrderService.create_order_begin (env c) (User.id (user c)) (user c) (request c).

Definition finish (c : t) (begun : Cart.t * string * Z) : M OrderResponse.t :=
  OrderService.create_order_finish (env c) (User.id (user c)) (user c) (request c)
    (auth_token c) begun.

Definition run (c : t) : M OrderResponse.t :=
  OrderService.create_order (env c) (User.id (user c)) (user c) (request c)
    (auth_token c).
End Creation.

(** Two creations one after the other. *)
Definition sequential (a b : Creation.t) : M (OrderResponse.t * OrderResponse.t) :=
  let* ra := Creation.run a in
  let* rb := Creation.run b in
  ret (ra, rb).

(** Two creations scheduled so that each has counted the tokens of the day
    before the other inserts its own: the task of [a] runs up to the answer
    of [count_documents], then that of [b] does, then each runs to its
    end. *)
Definition interleaved (a b : Creation.t) : M (OrderResponse.t * OrderResponse.t) :=
  let* begun_a := Creation.begin a in
  let* begun_b := Creation.begin b in
  let* ra := Creation.finish a begun_a in
  let* rb := Creation.finish b begun_b in
  ret (ra, rb).

(** The token numbers handed out by a pair of creations. *)
Definition token_numbers (r : OrderResponse.t * OrderResponse.t) : list (option Z) :=
  [OrderToken.token_number <$> OrderResponse.token (fst r);
   OrderToken.token_number <$> OrderResponse.token (snd r)].

(** ** C1 *)

(** The world without the lines of the orders. *)
Definition without_order_lines (w : World.t) : World.t :=
  World.on_db (Store.on_order_items (λ _, []))
    (World.on_db (Store.on_order_item_customizations (λ _, [])) w).

(** The identifier drawn for a new order is fresh: no order carries it and
    no timeline entry refers to it. *)
Definition fresh_order_id (w : World.t) (order_id : string) : Prop :=
  ¬ In order_id (List.map Order.id (Store.orders (World.db w)))
  ∧ ¬ In order_id (List.map TimelineEntry.order_id (Store.order_timeline (World.db w))).

(** ** C5 and C6 *)

(** The world without the customizations of cart items. *)
Definition without_cart_customizations (w : World.t) : World.t :=
  World.on_db (Store.on_cart_item_customizations (λ _, [])) w.

(** The line of a cart for a menu item, as [add_to_cart] looks it up. *)
Definition line_of (cart_id menu_item_id : string) (i : CartItem.t) : bool :=
  CartService.in_cart cart_id i && String.eqb (CartItem.menu_item_id i) menu_item_id.

(** The totals of a cart agree with its lines: the subtotal is the sum of
    their total prices, the tax is the subtotal times the tax percentage of
    the cart over 100, rounded to two decimals, the total is the rounded sum
    of both, and the item count is the sum of their quantities. *)
Definition totals_agree (s : Store.t) (cart : Cart.t) : Prop :=
  let lines := Mongo.find (CartService.in_cart (Cart.id cart)) (Store.cart_items s) in
  Cart.subtotal cart = CartService.sum_total_price lines
  ∧ Cart.tax cart
    = Py.round2 (Cart.subtotal cart * Cart.tax_percentage cart / Py.float_of_Z 100)%float
  ∧ Cart.total cart = Py.round2 (Cart.subtotal cart + Cart.tax cart)%float
  ∧ Cart.item_count cart = CartService.sum_quantity lines.

(** The carts of a world are consistent: identifiers of carts and of cart
    items are unique, every cart has the configured tax percentage, and the
    totals of every cart agree with its lines, the cart of id [skip], whose
    lines are being changed, excepted. *)
Definition carts_consistent_except (skip : option string) (w : World.t) : Prop :=
  unique_cart_ids w ∧ unique_cart_item_ids w
  ∧ ∀ cart, In cart (Store.shopping_carts (World.db w)) →
      Cart.tax_percentage cart = settings.DEFAULT_TAX_PERCENTAGE
      ∧ (skip ≠ Some (Cart.id cart) → totals_agree (World.db w) cart).

Definition carts_consistent (w : World.t) : Prop := carts_consistent_except None w.

(** The three mutations of a cart. *)
Inductive CartOp :=
| AddLine (user_id : string) (request : AddToCartRequest.t)
| UpdateLine (user_id cart_item_id : string) (request : UpdateCartItemRequest.t)
| RemoveLine (user_id cart_item_id : string).

Definition run_cart_op (env : Env.t) (op : CartOp) : M CartResponse.t :=
  match op with
  | AddLine user_id request => CartService.add_to_cart env user_id request
  | UpdateLine user_id cart_item_id request =>
      CartService.update_cart_item env user_id cart_item_id request
  | RemoveLine user_id cart_item_id =>
      CartService.remove_cart_item env user_id cart_item_id
  end.

(** The identifiers that a mutation may draw for a new cart and a new line
    are fresh. *)
Definition fresh_cart_uuids (env : Env.t) (w : World.t) : Prop :=
  ¬ In (Env.uuid4 env [0%nat]) (List.map Cart.id (Store.shopping_carts (World.db w)))
  ∧ ¬ In (Env.uuid4 env [0%nat])
        (List.map CartItem.cart_id (Store.cart_items (World.db w)))
  ∧ ¬ In (Env.uuid4 env [1%nat]) (List.map CartItem.id (Store.cart_items (World.db w))).

(** The worlds that sequences of mutations lead to from [w0], each
    mutation succeeding or not. *)
Inductive cart_ops_from (w0 : World.t) : World.t → Prop :=
| cart_ops_none : cart_ops_from w0 w0
| cart_ops_step w env op :
    cart_ops_from w0 w → fresh_cart_uuids env w →
    cart_ops_from w0 (after (run_cart_op env op) w).

(** A request started in a world of [P] ends in a world of [Q] with its
    result when it returns, and in a world of [E] when it raises. *)
Definition triple {A} (P : World.t → Prop) (m : M A) (Q : A → World.t → Prop)
    (E : World.t → Prop) : Prop :=
  ∀ w, P w → match m w with
             | (Ok a, w') => Q a w'
             | (Raise _, w') => E w'
             end.

(** The user has a cart. *)
Definition has_cart (user_id : string) (w : World.t) : Prop :=
  In user_id (List.map Cart.user_id (Store.shopping_carts (World.db w))).

(** After [get_or_create_cart]: the invariant holds, the cart is the one
    of the user, and the id for a new line is still fresh. *)
Definition with_cart (env : Env.t) (user_id : string) (cart : Cart.t) (w : World.t)
    : Prop :=
  carts_consistent w
  ∧ Mongo.find_one (CartService.by_user user_id) (Store.shopping_carts (World.db w))
    = Some cart
  ∧ ¬ In (Env.uuid4 env [1%nat]) (List.map CartItem.id (Store.cart_items (World.db w))).

(** While the lines of a cart are being changed. *)
Definition changing (user_id cart_id : string) (w : World.t) : Prop :=
  carts_consistent_except (Some cart_id) w ∧ has_cart user_id w.

(** * Vocabulary of the further properties *)

(** The cart of a user as [get_cart] assembles it from the store. *)
Definition cart_view (s : Store.t) (cart : Cart.t) : CartResponse.t :=
  CartResponse.mk cart (CartService.cart_items_of s (Cart.id cart)).

(** The query of [update_cart_item] and [remove_cart_item]: the item of
    that id in that cart. *)
Definition item_in_cart (cart_item_id cart_id : string) (i : CartItem.t) : bool :=
  CartService.item_by_id cart_item_id i && CartService.in_cart cart_id i.

(** The cart that [get_or_create_cart] inserts for a user without one. *)
Definition empty_cart (env : Env.t) (user_id : string) : Cart.t :=
  Cart.mk (Env.uuid4 env [0%nat]) user_id 0%float 0%float
    settings.DEFAULT_TAX_PERCENTAGE 0%float 0 (Env.utcnow env) (Env.utcnow env).

(** [Field(ge=1, le=50)], the bound that schemas.py puts on the quantity
    of AddToCartRequest and of UpdateCartItemRequest. *)
Definition quantity_in_range (q : Z) : bool := (1 <=? q) && (q <=? 50).

Definition valid_add_to_cart (r : AddToCartRequest.t) : bool :=
  quantity_in_range (AddToCartRequest.quantity r).

Definition valid_update_cart_item (r : UpdateCartItemRequest.t) : bool :=
  from_option quantity_in_range true (UpdateCartItemRequest.quantity r).

(** The request of a mutation passes the validation of its schema. *)
Definition valid_cart_op (op : CartOp) : bool :=
  match op with
  | AddLine _ request => valid_add_to_cart request
  | UpdateLine _ _ request => valid_update_cart_item request
  | RemoveLine _ _ => true
  end.

(** Every line of every cart has a quantity from 1 to 50. *)
Definition quantities_in_range (w : World.t) : Prop :=
  List.Forall (λ i, quantity_in_range (CartItem.quantity i) = true)
    (Store.cart_items (World.db w)).

(** A sequence of mutations, each at its own instant. *)
Definition run_cart_ops (ops : list (Env.t * CartOp)) (w : World.t) : World.t :=
  fold_left (λ w '(env, op), after (run_cart_op env op) w) ops w.

(** A timeline in the order of its timestamps. *)
Fixpoint chronological (l : list TimelineEntry.t) : Prop :=
  match l with
  | [] => True
  | e :: r =>
      List.Forall (λ e', TimelineEntry.timestamp e ≤ TimelineEntry.timestamp e') r
      ∧ chronological r
  end.

(** The request returns, with some result. *)
Definition succeeds {A} (m : M A) (w : World.t) : Prop :=
  ∃ a w', m w = (Ok a, w').

(** The items of a listing, none when the route answers with an error. *)
Definition listed {A} (r : Routes.Response (Routes.PaginatedResponse.t A) * World.t)
    : list A :=
  match fst r with
  | Routes.Returns p => Routes.PaginatedResponse.items p
  | Routes.HTTPException _ _ => []
  end.

(** [(total + page_size - 1) // page_size], as the listings compute it. *)
Definition pages_of (total page_size : Z) : Z := (total + page_size - 1) / page_size.

(** Every entry of the order cache is the stored order of its key. *)
Definition order_cache_coherent (w : World.t) : Prop :=
  ∀ order_id expires order,
    Redis.order (World.redis w) !! order_id = Some (expires, order) →
    Mongo.find_one (OrderService.by_id order_id) (Store.orders (World.db w))
    = Some order.

(** Order ids are unique and every entry of the order cache, the one of
    key [skip] excepted while its order is being rewritten, is the stored
    order of its key. *)
Definition orders_coherent_except (skip : option string) (w : World.t) : Prop :=
  unique_order_ids w
  ∧ ∀ order_id expires order,
      skip ≠ Some order_id →
      Redis.order (World.redis w) !! order_id = Some (expires, order) →
      Mongo.find_one (OrderService.by_id order_id) (Store.orders (World.db w))
      = Some order.

Definition orders_coherent (w : World.t) : Prop := orders_coherent_except None w.

(** The requests on carts and orders. *)
Inductive Request :=
| OnCart (op : CartOp)
| GetCart (user_id : string)
| ClearCart (user_id : string)
| CreateOrder (user : User.t) (request : CreateOrderRequest.t)
    (auth_token : option string)
| GetOrder (order_id : string) (user_id : option string)
| MyOrders (user_id : string) (status : option OrderStatus.t) (page page_size : Z)
| UpdateStatus (order_id : string) (request : UpdateOrderStatusRequest.t)
    (updated_by updated_by_name : string) (is_staff : bool)
| CancelOrder (order_id user_id : string) (request : CancelOrderRequest.t)
| SubmitFeedback (order_id user_id : string) (request : OrderFeedbackRequest.t).

(** The world after a request, whether it returned or raised. *)
Definition after_request (env : Env.t) (r : Request) (w : World.t) : World.t :=
  match r with
  | OnCart op => after (run_cart_op env op) w
  | GetCart user_id => after (CartService.get_cart env user_id) w
  | ClearCart user_id => after (CartService.clear_cart env user_id) w
  | CreateOrder user request auth_token =>
      after (OrderService.create_order env (User.id user) user request auth_token) w
  | GetOrder order_id user_id => after (OrderService.get_order env order_id user_id) w
  | MyOrders user_id status page page_size =>
      after (OrderService.get_my_orders env user_id status page page_size) w
  | UpdateStatus order_id request updated_by updated_by_name is_staff =>
      after (OrderService.update_order_status env order_id request updated_by
               updated_by_name is_staff) w
  | CancelOrder order_id user_id request =>
      after (OrderService.cancel_order env order_id user_id request) w
  | SubmitFeedback order_id user_id request =>
      after (OrderService.submit_feedback env order_id user_id request) w
  end.

(** The ids that a request may draw for a new cart, a new cart line or
    a new order are not in use. *)
Definition fresh_for (env : Env.t) (r : Request) (w : World.t) : Prop :=
  match r with
  | OnCart _ | GetCart _ | ClearCart _ => fresh_cart_uuids env w
  | CreateOrder _ _ _ =>
      ¬ In (Env.uuid4 env [0%nat]) (List.map Order.id (Store.orders (World.db w)))
  | _ => True
  end.

(** The worlds that sequences of requests lead to from [w0]. *)
Inductive served_from (w0 : World.t) : World.t → Prop :=
| served_none : served_from w0 w0
| served_step w env r :
    served_from w0 w → fresh_for env r w →
    served_from w0 (after_request env r w).

(** What a world holds of orders: the collection and the cache. *)
Definition order_side (w : World.t) : list Order.t * gmap string (datetime * Order.t) :=
  (Store.orders (World.db w), Redis.order (World.redis w)).

(** What a world holds of carts: the carts and their lines. *)
Definition cart_side (w : World.t) : list Cart.t * list CartItem.t :=
  (Store.shopping_carts (World.db w), Store.cart_items (World.db w)).

(** An order item that copies a cart line: the menu item, its name and
    image, the quantity, both prices and the instructions. *)
Definition copies (line : CartItem.t) (item : OrderItem.t) : Prop :=
  OrderItem.menu_item_id item = CartItem.menu_item_id line
  ∧ OrderItem.menu_item_name item = CartItem.menu_item_name line
  ∧ OrderItem.menu_item_image item = CartItem.menu_item_image line
  ∧ OrderItem.quantity item = CartItem.quantity line
  ∧ OrderItem.unit_price item = CartItem.unit_price line
  ∧ OrderItem.total_price item = CartItem.total_price line
  ∧ OrderItem.special_instructions item = CartItem.special_instructions line.

(** What the second phase of [create_order] leaves alone: the orders and
    their items. *)
Definition orders_and_items (w : World.t) : list Order.t * list OrderItem.t :=
  (Store.orders (World.db w), Store.order_items (World.db w)).

(** * Properties *)

(** ** Facts about collections *)

Section MongoFacts.
Context {A : Type}.
Implicit Types (q p : A → bool) (f g : A → A) (c : list A).

Lemma find_one_some q c x :
  Mongo.find_one q c = Some x → In x c ∧ q x = true.
Proof. apply find_some. Qed.

Lemma find_one_none q c :
  Mongo.find_one q c = None → ∀ x, In x c → q x = false.
Proof. apply find_none. Qed.

Lemma find_one_update_one q f c x :
  Mongo.find_one q c = Some x → q (f x) = true →
  Mongo.find_one q (Mongo.update_one q f c) = Some (f x).
Proof.
  induction c as [|d r IH]; cbn; [discriminate|].
  destruct (q d) eqn:E.
  - intros [= ->] Hf. cbn. now rewrite Hf.
  - intros H Hf. cbn. rewrite E. auto.
Qed.

Lemma update_one_no_match q f c :
  Mongo.find_one q c = None → Mongo.update_one q f c = c.
Proof.
  induction c as [|d r IH]; cbn; [reflexivity|].
  destruct (q d); [discriminate|]. intros H. now rewrite IH.
Qed.

Lemma map_update_one {B} (key : A → B) q f c :
  (∀ x, key (f x) = key x) →
  List.map key (Mongo.update_one q f c) = List.map key c.
Proof.
  intros K. induction c as [|d r IH]; cbn; [reflexivity|].
  destruct (q d); cbn; [now rewrite K | now rewrite IH].
Qed.


(** Under a key without duplicates, a query that pins the key down finds
    the one document it matches. *)
Lemma find_one_keyed (key : A → string) q c x :
  List.NoDup (List.map key c) → In x c → q x = true →
  (∀ y, q y = true → key y = key x) →
  Mongo.find_one q c = Some x.
Proof.
  intros ND Hin Hq K. induction c as [|d r IH]; [destruct Hin|].
  cbn in *. apply List.NoDup_cons_iff in ND as [Hd ND].
  destruct (q d) eqn:E.
  - destruct Hin as [->|Hin]; [reflexivity|].
    exfalso. apply Hd. rewrite (K d E). now apply in_map.
  - destruct Hin as [->|Hin]; [congruence|]. auto.
Qed.


Lemma duplicate_key_no_index (doc : A) c : Mongo.duplicate_key [] doc c = false.
Proof. unfold Mongo.duplicate_key. induction c; cbn; auto. Qed.

Lemma insert_one_no_index (doc : A) c : Mongo.insert_one [] doc c = Some (c ++ [doc])%list.
Proof. unfold Mongo.insert_one. now rewrite duplicate_key_no_index. Qed.


End MongoFacts.

(** ** Facts about requests *)

Lemma bind_ok {A B} (m : M A) (k : A → M B) w b w' :
  bind m k w = (Ok b, w') ↔ ∃ a w1, m w = (Ok a, w1) ∧ k a w1 = (Ok b, w').
Proof.
  unfold bind. split.
  - destruct (m w) as [[a|e] w1]; [eauto | discriminate].
  - intros (a & w1 & -> & H). exact H.
Qed.

Lemma bind_run {A B} (m : M A) (k : A → M B) w a w1 :
  m w = (Ok a, w1) → bind m k w = k a w1.
Proof. unfold bind. now intros ->. Qed.

Lemma bind_raise {A B} (m : M A) (k : A → M B) w e w1 :
  m w = (Raise e, w1) → bind m k w = (Raise e, w1).
Proof. unfold bind. now intros ->. Qed.

Lemma insert_no_index {A} (coll : Store.t → list A) on_coll (doc : A) w :
  insert coll on_coll [] doc w
  = (Ok tt, World.on_db (on_coll (λ _, (coll (World.db w) ++ [doc])%list)) w).
Proof. unfold insert. now rewrite insert_one_no_index. Qed.

Arguments order_query : simpl never.
Arguments cached_order : simpl never.

(** [get_order] on a cache hit: the cached document is hydrated, whatever
    [user_id] is, and the world stays as it is. *)
Lemma get_order_hit env order_id user_id w cached :
  cached_order env w order_id = Some cached →
  OrderService.get_order env order_id user_id w
  = (Ok (hydrate (World.db w) order_id cached), w).
Proof.
  unfold cached_order, OrderService.get_order, cache_get_order, bind, query, ret.
  now intros ->.
Qed.

(** [get_order] on a cache miss that finds the order: it is cached and
    hydrated. *)
Lemma get_order_miss_found env order_id user_id w order :
  cached_order env w order_id = None →
  Mongo.find_one (order_query order_id user_id) (Store.orders (World.db w)) = Some order →
  OrderService.get_order env order_id user_id w
  = (Ok (hydrate (World.db w) order_id order),
     after (cache_set_order env order_id order) w).
Proof.
  unfold cached_order, order_query, OrderService.get_order, cache_get_order,
    bind, query, ret.
  intros -> H. cbn. rewrite H. reflexivity.
Qed.

Lemma get_order_miss_not_found env order_id user_id w :
  cached_order env w order_id = None →
  Mongo.find_one (order_query order_id user_id) (Store.orders (World.db w)) = None →
  OrderService.get_order env order_id user_id w = (Raise (ValueError "Order not found"), w).
Proof.
  unfold cached_order, order_query, OrderService.get_order, cache_get_order,
    bind, query, ret.
  intros -> H. cbn. rewrite H. reflexivity.
Qed.

(** Under unique order ids, the query of [get_order] finds the order of
    that id when it belongs to the user asked for, or when no user is. *)
Lemma order_query_finds order_id user_id c o :
  List.NoDup (List.map Order.id c) → In o c → order_query order_id user_id o = true →
  Mongo.find_one (order_query order_id user_id) c = Some o.
Proof.
  intros ND Hin Hq. apply (find_one_keyed Order.id); auto.
  intros y Hy. revert Hq Hy. unfold order_query, OrderService.by_id_and_user,
    OrderService.by_id.
  destruct user_id as [u|]; [destruct (Py.truthy _)|];
    rewrite ?andb_true_iff, !String.eqb_eq; intuition congruence.
Qed.

Lemma by_id_finds order_id c o :
  List.NoDup (List.map Order.id c) → In o c → Order.id o = order_id →
  Mongo.find_one (OrderService.by_id order_id) c = Some o.
Proof.
  intros ND Hin E. apply (order_query_finds order_id None); auto.
  unfold order_query, OrderService.by_id. now apply String.eqb_eq.
Qed.

(** The query of [get_order] accepts the order of that id when the user
    asked for, if any, is its owner. *)
Lemma order_query_owner order_id user_id o :
  Order.id o = order_id → (∀ u, user_id = Some u → Order.user_id o = u) →
  order_query order_id user_id o = true.
Proof.
  intros Hid Hu. unfold order_query, OrderService.by_id_and_user, OrderService.by_id.
  destruct user_id as [u|]; [destruct (Py.truthy _)|];
    rewrite ?andb_true_iff, !String.eqb_eq; auto.
Qed.

(** A loop whose iterations succeed and leave [erase w] alone succeeds and
    leaves it alone. *)
Lemma for_each_frame {A} (erase : World.t → World.t) (body : nat → A → M unit) :
  (∀ k x w, ∃ w', body k x w = (Ok tt, w') ∧ erase w' = erase w) →
  ∀ xs i w, ∃ w', for_each body i xs w = (Ok tt, w') ∧ erase w' = erase w.
Proof.
  intros Hbody xs. induction xs as [|x r IH]; intros i w; cbn.
  - now exists w.
  - destruct (Hbody i x w) as (w1 & H1 & E1).
    destruct (IH (S i) w1) as (w2 & H2 & E2).
    exists w2. split; [|congruence].
    now rewrite (bind_run _ _ _ _ _ H1).
Qed.



(** [create_order] is its two phases one after the other. *)
Lemma create_order_phases env user_id user_data request auth_token :
  OrderService.create_order env user_id user_data request auth_token
  = bind (OrderService.create_order_begin env user_id user_data request)
      (OrderService.create_order_finish env user_id user_data request auth_token).
Proof. reflexivity. Qed.


Section MoreMongoFacts.
Context {A : Type}.
Implicit Types (q p : A → bool) (f : A → A) (c : list A) (key : A → string).

Lemma find_none_of q c : (∀ x, In x c → q x = false) → Mongo.find q c = [].
Proof.
  induction c as [|d r IH]; cbn; [reflexivity|]. intros H.
  rewrite (H d (or_introl eq_refl)). apply IH. intros x Hx. apply H. now right.
Qed.

Lemma find_by_key_absent key k c :
  ¬ In k (List.map key c) → Mongo.find (λ y, String.eqb (key y) k) c = [].
Proof.
  intros H. apply find_none_of. intros x Hx. apply String.eqb_neq.
  intros E. apply H. rewrite <- E. now apply in_map.
Qed.

Lemma find_app_one q c x :
  Mongo.find q c = [] → q x = true → Mongo.find q (c ++ [x]) = [x].
Proof.
  unfold Mongo.find. intros H Hx. rewrite List.filter_app, H. cbn. now rewrite Hx.
Qed.

Lemma find_one_of_find q c x r : Mongo.find q c = x :: r → Mongo.find_one q c = Some x.
Proof.
  induction c as [|d c' IH]; cbn; [discriminate|].
  destruct (q d); [now intros [= -> _] | exact IH].
Qed.

Lemma find_after_delete_many q c : Mongo.find q (Mongo.delete_many q c) = [].
Proof.
  apply find_none_of. intros x Hx. unfold Mongo.delete_many in Hx.
  apply List.filter_In in Hx as [_ Hx]. now destruct (q x).
Qed.

(** A unique index that accepted a document had no document of the same
    key. *)
Lemma duplicate_key_absent (unique : list (A → string)) doc c key :
  Mongo.duplicate_key unique doc c = false → In key unique →
  ¬ In (key doc) (List.map key c).
Proof.
  unfold Mongo.duplicate_key. intros H Hk Hin.
  apply List.in_map_iff in Hin as (d & E & Hd).
  assert (X : existsb (λ d, existsb (λ k, String.eqb (k d) (k doc)) unique) c = true);
    [|congruence].
  apply List.existsb_exists. exists d. split; [exact Hd|].
  apply List.existsb_exists. exists key. split; [exact Hk|]. now apply String.eqb_eq.
Qed.

(** Under a key without duplicates, updating the document of the key of
    [x] rewrites [x] itself, so that a query the update is invisible to
    finds the rewritten document where it found [x]. *)
Lemma find_one_update_keyed key q f c x :
  List.NoDup (List.map key c) → Mongo.find_one q c = Some x →
  (∀ y, q (f y) = q y) →
  Mongo.find_one q (Mongo.update_one (λ y, String.eqb (key y) (key x)) f c)
  = Some (f x).
Proof.
  intros ND Hq Kq. induction c as [|d r IH]; [discriminate|].
  cbn in *. apply List.NoDup_cons_iff in ND as [Hd ND].
  destruct (String.eqb_spec (key d) (key x)) as [E|NE].
  - destruct (q d) eqn:Eq.
    + injection Hq as ->. cbn. now rewrite Kq, Eq.
    + exfalso. apply Hd. rewrite E. apply in_map.
      now destruct (find_one_some _ _ _ Hq).
  - destruct (q d) eqn:Eq.
    + injection Hq as ->. congruence.
    + cbn. rewrite Eq. auto.
Qed.

End MoreMongoFacts.

(** ** C1: a successful creation *)

Lemma insert_ok {A} (coll : Store.t → list A) on_coll unique (doc : A) w u w' :
  insert coll on_coll unique doc w = (Ok u, w') →
  Mongo.duplicate_key unique doc (coll (World.db w)) = false
  ∧ w' = World.on_db (on_coll (λ _, (coll (World.db w) ++ [doc])%list)) w.
Proof.
  unfold insert, Mongo.insert_one.
  destruct (Mongo.duplicate_key _ _ _); [discriminate|].
  now intros [= _ <-].
Qed.

Lemma get_order_ok env order_id user_id w response w' :
  OrderService.get_order env order_id user_id w = (Ok response, w') →
  World.db w' = World.db w
  ∧ response = hydrate (World.db w) order_id (OrderResponse.order response).
Proof.
  destruct (cached_order env w order_id) as [cached|] eqn:Hc.
  - rewrite (get_order_hit _ _ _ _ _ Hc). now intros [= <- <-].
  - destruct (Mongo.find_one (order_query order_id user_id) (Store.orders (World.db w)))
      as [order|] eqn:Hf.
    + rewrite (get_order_miss_found _ _ _ _ _ Hc Hf). now intros [= <- <-].
    + now rewrite (get_order_miss_not_found _ _ _ _ Hc Hf).
Qed.

(** Writing the lines of an order succeeds and touches nothing else. *)
Lemma order_lines_written env order_id
    (cart_items : list (CartItem.t * list CartItemCustomization.t)) w :
  ∃ w',
    for_each
      (λ i '(cart_item, customizations),
         let order_item_id := Env.uuid4 env [1%nat; i] in
         let order_item :=
           OrderItem.mk order_item_id order_id
             (CartItem.menu_item_id cart_item) (CartItem.menu_item_name cart_item)
             (CartItem.menu_item_image cart_item) (CartItem.quantity cart_item)
             (CartItem.unit_price cart_item) (CartItem.total_price cart_item)
             (CartItem.special_instructions cart_item) in
         insert Store.order_items Store.on_order_items [] order_item ;;
         for_each
           (λ j custom,
              insert Store.order_item_customizations
                Store.on_order_item_customizations []
                (OrderItemCustomization.mk (Env.uuid4 env [2%nat; i; j])
                   order_item_id (CartItemCustomization.custom custom)))
           0%nat customizations)
      0%nat cart_items w = (Ok tt, w')
    ∧ without_order_lines w' = without_order_lines w.
Proof.
  apply for_each_frame. intros i [cart_item customizations] w0.
  rewrite (bind_run _ _ _ _ _ (insert_no_index _ _ _ _)).
  match goal with |- context [for_each ?body 0%nat customizations ?w1] =>
    destruct (for_each_frame without_order_lines body) with (xs := customizations)
      (i := 0%nat) (w := w1) as (w2 & H2 & E2)
  end.
  - intros j custom w1. eexists. split; [apply insert_no_index|].
    now destruct w1 as [[] ? ?].
  - exists w2. split; [exact H2|]. rewrite E2. now destruct w0 as [[] ? ?].
Qed.

(** What a successful [create_order] has done to the store. *)
Lemma create_order_effect env user_id user_data request auth_token w response w' :
  OrderService.create_order env user_id user_data request auth_token w
  = (Ok response, w') →
  let order_id := Env.uuid4 env [0%nat] in
  ∃ cart order token payment entry,
    Mongo.find_one (CartService.by_user user_id) (Store.shopping_carts (World.db w))
    = Some cart
    ∧ Cart.item_count cart ≠ 0
    ∧ Mongo.find (CartService.in_cart (Cart.id cart)) (Store.cart_items (World.db w)) ≠ []
    ∧ (Order.id order = order_id ∧ Order.user_id order = user_id
       ∧ Order.status order = OrderStatus.PENDING ∧ Order.total order = Cart.total cart)
    ∧ Store.orders (World.db w') = (Store.orders (World.db w) ++ [order])%list
    ∧ (OrderToken.order_id token = order_id
       ∧ OrderToken.token_number token = issued_today (Env.utcnow env) w + 1)
    ∧ Mongo.duplicate_key Index.order_tokens token (Store.order_tokens (World.db w)) = false
    ∧ Store.order_tokens (World.db w') = (Store.order_tokens (World.db w) ++ [token])%list
    ∧ (Payment.order_id payment = order_id
       ∧ Payment.status payment = PaymentStatus.PENDING
       ∧ Payment.amount payment = Cart.total cart)
    ∧ Mongo.duplicate_key Index.payments payment (Store.payments (World.db w)) = false
    ∧ Store.payments (World.db w') = (Store.payments (World.db w) ++ [payment])%list
    ∧ (TimelineEntry.order_id entry = order_id
       ∧ TimelineEntry.status entry = OrderStatus.PENDING)
    ∧ Store.order_timeline (World.db w')
      = (Store.order_timeline (World.db w) ++ [entry])%list
    ∧ Store.cart_items (World.db w')
      = Mongo.delete_many (CartService.in_cart (Cart.id cart))
          (Store.cart_items (World.db w))
    ∧ Store.shopping_carts (World.db w')
      = Mongo.update_one (CartService.by_id (Cart.id cart))
          (Cart.set_totals 0%float 0%float 0%float 0 (Env.utcnow env))
          (Store.shopping_carts (World.db w))
    ∧ response = hydrate (World.db w') order_id (OrderResponse.order response).
Proof.
  rewrite create_order_phases. intros H order_id.
  apply bind_ok in H as ([[cart oid] n] & w1 & Hbegin & Hfinish).
  (* the first phase *)
  unfold OrderService.create_order_begin in Hbegin.
  unfold bind at 1, query at 1 in Hbegin.
  destruct (Mongo.find_one (CartService.by_user user_id) _) as [cart0|] eqn:Hcart;
    [|discriminate].
  destruct (Z.eqb_spec (Cart.item_count cart0) 0) as [|Hcount]; [discriminate|].
  unfold bind at 1, query at 1 in Hbegin.
  unfold OrderService.cart_items_with_customizations in Hbegin.
  destruct (List.map _ (Mongo.find (CartService.in_cart (Cart.id cart0)) _))
    as [|line lines] eqn:Hlines; [discriminate|].
  apply bind_ok in Hbegin as ([] & wa & Hins & Hbegin).
  apply insert_ok in Hins as [_ ->].
  match type of Hbegin with
  | bind (for_each ?body 0%nat ?xs) _ ?w0 = _ =>
      set (wa := w0) in *;
      destruct (order_lines_written env (Env.uuid4 env [0%nat]) xs wa)
        as (wb & Hloop & Hframe)
  end.
  rewrite (bind_run _ _ _ _ _ Hloop) in Hbegin.
  unfold OrderService._get_next_token_number, bind, query, ret in Hbegin.
  injection Hbegin as <- <- <- <-.
  assert (Fcarts : Store.shopping_carts (World.db wb) = Store.shopping_carts (World.db w))
    by (change (Store.shopping_carts (World.db (without_order_lines wb))
                = Store.shopping_carts (World.db (without_order_lines wa)));
        now rewrite Hframe).
  assert (Fitems : Store.cart_items (World.db wb) = Store.cart_items (World.db w))
    by (change (Store.cart_items (World.db (without_order_lines wb))
                = Store.cart_items (World.db (without_order_lines wa)));
        now rewrite Hframe).
  assert (Forders : Store.orders (World.db wb) = Store.orders (World.db wa))
    by (change (Store.orders (World.db (without_order_lines wb))
                = Store.orders (World.db (without_order_lines wa)));
        now rewrite Hframe).
  assert (Ftokens : Store.order_tokens (World.db wb) = Store.order_tokens (World.db w))
    by (change (Store.order_tokens (World.db (without_order_lines wb))
                = Store.order_tokens (World.db (without_order_lines wa)));
        now rewrite Hframe).
  assert (Fpayments : Store.payments (World.db wb) = Store.payments (World.db w))
    by (change (Store.payments (World.db (without_order_lines wb))
                = Store.payments (World.db (without_order_lines wa)));
        now rewrite Hframe).
  assert (Ftimeline : Store.order_timeline (World.db wb)
                      = Store.order_timeline (World.db w))
    by (change (Store.order_timeline (World.db (without_order_lines wb))
                = Store.order_timeline (World.db (without_order_lines wa)));
        now rewrite Hframe).
  (* the second phase *)
  unfold OrderService.create_order_finish, generate_order_token in Hfinish.
  cbn zeta iota beta in Hfinish.
  apply bind_ok in Hfinish as ([] & wc & Htoken & Hfinish).
  apply insert_ok in Htoken as [Dtoken ->].
  apply bind_ok in Hfinish as ([] & wd & Hpay & Hfinish).
  apply insert_ok in Hpay as [Dpay ->].
  unfold OrderService._add_timeline_entry in Hfinish.
  rewrite (bind_run _ _ _ _ _ (insert_no_index _ _ _ _)) in Hfinish.
  unfold bind at 1, write at 1 in Hfinish.
  unfold bind at 1, write at 1 in Hfinish.
  unfold bind at 1, cache_delete_cart at 1 in Hfinish.
  unfold bind at 1, cache_delete_pattern_orders at 1, ret at 1 in Hfinish.
  match type of Hfinish with
  | bind ?m _ ?w0 = _ =>
      assert (Hq : ∃ wq, m w0 = (Ok tt, wq) ∧ World.db wq = World.db w0)
  end.
  { destruct auth_token as [t|]; [destruct (Py.truthy (Some t))|];
      eexists; split; reflexivity. }
  destruct Hq as (wq & Hq & Fq).
  rewrite (bind_run _ _ _ _ _ Hq) in Hfinish.
  apply get_order_ok in Hfinish as [Fdb Hresp].
  rewrite Fq in Fdb, Hresp. rewrite <- Fdb in Hresp.
  set (final := hydrate (World.db w') order_id (OrderResponse.order response)) in *.
  unfold issued_today.
  exists cart0. eexists _, _, _, _.
  rewrite Fdb.
  cbn [World.db World.on_db World.on_redis] in Dtoken, Dpay |- *.
  cbn [Store.orders Store.order_tokens Store.payments Store.order_timeline
       Store.cart_items Store.shopping_carts
       Store.on_orders Store.on_order_tokens Store.on_payments
       Store.on_order_timeline Store.on_cart_items Store.on_shopping_carts]
    in Dtoken, Dpay |- *.
  rewrite Fcarts, Fitems, Forders, Ftimeline.
  rewrite Ftokens in Dtoken |- *. rewrite Fpayments in Dpay |- *.
  repeat match goal with |- _ ∧ _ => split end.
  8, 12, 17, 20: reflexivity.
  all: try reflexivity.
  - exact Hcount.
  - intros E. now rewrite E in Hlines.
  - exact Dtoken.
  - exact Dpay.
  - exact Hresp.
Qed.

(** C1: after a successful [create_order], the user had a cart with lines;
    that cart has no line left and its subtotal, tax, total and item count
    are 0; the store holds exactly one order of the new id, with status
    PENDING, exactly one token and exactly one payment for it, the payment
    with status PENDING and the total of the cart as amount, and exactly one
    timeline entry; the response carries that token, payment and entry.
    Identifiers of carts are unique and the id drawn for the order is
    fresh. *)
Theorem create_order_success env user_id user_data request auth_token w response w' :
  unique_cart_ids w →
  fresh_order_id w (Env.uuid4 env [0%nat]) →
  OrderService.create_order env user_id user_data request auth_token w
  = (Ok response, w') →
  let order_id := Env.uuid4 env [0%nat] in
  ∃ cart cart' order token payment entry,
    (Mongo.find_one (CartService.by_user user_id) (Store.shopping_carts (World.db w))
     = Some cart
     ∧ Mongo.find (CartService.in_cart (Cart.id cart)) (Store.cart_items (World.db w))
       ≠ [])
    ∧ (Mongo.find_one (CartService.by_user user_id) (Store.shopping_carts (World.db w'))
       = Some cart'
       ∧ Cart.id cart' = Cart.id cart
       ∧ Mongo.find (CartService.in_cart (Cart.id cart')) (Store.cart_items (World.db w'))
         = []
       ∧ Cart.subtotal cart' = 0%float ∧ Cart.tax cart' = 0%float
       ∧ Cart.total cart' = 0%float ∧ Cart.item_count cart' = 0)
    ∧ (Mongo.find (OrderService.by_id order_id) (Store.orders (World.db w')) = [order]
       ∧ Order.status order = OrderStatus.PENDING
       ∧ Order.user_id order = user_id)
    ∧ Mongo.find (OrderService.token_of order_id) (Store.order_tokens (World.db w'))
      = [token]
    ∧ (Mongo.find (OrderService.payment_of order_id) (Store.payments (World.db w'))
       = [payment]
       ∧ Payment.status payment = PaymentStatus.PENDING
       ∧ Payment.amount payment = Cart.total cart)
    ∧ (Mongo.find (OrderService.entry_of order_id) (Store.order_timeline (World.db w'))
       = [entry]
       ∧ TimelineEntry.status entry = OrderStatus.PENDING)
    ∧ (OrderResponse.token response = Some token
       ∧ OrderResponse.payment response = Some payment
       ∧ OrderResponse.timeline response = [entry]).
Proof.
  intros NDc [Hfo Hft] H order_id.
  destruct (create_order_effect _ _ _ _ _ _ _ _ H)
    as (cart & order & token & payment & entry & Hcart & Hcount & Hlines
        & (Oid & Ouser & Ostatus & Ototal) & Eorders
        & (Tid & Tnum) & Dtoken & Etokens
        & (Pid & Pstatus & Pamount) & Dpay & Epay
        & (Lid & Lstatus) & Etimeline & Eitems & Ecarts & Hresp).
  fold order_id in Oid, Tid, Pid, Lid, Hresp.
  set (zero := Cart.set_totals 0%float 0%float 0%float 0 (Env.utcnow env)) in *.
  assert (Ftoken : Mongo.find (OrderService.token_of order_id)
                     (Store.order_tokens (World.db w')) = [token]).
  { rewrite Etokens. apply find_app_one.
    - apply (find_by_key_absent OrderToken.order_id). rewrite <- Tid.
      apply (duplicate_key_absent Index.order_tokens); [exact Dtoken | now left].
    - unfold OrderService.token_of. now apply String.eqb_eq. }
  assert (Fpay : Mongo.find (OrderService.payment_of order_id)
                   (Store.payments (World.db w')) = [payment]).
  { rewrite Epay. apply find_app_one.
    - apply (find_by_key_absent Payment.order_id). rewrite <- Pid.
      apply (duplicate_key_absent Index.payments); [exact Dpay | now left].
    - unfold OrderService.payment_of. now apply String.eqb_eq. }
  assert (Fentry : Mongo.find (OrderService.entry_of order_id)
                     (Store.order_timeline (World.db w')) = [entry]).
  { rewrite Etimeline. apply find_app_one.
    - now apply (find_by_key_absent TimelineEntry.order_id).
    - unfold OrderService.entry_of. now apply String.eqb_eq. }
  exists cart, (zero cart), order, token, payment, entry.
  split; [split; [exact Hcart | exact Hlines]|].
  split; [|split; [|split; [|split; [|split]]]].
  - split; [|split; [reflexivity|split; [|repeat split]]].
    + rewrite Ecarts. apply (find_one_update_keyed Cart.id); auto.
    + rewrite Eitems. apply find_after_delete_many.
  - split; [|split; [exact Ostatus | exact Ouser]].
    rewrite Eorders. apply find_app_one.
    + now apply (find_by_key_absent Order.id).
    + unfold OrderService.by_id. now apply String.eqb_eq.
  - exact Ftoken.
  - split; [exact Fpay|]. split; [exact Pstatus | exact Pamount].
  - split; [exact Fentry | exact Lstatus].
  - rewrite Hresp. cbn [OrderResponse.token OrderResponse.payment
                        OrderResponse.timeline hydrate].
    rewrite (find_one_of_find _ _ _ _ Ftoken), (find_one_of_find _ _ _ _ Fpay), Fentry.
    repeat split.
Qed.

Lemma create_order_success_witness :
  ∃ response,
    OrderService.create_order (Sample.env 2000 "o1" 0) "alice" Sample.alice
      Sample.pay_cash (Some "jwt") Sample.w_cart = (Ok response, Sample.w_order)
    ∧ OrderToken.token <$> OrderResponse.token response = Some "A001"
    ∧ ∃ payment, OrderResponse.payment response = Some payment
                 ∧ Payment.amount payment = 210%float.
Proof.
  eexists. split; [vm_compute; reflexivity|].
  edestruct (create_order_success (Sample.env 2000 "o1" 0) "alice" Sample.alice
               Sample.pay_cash (Some "jwt") Sample.w_cart)
    as (cart & cart' & order & token & payment & entry
        & (Hcart & _) & _ & _ & _ & (_ & _ & Hamount) & _ & (Htok & Hpay & _)).
  - vm_compute. repeat constructor. cbn. tauto.
  - split; vm_compute; tauto.
  - vm_compute. reflexivity.
  - split; [reflexivity|]. exists payment. split; [exact Hpay|].
    rewrite Hamount. vm_compute in Hcart. now injection Hcart as <-.
Defined.

(** ** C2: status updates *)





(** The same operation takes a COMPLETED order back to PENDING. *)
Example update_order_status_reopens_completed :
  stored_status Sample.w_completed "o1-0" = Some OrderStatus.COMPLETED
  ∧ stored_status
      (after (OrderService.update_order_status (Sample.env 2700 "s2" 0) "o1-0"
                (Sample.status_request OrderStatus.PENDING) "carol" "Carol" true)
         Sample.w_completed) "o1-0"
    = Some OrderStatus.PENDING.
Proof. split; vm_compute; reflexivity. Qed.

(** ** C3 and C4: token allocation *)

(** One after the other on the same day, alice and bob get the numbers 1
    and 2. *)
Example sequential_creations_distinct :
  ∃ r w',
    sequential
      (Creation.mk (Sample.env 2000 "o1" 0) Sample.alice Sample.pay_cash (Some "jwt"))
      (Creation.mk (Sample.env 2001 "o2" 1) Sample.bob Sample.pay_cash (Some "jwt"))
      Sample.w_two_carts = (Ok r, w')
    ∧ token_numbers r = [Some 1; Some 2].
Proof. eexists _, _. split; vm_compute; reflexivity. Qed.

(** C3: two creations of the same day, interleaved so that both count the
    tokens of the day before either inserts its token, both succeed and both
    tokens carry the number 1: the tokens A001 and B001 differ in their
    letter only, which the unique index on [token] accepts. *)
Lemma interleaved_creations_share_token_number :
  ∃ r w',
    interleaved
      (Creation.mk (Sample.env 2000 "o1" 0) Sample.alice Sample.pay_cash (Some "jwt"))
      (Creation.mk (Sample.env 2001 "o2" 1) Sample.bob Sample.pay_cash (Some "jwt"))
      Sample.w_two_carts = (Ok r, w')
    ∧ token_numbers r = [Some 1; Some 1]
    ∧ List.map (λ t, (OrderToken.token t, OrderToken.token_number t))
        (Store.order_tokens (World.db w'))
      = [("A001", 1); ("B001", 1)]
    ∧ Py.start_of_day 2000 = Py.start_of_day 2001.
Proof.
  eexists _, _. split; [vm_compute; reflexivity|].
  split; [vm_compute; reflexivity|]. split; vm_compute; reflexivity.
Qed.

(** When both draw the same letter, the second insertion of A001 is
    refused by the unique index on [token]: bob's order is left without token,
    payment and timeline entry. *)
Example interleaved_creations_same_letter :
  ∃ w',
    interleaved
      (Creation.mk (Sample.env 2000 "o1" 0) Sample.alice Sample.pay_cash (Some "jwt"))
      (Creation.mk (Sample.env 2001 "o2" 0)
         Sample.bob Sample.pay_cash (Some "jwt"))
      Sample.w_two_carts = (Raise DuplicateKeyError, w')
    ∧ List.map Order.user_id (Store.orders (World.db w')) = ["alice"; "bob"]
    ∧ List.map OrderToken.token (Store.order_tokens (World.db w')) = ["A001"].
Proof. eexists. split; [vm_compute; reflexivity|]. split; vm_compute; reflexivity. Qed.





(** ** C6: adding an item that the cart already has *)

Lemma get_or_create_cart_found env user_id w cart :
  Mongo.find_one (CartService.by_user user_id) (Store.shopping_carts (World.db w))
  = Some cart →
  CartService.get_or_create_cart env user_id w = (Ok cart, w).
Proof.
  intros H. unfold CartService.get_or_create_cart, bind, query. now rewrite H.
Qed.

(** Replacing the customizations of an item succeeds and touches nothing
    else. *)
Lemma replace_customizations_frame env site cart_item_id customs w :
  ∃ w', CartService.replace_customizations env site cart_item_id customs w = (Ok tt, w')
        ∧ without_cart_customizations w' = without_cart_customizations w.
Proof.
  unfold CartService.replace_customizations. unfold bind at 1, write at 1.
  match goal with |- context [for_each ?body 0%nat customs ?w1] =>
    destruct (for_each_frame without_cart_customizations body) with (xs := customs)
      (i := 0%nat) (w := w1) as (w2 & H2 & E2)
  end.
  - intros k x w0. eexists. split; [apply insert_no_index|].
    now destruct w0 as [[] ? ?].
  - exists w2. split; [exact H2|]. rewrite E2. now destruct w as [[] ? ?].
Qed.

(** A query on a key finds a document exactly when the key is among
    those of the collection. *)
Lemma find_one_by_key {A} (key : A → string) k c :
  In k (List.map key c) ↔ ∃ y, Mongo.find_one (λ y, String.eqb (key y) k) c = Some y.
Proof.
  split.
  - intros Hin. apply List.in_map_iff in Hin as (x & E & Hx).
    destruct (Mongo.find_one (λ y, String.eqb (key y) k) c) as [y|] eqn:F; [eauto|].
    apply (find_one_none _ _ F) in Hx. now apply String.eqb_neq in Hx.
  - intros [y F]. destruct (find_one_some _ _ _ F) as [Hin Hq].
    apply String.eqb_eq in Hq. rewrite <- Hq. now apply in_map.
Qed.

(** [get_cart] when the cache has no live entry and the user has a cart:
    the cart is read with its items and the answer is cached. *)
Lemma get_cart_miss_found env user_id w cart :
  live (Env.utcnow env) (Redis.cart (World.redis w) !! user_id) = None →
  Mongo.find_one (CartService.by_user user_id) (Store.shopping_carts (World.db w))
  = Some cart →
  CartService.get_cart env user_id w
  = (Ok (CartResponse.mk cart (CartService.cart_items_of (World.db w) (Cart.id cart))),
     after (cache_set_cart env user_id
              (CartResponse.mk cart
                 (CartService.cart_items_of (World.db w) (Cart.id cart)))) w).
Proof.
  intros Hc Hf. unfold CartService.get_cart.
  unfold bind at 1, cache_get_cart at 1. rewrite Hc.
  rewrite (bind_run _ _ _ _ _ (get_or_create_cart_found env _ _ _ Hf)).
  reflexivity.
Qed.

(** The tail of the three mutations: totals are recomputed, the cached
    cart is dropped and the cart is read again. This succeeds when the user
    has a cart, and writes the totals and the cache only. *)
Lemma recalculate_and_read env user_id w cart :
  Mongo.find_one (CartService.by_user user_id) (Store.shopping_carts (World.db w))
  = Some cart →
  ∃ response w',
    (CartService.recalculate_cart env (Cart.id cart) ;;
     cache_delete_cart user_id ;;
     CartService.get_cart env user_id) w = (Ok response, w')
    ∧ World.db w' = World.db (after (CartService.recalculate_cart env (Cart.id cart)) w).
Proof.
  intros Hf.
  unfold after, CartService.recalculate_cart.
  unfold bind at 1. unfold bind at 1 3, query, write.
  unfold bind at 1, cache_delete_cart at 1.
  set (totals := Cart.set_totals _ _ _ _ _).
  assert (Hex : ∃ cart', Mongo.find_one (CartService.by_user user_id)
              (Mongo.update_one (CartService.by_id (Cart.id cart)) totals
                 (Store.shopping_carts (World.db w))) = Some cart').
  { apply (find_one_by_key Cart.user_id).
    rewrite map_update_one by (intros; reflexivity).
    apply (find_one_by_key Cart.user_id). eauto. }
  destruct Hex as [cart' Hcart'].
  eexists _, _. split.
  - apply get_cart_miss_found; [cbn; now rewrite lookup_delete_eq | exact Hcart'].
  - reflexivity.
Qed.

(** C6: when the cart of the user has a line for the menu item of the
    request and the catalog resolves the item, [add_to_cart] adds the
    quantity of the request to that line: no line is added or removed, and
    the line of the item carries the sum. When the sum exceeds
    MAX_QUANTITY_PER_ITEM = 50, ValueError("Maximum quantity per item is 50")
    is raised and the world, the cart with its lines and totals included, is
    unchanged. Identifiers of cart items are unique. *)
Theorem add_to_cart_merges env user_id request w cart line menu_item :
  unique_cart_item_ids w →
  Mongo.find_one (CartService.by_user user_id) (Store.shopping_carts (World.db w))
  = Some cart →
  Mongo.find_one (line_of (Cart.id cart) (AddToCartRequest.menu_item_id request))
    (Store.cart_items (World.db w)) = Some line →
  Env.fetch_menu_item_details env (AddToCartRequest.menu_item_id request)
  = Some menu_item →
  let new_quantity := CartItem.quantity line + AddToCartRequest.quantity request in
  (50 < new_quantity →
   CartService.add_to_cart env user_id request w
   = (Raise (ValueError "Maximum quantity per item is 50"), w))
  ∧ (new_quantity <= 50 →
     ∃ response w' line',
       CartService.add_to_cart env user_id request w = (Ok response, w')
       ∧ List.map CartItem.id (Store.cart_items (World.db w'))
         = List.map CartItem.id (Store.cart_items (World.db w))
       ∧ Mongo.find_one (line_of (Cart.id cart) (AddToCartRequest.menu_item_id request))
           (Store.cart_items (World.db w')) = Some line'
       ∧ CartItem.id line' = CartItem.id line
       ∧ CartItem.quantity line' = new_quantity
       ∧ CartItem.total_price line'
         = (MenuItem.price menu_item * Py.float_of_Z new_quantity)%float).
Proof.
  intros ND Hcart Hline Hmenu new_quantity.
  unfold CartService.add_to_cart.
  rewrite (bind_run _ _ _ _ _ (get_or_create_cart_found env _ _ _ Hcart)).
  rewrite Hmenu.
  rewrite (bind_run _ _ w (Some line) w)
    by (unfold query; fold (line_of (Cart.id cart) (AddToCartRequest.menu_item_id request));
        now rewrite Hline).
  fold new_quantity. change settings.MAX_QUANTITY_PER_ITEM with 50.
  split; intros Hq.
  - apply Z.ltb_lt in Hq. rewrite Hq. reflexivity.
  - apply Z.ltb_ge in Hq. rewrite Hq.
    unfold bind at 1. unfold bind at 1, write at 1, ret at 1.
    set (merged := CartItem.set_quantity _ _ _).
    set (w1 := World.on_db _ w).
    assert (Hcust : ∃ w2,
      match AddToCartRequest.customizations request with
      | Some (c :: cs) =>
          CartService.replace_customizations env 2 (CartItem.id line) (c :: cs)
      | _ => ret tt
      end w1 = (Ok tt, w2)
      ∧ without_cart_customizations w2 = without_cart_customizations w1).
    { destruct (AddToCartRequest.customizations request) as [[|c cs]|];
        [now exists w1 | apply replace_customizations_frame | now exists w1]. }
    destruct Hcust as (w2 & Hcust & Hframe).
    rewrite (bind_run _ _ _ _ _ Hcust).
    assert (Fcarts : Store.shopping_carts (World.db w2)
                     = Store.shopping_carts (World.db w))
      by (change (Store.shopping_carts (World.db (without_cart_customizations w2))
                  = Store.shopping_carts (World.db (without_cart_customizations w1)));
          now rewrite Hframe).
    assert (Fitems : Store.cart_items (World.db w2)
                     = Mongo.update_one (CartService.item_by_id (CartItem.id line))
                         merged (Store.cart_items (World.db w)))
      by (change (Store.cart_items (World.db (without_cart_customizations w2))
                  = Store.cart_items (World.db (without_cart_customizations w1)));
          now rewrite Hframe).
    destruct (recalculate_and_read env user_id w2 cart) as (response & w' & Hrun & Hdb);
      [now rewrite Fcarts|].
    exists response, w', (merged line).
    split; [exact Hrun|].
    assert (Eitems : Store.cart_items (World.db w') = Store.cart_items (World.db w2))
      by (now rewrite Hdb).
    rewrite Eitems, Fitems.
    split; [now rewrite map_update_one|].
    split; [|repeat split].
    unfold CartService.item_by_id.
    apply (find_one_update_keyed CartItem.id); [exact ND | exact Hline | reflexivity].
Qed.

Lemma add_to_cart_merges_witness :
  CartService.add_to_cart (Sample.env 1200 "a2" 0) "alice" (Sample.add "dosa" 49)
    Sample.w_cart
  = (Raise (ValueError "Maximum quantity per item is 50"), Sample.w_cart)
  ∧ ∃ response w',
      CartService.add_to_cart (Sample.env 1200 "a2" 0) "alice" (Sample.add "dosa" 3)
        Sample.w_cart = (Ok response, w')
      ∧ List.map CartItem.quantity (Store.cart_items (World.db w')) = [5].
Proof.
  split.
  - edestruct (add_to_cart_merges (Sample.env 1200 "a2" 0) "alice"
                 (Sample.add "dosa" 49) Sample.w_cart) as [H _].
    + vm_compute. repeat constructor. cbn. tauto.
    + vm_compute. reflexivity.
    + vm_compute. reflexivity.
    + vm_compute. reflexivity.
    + apply H. reflexivity.
  - edestruct (add_to_cart_merges (Sample.env 1200 "a2" 0) "alice"
                 (Sample.add "dosa" 3) Sample.w_cart) as [_ H].
    + vm_compute. repeat constructor. cbn. tauto.
    + vm_compute. reflexivity.
    + vm_compute. reflexivity.
    + vm_compute. reflexivity.
    + destruct H as (response & w' & line' & H1 & _); [discriminate|].
      exists response, w'. split; [exact H1|].
      vm_compute in H1. injection H1 as _ <-. reflexivity.
Defined.

(** ** C5: the totals of a cart *)

Section TripleRules.
Context {A B : Type}.
Implicit Types (P : World.t → Prop) (E : World.t → Prop).

Lemma triple_bind P (m : M A) (R : A → World.t → Prop) (k : A → M B)
    (Q : B → World.t → Prop) E :
  triple P m R E → (∀ a, triple (R a) (k a) Q E) → triple P (bind m k) Q E.
Proof.
  intros Hm Hk w Hw. unfold bind. specialize (Hm w Hw).
  destruct (m w) as [[a|e] w1]; [now apply Hk | exact Hm].
Qed.

Lemma triple_ret P (a : A) (Q : A → World.t → Prop) E :
  (∀ w, P w → Q a w) → triple P (ret a) Q E.
Proof. intros H w Hw. now apply H. Qed.

Lemma triple_raise P e (Q : A → World.t → Prop) E :
  (∀ w, P w → E w) → triple P (raise e) Q E.
Proof. intros H w Hw. now apply H. Qed.

Lemma triple_query P (f : Store.t → A) (Q : A → World.t → Prop) E :
  (∀ w, P w → Q (f (World.db w)) w) → triple P (query f) Q E.
Proof. intros H w Hw. now apply H. Qed.

Lemma triple_pre P P' (m : M A) (Q : A → World.t → Prop) E :
  (∀ w, P' w → P w) → triple P m Q E → triple P' m Q E.
Proof. intros H Hm w Hw. apply Hm. now apply H. Qed.

End TripleRules.

Lemma triple_write P f (Q : unit → World.t → Prop) E :
  (∀ w, P w → Q tt (World.on_db f w)) → triple P (write f) Q E.
Proof. intros H w Hw. now apply H. Qed.

Lemma triple_insert_no_index {A} P (coll : Store.t → list A) on_coll doc
    (Q : unit → World.t → Prop) E :
  (∀ w, P w → Q tt (World.on_db (on_coll (λ _, (coll (World.db w) ++ [doc])%list)) w)) →
  triple P (insert coll on_coll [] doc) Q E.
Proof. intros H w Hw. rewrite insert_no_index. now apply H. Qed.

(** A step that always succeeds and leaves [erase w] alone. *)
Lemma triple_frame (erase : World.t → World.t) P (m : M unit)
    (Q : unit → World.t → Prop) E :
  (∀ w, ∃ w', m w = (Ok tt, w') ∧ erase w' = erase w) →
  (∀ w w', P w → erase w' = erase w → Q tt w') →
  triple P m Q E.
Proof.
  intros Hm H w Hw. destruct (Hm w) as (w' & -> & He). now apply (H w).
Qed.

(** *** Collections under the mutations *)

Section CollectionFacts.
Context {A : Type}.
Implicit Types (q p : A → bool) (f : A → A) (c : list A) (key : A → string).

Lemma find_update_one_outside q p f c :
  (∀ y, In y c → p y = true → q y = false ∧ q (f y) = false) →
  Mongo.find q (Mongo.update_one p f c) = Mongo.find q c.
Proof.
  unfold Mongo.find. induction c as [|d r IH]; cbn; [reflexivity|]. intros H.
  destruct (p d) eqn:Ep; cbn.
  - destruct (H d (or_introl eq_refl) Ep) as [-> ->]. reflexivity.
  - rewrite IH; [reflexivity|]. intros y Hy. apply H. now right.
Qed.

Lemma find_delete_one_outside q p c :
  (∀ y, In y c → p y = true → q y = false) →
  Mongo.find q (Mongo.delete_one p c) = Mongo.find q c.
Proof.
  unfold Mongo.find. induction c as [|d r IH]; cbn; [reflexivity|]. intros H.
  destruct (p d) eqn:Ep; cbn.
  - now rewrite (H d (or_introl eq_refl) Ep).
  - rewrite IH; [reflexivity|]. intros y Hy. apply H. now right.
Qed.

Lemma In_delete_one p c y : In y (Mongo.delete_one p c) → In y c.
Proof.
  induction c as [|d r IH]; cbn; [tauto|].
  destruct (p d); cbn; intuition.
Qed.

Lemma NoDup_map_delete_one key p c :
  List.NoDup (List.map key c) → List.NoDup (List.map key (Mongo.delete_one p c)).
Proof.
  induction c as [|d r IH]; cbn; [auto|]. intros ND.
  apply List.NoDup_cons_iff in ND as [Hd ND].
  destruct (p d); cbn; [exact ND|]. constructor; [|auto].
  intros Hin. apply Hd. apply List.in_map_iff in Hin as (y & E & Hy).
  apply List.in_map_iff. exists y. split; [exact E|]. now apply In_delete_one in Hy.
Qed.

Lemma delete_one_no_match p c : existsb p c = false → Mongo.delete_one p c = c.
Proof.
  induction c as [|d r IH]; cbn; [reflexivity|].
  destruct (p d); cbn; [discriminate|]. intros H. now rewrite IH.
Qed.

(** Under a key without duplicates, the documents after an update by key
    are the untouched ones and the rewritten one. *)
Lemma In_update_one_keyed key k f c y :
  List.NoDup (List.map key c) →
  In y (Mongo.update_one (λ x, String.eqb (key x) k) f c) →
  (In y c ∧ key y ≠ k) ∨ (∃ x, In x c ∧ key x = k ∧ y = f x).
Proof.
  intros ND. induction c as [|d r IH]; cbn; [tauto|].
  apply List.NoDup_cons_iff in ND as [Hd ND].
  destruct (String.eqb_spec (key d) k) as [E|NE]; cbn.
  - intros [<-|Hy]; [right; exists d; auto|].
    left. split; [now right|]. intros Ey. apply Hd. rewrite E, <- Ey. now apply in_map.
  - intros [<-|Hy]; [left; auto|].
    destruct (IH ND Hy) as [[? ?]|(x & ? & ? & ?)]; [left; auto | right; exists x; auto].
Qed.

Lemma NoDup_map_app_one key c x :
  List.NoDup (List.map key c) → ¬ In (key x) (List.map key c) →
  List.NoDup (List.map key (c ++ [x])).
Proof.
  intros ND Hx. rewrite List.map_app. cbn.
  apply List.NoDup_app; [exact ND | repeat constructor; tauto |].
  intros k Hk [<-|[]]. contradiction.
Qed.

End CollectionFacts.

Lemma NoDup_map_inj {A} (key : A → string) c x y :
  List.NoDup (List.map key c) → In x c → In y c → key x = key y → x = y.
Proof.
  induction c as [|d r IH]; cbn; [tauto|]. intros ND.
  apply List.NoDup_cons_iff in ND as [Hd ND].
  intros [->|Hx] [->|Hy] E; auto.
  - exfalso. apply Hd. rewrite E. now apply in_map.
  - exfalso. apply Hd. rewrite <- E. now apply in_map.
Qed.

(** *** The invariant under the steps of a mutation *)

Lemma consistent_ext skip w w' :
  Store.shopping_carts (World.db w') = Store.shopping_carts (World.db w) →
  Store.cart_items (World.db w') = Store.cart_items (World.db w) →
  carts_consistent_except skip w → carts_consistent_except skip w'.
Proof.
  unfold carts_consistent_except, unique_cart_ids, unique_cart_item_ids, totals_agree.
  intros -> ->. tauto.
Qed.

Lemma consistent_weaken skip w :
  carts_consistent w → carts_consistent_except skip w.
Proof.
  intros (H1 & H2 & H3). split; [exact H1|]. split; [exact H2|].
  intros cart Hin. destruct (H3 cart Hin) as [Ht Ha]. split; [exact Ht|].
  intros _. now apply Ha.
Qed.

Lemma new_cart_totals (cart : Cart.t) s :
  Cart.subtotal cart = 0%float → Cart.tax cart = 0%float → Cart.total cart = 0%float →
  Cart.item_count cart = 0 →
  Cart.tax_percentage cart = settings.DEFAULT_TAX_PERCENTAGE →
  Mongo.find (CartService.in_cart (Cart.id cart)) (Store.cart_items s) = [] →
  totals_agree s cart.
Proof.
  unfold totals_agree. intros -> -> -> -> -> ->. repeat split.
Qed.

Lemma consistent_new_cart w cart :
  carts_consistent w →
  ¬ In (Cart.id cart) (List.map Cart.id (Store.shopping_carts (World.db w))) →
  ¬ In (Cart.id cart) (List.map CartItem.cart_id (Store.cart_items (World.db w))) →
  Cart.subtotal cart = 0%float → Cart.tax cart = 0%float → Cart.total cart = 0%float →
  Cart.item_count cart = 0 →
  Cart.tax_percentage cart = settings.DEFAULT_TAX_PERCENTAGE →
  carts_consistent
    (World.on_db
       (Store.on_shopping_carts
          (λ _, (Store.shopping_carts (World.db w) ++ [cart])%list)) w).
Proof.
  intros (H1 & H2 & H3) Fc Fi Z1 Z2 Z3 Z4 Z5.
  split; [|split].
  - unfold unique_cart_ids. cbn. now apply NoDup_map_app_one.
  - exact H2.
  - cbn. intros c Hin. apply List.in_app_iff in Hin as [Hin|[<-|[]]].
    + destruct (H3 c Hin) as [Ht Ha]. split; [exact Ht|]. intros _. now apply Ha.
    + split; [exact Z5|]. intros _. apply new_cart_totals; auto.
      now apply (find_by_key_absent CartItem.cart_id).
Qed.

Lemma consistent_line_update w line f :
  carts_consistent w → In line (Store.cart_items (World.db w)) →
  (∀ i, CartItem.id (f i) = CartItem.id i) →
  (∀ i, CartItem.cart_id (f i) = CartItem.cart_id i) →
  carts_consistent_except (Some (CartItem.cart_id line))
    (World.on_db
       (Store.on_cart_items
          (Mongo.update_one (CartService.item_by_id (CartItem.id line)) f)) w).
Proof.
  intros (H1 & H2 & H3) Hin Kid Kcart.
  split; [exact H1|]. split.
  - unfold unique_cart_item_ids. cbn. now rewrite map_update_one.
  - cbn. intros c Hc. destruct (H3 c Hc) as [Ht Ha]. split; [exact Ht|].
    intros Hskip. unfold totals_agree. cbn.
    rewrite find_update_one_outside; [now apply Ha|].
    intros y Hy Ey. apply String.eqb_eq in Ey.
    assert (y = line) as -> by (apply (NoDup_map_inj CartItem.id _ _ _ H2); auto).
    unfold CartService.in_cart. rewrite Kcart.
    assert ((CartItem.cart_id line =? Cart.id c)%string = false) as ->; [|auto].
    apply String.eqb_neq. congruence.
Qed.

Lemma consistent_line_insert w line :
  carts_consistent w →
  ¬ In (CartItem.id line) (List.map CartItem.id (Store.cart_items (World.db w))) →
  carts_consistent_except (Some (CartItem.cart_id line))
    (World.on_db
       (Store.on_cart_items (λ _, (Store.cart_items (World.db w) ++ [line])%list)) w).
Proof.
  intros (H1 & H2 & H3) Hfresh.
  split; [exact H1|]. split.
  - unfold unique_cart_item_ids. cbn. now apply NoDup_map_app_one.
  - cbn. intros c Hc. destruct (H3 c Hc) as [Ht Ha]. split; [exact Ht|].
    intros Hskip. unfold totals_agree, Mongo.find. cbn.
    rewrite List.filter_app. cbn.
    assert (CartService.in_cart (Cart.id c) line = false) as ->.
    { apply String.eqb_neq. congruence. }
    rewrite app_nil_r. now apply Ha.
Qed.

Lemma consistent_line_delete w cart_id q :
  carts_consistent w →
  (∀ i, q i = true → CartItem.cart_id i = cart_id) →
  carts_consistent_except (Some cart_id)
    (World.on_db (Store.on_cart_items (Mongo.delete_one q)) w).
Proof.
  intros (H1 & H2 & H3) Hq.
  split; [exact H1|]. split.
  - unfold unique_cart_item_ids. cbn. now apply NoDup_map_delete_one.
  - cbn. intros c Hc. destruct (H3 c Hc) as [Ht Ha]. split; [exact Ht|].
    intros Hskip. unfold totals_agree. cbn.
    rewrite find_delete_one_outside; [now apply Ha|].
    intros y _ Ey. apply String.eqb_neq. rewrite (Hq y Ey). congruence.
Qed.

Lemma consistent_recalculate env cart_id w :
  carts_consistent_except (Some cart_id) w →
  carts_consistent (after (CartService.recalculate_cart env cart_id) w).
Proof.
  intros (H1 & H2 & H3).
  unfold after, CartService.recalculate_cart, bind, query, write. cbn [snd].
  set (lines := Mongo.find (CartService.in_cart cart_id) (Store.cart_items (World.db w))).
  split; [|split].
  - unfold unique_cart_ids. cbn. now rewrite map_update_one.
  - exact H2.
  - cbn. intros c Hc.
    apply (In_update_one_keyed Cart.id _ _ _ _ H1) in Hc
      as [[Hc Hne]|(x & Hx & <- & ->)].
    + destruct (H3 c Hc) as [Ht Ha]. split; [exact Ht|]. intros _.
      apply Ha. congruence.
    + destruct (H3 x Hx) as [Ht _]. split; [exact Ht|]. intros _.
      unfold totals_agree. cbn. fold lines. rewrite Ht. repeat split.
Qed.

(** *** The mutations preserve the invariant *)

Lemma find_one_app_one {A} (q : A → bool) c x :
  Mongo.find_one q c = None → q x = true → Mongo.find_one q (c ++ [x]) = Some x.
Proof.
  induction c as [|d r IH]; cbn; [now intros _ ->|].
  destruct (q d); [discriminate | exact IH].
Qed.

Lemma no_cart_no_duplicate user_id c (cart : Cart.t) :
  Mongo.find_one (CartService.by_user user_id) c = None →
  Cart.user_id cart = user_id →
  Mongo.duplicate_key Index.shopping_carts cart c = false.
Proof.
  intros Hnone Hu. unfold Mongo.duplicate_key, Index.shopping_carts.
  destruct (existsb _ c) eqn:E; [|reflexivity].
  apply List.existsb_exists in E as (d & Hd & Hk). cbn in Hk.
  rewrite orb_false_r, Hu in Hk.
  pose proof (find_one_none _ _ Hnone d Hd) as N.
  unfold CartService.by_user in N. congruence.
Qed.

Section CartTriples.
Variable env : Env.t.
Variable user_id : string.
Variable E : World.t → Prop.

Lemma with_cart_has_cart cart w : with_cart env user_id cart w → has_cart user_id w.
Proof.
  intros (_ & Hf & _). apply (find_one_by_key Cart.user_id). eauto.
Qed.

Lemma triple_get_or_create_cart :
  triple (λ w, carts_consistent w ∧ fresh_cart_uuids env w)
    (CartService.get_or_create_cart env user_id) (with_cart env user_id) E.
Proof.
  intros w (HI & Fc & Fi & Fl).
  unfold CartService.get_or_create_cart, bind, query.
  destruct (Mongo.find_one _ _) as [cart|] eqn:Hf;
    [cbn; split; [exact HI|split; [exact Hf|exact Fl]]|].
  unfold insert, Mongo.insert_one.
  rewrite (no_cart_no_duplicate user_id) by (auto; reflexivity).
  unfold ret. split; [|split].
  - apply consistent_new_cart; auto.
  - cbn. apply find_one_app_one; [exact Hf|].
    unfold CartService.by_user. now apply String.eqb_eq.
  - exact Fl.
Qed.

Lemma triple_get_cart :
  triple (λ w, carts_consistent w ∧ has_cart user_id w)
    (CartService.get_cart env user_id) (λ _, carts_consistent) E.
Proof.
  intros w (HI & Hc).
  apply (find_one_by_key Cart.user_id) in Hc as [cart Hf].
  unfold CartService.get_cart. unfold bind at 1, cache_get_cart at 1.
  destruct (live _ _) as [cached|]; [exact HI|].
  rewrite (bind_run _ _ _ _ _ (get_or_create_cart_found env _ _ _ Hf)).
  unfold bind, query, cache_set_cart, ret.
  now apply (consistent_ext None w).
Qed.

(** The tail of the three mutations restores the invariant. *)
Lemma triple_recalculate_and_read cart_id :
  triple (changing user_id cart_id)
    (CartService.recalculate_cart env cart_id ;;
     cache_delete_cart user_id ;;
     CartService.get_cart env user_id)
    (λ _, carts_consistent) E.
Proof.
  apply (triple_bind _ _ (λ _ w, carts_consistent w ∧ has_cart user_id w)).
  - intros w (HI & Hc).
    pose proof (consistent_recalculate env cart_id w HI) as H.
    unfold after in H.
    destruct (CartService.recalculate_cart env cart_id w) as [[[]|e] w1] eqn:R;
      unfold CartService.recalculate_cart, bind, query, write in R;
      [|discriminate].
    injection R as <-. split; [exact H|].
    unfold has_cart. cbn. now rewrite map_update_one.
  - intros _. apply (triple_bind _ _ (λ _ w, carts_consistent w ∧ has_cart user_id w)).
    + intros w (HI & Hc). unfold cache_delete_cart. split; [|exact Hc].
      now apply (consistent_ext None w).
    + intros _. apply triple_get_cart.
Qed.

Lemma triple_customizations cart_id (m : M unit) :
  (∀ w, ∃ w', m w = (Ok tt, w')
              ∧ without_cart_customizations w' = without_cart_customizations w) →
  triple (changing user_id cart_id) m (λ _, changing user_id cart_id) E.
Proof.
  intros Hm. apply (triple_frame without_cart_customizations); [exact Hm|].
  intros w w' (HI & Hc) Hframe.
  assert (Fcarts : Store.shopping_carts (World.db w') = Store.shopping_carts (World.db w))
    by (change (Store.shopping_carts (World.db (without_cart_customizations w'))
                = Store.shopping_carts (World.db (without_cart_customizations w)));
        now rewrite Hframe).
  assert (Fitems : Store.cart_items (World.db w') = Store.cart_items (World.db w))
    by (change (Store.cart_items (World.db (without_cart_customizations w'))
                = Store.cart_items (World.db (without_cart_customizations w)));
        now rewrite Hframe).
  split; [now apply (consistent_ext _ w)|].
  unfold has_cart. now rewrite Fcarts.
Qed.

End CartTriples.

Lemma changing_of_with_cart env user_id cart w w' :
  with_cart env user_id cart w →
  Store.shopping_carts (World.db w') = Store.shopping_carts (World.db w) →
  carts_consistent_except (Some (Cart.id cart)) w' →
  changing user_id (Cart.id cart) w'.
Proof.
  intros Hw Fc HI. split; [exact HI|].
  unfold has_cart. rewrite Fc. exact (with_cart_has_cart _ _ _ _ Hw).
Qed.

Lemma add_to_cart_consistent env user_id request :
  triple (λ w, carts_consistent w ∧ fresh_cart_uuids env w)
    (CartService.add_to_cart env user_id request)
    (λ _, carts_consistent) carts_consistent.
Proof.
  unfold CartService.add_to_cart.
  apply (triple_bind _ _ (with_cart env user_id)); [apply triple_get_or_create_cart|].
  intros cart.
  destruct (Env.fetch_menu_item_details env _) as [menu_item|];
    [|apply triple_raise; now intros w (H & _)].
  apply (triple_bind _ _
           (λ existing w,
              with_cart env user_id cart w
              ∧ Mongo.find_one
                  (line_of (Cart.id cart) (AddToCartRequest.menu_item_id request))
                  (Store.cart_items (World.db w)) = existing)).
  { apply triple_query. intros w H. split; [exact H | reflexivity]. }
  intros existing.
  apply (triple_bind _ _ (λ _, changing user_id (Cart.id cart))).
  { destruct existing as [line|].
    - destruct (settings.MAX_QUANTITY_PER_ITEM <? _);
        [apply triple_raise; now intros w ((H & _) & _)|].
      apply (triple_bind _ _ (λ _, changing user_id (Cart.id cart)));
        [|intros _; apply triple_ret; auto].
      apply triple_write. intros w (Hw & Hex).
      destruct (find_one_some _ _ _ Hex) as [Hin Hq].
      apply andb_true_iff in Hq as [Hc _]. apply String.eqb_eq in Hc.
      apply (changing_of_with_cart env user_id cart w); [exact Hw | reflexivity|].
      rewrite <- Hc. apply consistent_line_update; auto. apply Hw.
    - apply (triple_bind _ _ (λ _, changing user_id (Cart.id cart)));
        [|intros _; apply triple_ret; auto].
      apply triple_insert_no_index. intros w (Hw & _).
      apply (changing_of_with_cart env user_id cart w); [exact Hw | reflexivity|].
      match goal with |- context [(_ ++ [?line])%list] =>
        apply (consistent_line_insert w line) end; apply Hw. }
  intros cart_item_id.
  apply (triple_bind _ _ (λ _, changing user_id (Cart.id cart)));
    [|intros _; apply triple_recalculate_and_read].
  apply triple_customizations. intros w.
  destruct (AddToCartRequest.customizations request) as [[|c cs]|];
    [now exists w | apply replace_customizations_frame | now exists w].
Qed.

Lemma update_cart_item_consistent env user_id cart_item_id request :
  triple (λ w, carts_consistent w ∧ fresh_cart_uuids env w)
    (CartService.update_cart_item env user_id cart_item_id request)
    (λ _, carts_consistent) carts_consistent.
Proof.
  unfold CartService.update_cart_item.
  apply (triple_bind _ _ (with_cart env user_id)); [apply triple_get_or_create_cart|].
  intros cart.
  apply (triple_bind _ _
           (λ found w,
              with_cart env user_id cart w
              ∧ Mongo.find_one
                  (λ i, CartService.item_by_id cart_item_id i
                        && CartService.in_cart (Cart.id cart) i)
                  (Store.cart_items (World.db w)) = found)).
  { apply triple_query. intros w H. split; [exact H | reflexivity]. }
  intros [line|]; [|apply triple_raise; now intros w ((H & _) & _)].
  apply (triple_bind _ _
           (λ _ w,
              with_cart env user_id cart w
              ∧ Mongo.find_one
                  (λ i, CartService.item_by_id cart_item_id i
                        && CartService.in_cart (Cart.id cart) i)
                  (Store.cart_items (World.db w)) = Some line)).
  { destruct (UpdateCartItemRequest.quantity request) as [quantity|];
      [destruct (settings.MAX_QUANTITY_PER_ITEM <? quantity)|];
      [apply triple_raise; now intros w ((H & _) & _)
      |apply triple_ret; auto | apply triple_ret; auto]. }
  intros quantity.
  apply (triple_bind _ _ (λ _, changing user_id (Cart.id cart))).
  { assert (Hwrite : ∀ q si,
      triple
        (λ w, with_cart env user_id cart w
              ∧ Mongo.find_one
                  (λ i, CartService.item_by_id cart_item_id i
                        && CartService.in_cart (Cart.id cart) i)
                  (Store.cart_items (World.db w)) = Some line)
        (write (Store.on_cart_items
                  (Mongo.update_one (CartService.item_by_id cart_item_id)
                     (CartItem.set_update_data q si (Env.utcnow env)))))
        (λ _, changing user_id (Cart.id cart)) carts_consistent).
    { intros q si. apply triple_write. intros w (Hw & Hex).
      destruct (find_one_some _ _ _ Hex) as [Hin Hq].
      apply andb_true_iff in Hq as [Hi Hc]. apply String.eqb_eq in Hi, Hc.
      apply (changing_of_with_cart env user_id cart w); [exact Hw | reflexivity|].
      rewrite <- Hc, <- Hi. apply consistent_line_update; auto. apply Hw. }
    destruct quantity as [q|];
      [|destruct (UpdateCartItemRequest.special_instructions request) as [si|]];
      [apply Hwrite | apply Hwrite |].
    apply triple_ret. intros w (Hw & _).
    apply (changing_of_with_cart env user_id cart w); [exact Hw | reflexivity|].
    apply consistent_weaken. apply Hw. }
  intros _.
  apply (triple_bind _ _ (λ _, changing user_id (Cart.id cart)));
    [|intros _; apply triple_recalculate_and_read].
  apply triple_customizations. intros w.
  destruct (UpdateCartItemRequest.customizations request) as [customs|];
    [apply replace_customizations_frame | now exists w].
Qed.

Lemma remove_cart_item_consistent env user_id cart_item_id :
  triple (λ w, carts_consistent w ∧ fresh_cart_uuids env w)
    (CartService.remove_cart_item env user_id cart_item_id)
    (λ _, carts_consistent) carts_consistent.
Proof.
  unfold CartService.remove_cart_item.
  apply (triple_bind _ _ (with_cart env user_id)); [apply triple_get_or_create_cart|].
  intros cart. cbv zeta.
  set (q := λ i, CartService.item_by_id cart_item_id i
                 && CartService.in_cart (Cart.id cart) i).
  apply (triple_bind _ _
           (λ deleted_count w,
              with_cart env user_id cart w
              ∧ Mongo.deleted_count q (Store.cart_items (World.db w)) = deleted_count)).
  { apply triple_query. intros w H. split; [exact H | reflexivity]. }
  intros deleted_count.
  apply (triple_bind _ _
           (λ _ w, changing user_id (Cart.id cart) w
                   ∧ (deleted_count = 0 → carts_consistent w))).
  { apply triple_write. intros w (Hw & Hd). split.
    - apply (changing_of_with_cart env user_id cart w); [exact Hw | reflexivity|].
      apply consistent_line_delete; [apply Hw|].
      intros i Hi. apply andb_true_iff in Hi as [_ Hc]. now apply String.eqb_eq in Hc.
    - intros ->. unfold Mongo.deleted_count in Hd.
      destruct (existsb q (Store.cart_items (World.db w))) eqn:Ex; [discriminate|].
      apply (consistent_ext None w); [reflexivity | | apply Hw].
      cbn. now apply delete_one_no_match. }
  intros _.
  destruct (Z.eqb_spec deleted_count 0) as [->|_].
  - apply triple_raise. intros w (_ & H). now apply H.
  - apply (triple_pre (changing user_id (Cart.id cart))); [now intros w (H & _)|].
    apply triple_recalculate_and_read.
Qed.

Lemma carts_consistent_empty : carts_consistent World.empty.
Proof.
  split; [constructor|]. split; [constructor|]. intros cart [].
Qed.

Lemma run_cart_op_consistent env op w :
  carts_consistent w → fresh_cart_uuids env w →
  carts_consistent (after (run_cart_op env op) w).
Proof.
  intros HI HF.
  assert (H : triple (λ w, carts_consistent w ∧ fresh_cart_uuids env w)
                (run_cart_op env op) (λ _, carts_consistent) carts_consistent).
  { destruct op; cbn.
    - apply add_to_cart_consistent.
    - apply update_cart_item_consistent.
    - apply remove_cart_item_consistent. }
  specialize (H w (conj HI HF)). unfold after.
  now destruct (run_cart_op env op w) as [[a|e] w'].
Qed.





(** ** C7: an empty cart cannot be ordered *)

(** C7: [create_order] on a cart whose [item_count] is 0, or which has no
    line, raises ValueError("Cart is empty") and leaves the world as it was:
    the cart is unmodified and no order, order line, token, payment or
    timeline entry is written. *)
Theorem create_order_empty_cart env user_id user_data request auth_token w :
  cart_is_empty w user_id →
  OrderService.create_order env user_id user_data request auth_token w
  = (Raise (ValueError "Cart is empty"), w).
Proof.
  unfold cart_is_empty, OrderService.create_order, OrderService.create_order_begin.
  intros H. apply bind_raise. unfold bind at 1, query at 1.
  destruct (Mongo.find_one _ _) as [cart|]; [|reflexivity].
  destruct (Z.eqb_spec (Cart.item_count cart) 0) as [E|NE]; [reflexivity|].
  destruct H as [H|H]; [contradiction|].
  unfold bind, query, OrderService.cart_items_with_customizations.
  cbn [World.db fst snd]. rewrite H. reflexivity.
Qed.

Lemma create_order_empty_cart_witness :
  cart_is_empty Sample.w_order "alice"
  ∧ OrderService.create_order (Sample.env 3000 "o2" 1) "alice" Sample.alice
      Sample.pay_cash (Some "jwt") Sample.w_order
    = (Raise (ValueError "Cart is empty"), Sample.w_order).
Proof.
  assert (H : cart_is_empty Sample.w_order "alice") by (vm_compute; left; reflexivity).
  split; [exact H|]. apply (create_order_empty_cart _ _ _ _ _ _ H).
Defined.

(** ** C8: cancellation *)






(** ** C9: feedback *)

Lemma set_feedback_overwrites r fb now r0 fb0 now0 o :
  Order.set_feedback r fb now (Order.set_feedback r0 fb0 now0 o)
  = Order.set_feedback r fb now o.
Proof. reflexivity. Qed.




(** ** C10: the owner filter of [get_order] and the cache *)



(** * Further properties *)

(** ** Carts: reading, clearing, and the lines one by one *)

Lemma world_eta (w : World.t) :
  World.mk (World.db w) (World.redis w) (World.queue w) = w.
Proof. now destruct w. Qed.

Lemma on_cart_items_same (w : World.t) f :
  f (Store.cart_items (World.db w)) = Store.cart_items (World.db w) →
  World.on_db (Store.on_cart_items f) w = w.
Proof.
  destruct w as [[] ? ?]. unfold World.on_db, Store.on_cart_items. cbn.
  intros H. now rewrite H.
Qed.

Lemma find_one_none_existsb {A} (q : A → bool) c :
  Mongo.find_one q c = None → existsb q c = false.
Proof.
  induction c as [|d r IH]; cbn; [reflexivity|].
  destruct (q d); [discriminate | exact IH].
Qed.


(** [get_or_create_cart] for a user without a cart inserts the empty
    cart. *)
Lemma get_or_create_cart_new env user_id w :
  Mongo.find_one (CartService.by_user user_id) (Store.shopping_carts (World.db w))
  = None →
  CartService.get_or_create_cart env user_id w
  = (Ok (empty_cart env user_id),
     World.on_db
       (Store.on_shopping_carts
          (λ _, (Store.shopping_carts (World.db w) ++ [empty_cart env user_id])%list))
       w).
Proof.
  intros H. unfold CartService.get_or_create_cart, bind, query. rewrite H.
  unfold insert, Mongo.insert_one.
  now rewrite (no_cart_no_duplicate user_id).
Qed.

(** The tail of the mutations, in full: the totals are those of
    [recalculate_cart], the response is the cart of the user as the store
    now has it, and it is what the cache holds for the user afterwards. *)
Lemma recalculate_and_read_view env user_id w cart :
  Mongo.find_one (CartService.by_user user_id) (Store.shopping_carts (World.db w))
  = Some cart →
  ∃ w' cart',
    (CartService.recalculate_cart env (Cart.id cart) ;;
     cache_delete_cart user_id ;;
     CartService.get_cart env user_id) w = (Ok (cart_view (World.db w') cart'), w')
    ∧ World.db w' = World.db (after (CartService.recalculate_cart env (Cart.id cart)) w)
    ∧ Mongo.find_one (CartService.by_user user_id) (Store.shopping_carts (World.db w'))
      = Some cart'
    ∧ Redis.cart (World.redis w') !! user_id
      = Some (Env.utcnow env + settings.REDIS_CACHE_TTL, cart_view (World.db w') cart').
Proof.
  intros Hf.
  unfold after, CartService.recalculate_cart.
  unfold bind at 1. unfold bind at 1 3, query, write.
  unfold bind at 1, cache_delete_cart at 1.
  set (totals := Cart.set_totals _ _ _ _ _).
  assert (Hex : ∃ cart', Mongo.find_one (CartService.by_user user_id)
              (Mongo.update_one (CartService.by_id (Cart.id cart)) totals
                 (Store.shopping_carts (World.db w))) = Some cart').
  { apply (find_one_by_key Cart.user_id).
    rewrite map_update_one by (intros; reflexivity).
    apply (find_one_by_key Cart.user_id). eauto. }
  destruct Hex as [cart' Hcart'].
  match goal with |- context [CartService.get_cart env user_id ?W] =>
    exists (after (cache_set_cart env user_id (cart_view (World.db W) cart')) W), cart'
  end.
  split; [|split; [|split]].
  - rewrite get_cart_miss_found with (cart := cart');
      [reflexivity | cbn; now rewrite lookup_delete_eq | exact Hcart'].
  - reflexivity.
  - exact Hcart'.
  - cbn. now rewrite lookup_insert_eq.
Qed.

(** [get_cart]: without a live cache entry the cart is read from the
    store, an empty cart being inserted for a user who has none, and the
    answer is cached; until the entry expires a second [get_cart] returns the
    same answer and changes nothing. *)
Theorem get_cart_reads_then_caches env env' user_id w :
  live (Env.utcnow env) (Redis.cart (World.redis w) !! user_id) = None →
  Env.utcnow env' < Env.utcnow env + settings.REDIS_CACHE_TTL →
  ∃ cart w',
    CartService.get_cart env user_id w = (Ok (cart_view (World.db w') cart), w')
    ∧ Mongo.find_one (CartService.by_user user_id) (Store.shopping_carts (World.db w'))
      = Some cart
    ∧ (∀ cart0,
         Mongo.find_one (CartService.by_user user_id)
           (Store.shopping_carts (World.db w)) = Some cart0 →
         cart = cart0 ∧ World.db w' = World.db w)
    ∧ (Mongo.find_one (CartService.by_user user_id)
         (Store.shopping_carts (World.db w)) = None →
       cart = empty_cart env user_id
       ∧ Store.shopping_carts (World.db w')
         = (Store.shopping_carts (World.db w) ++ [cart])%list
       ∧ Store.cart_items (World.db w') = Store.cart_items (World.db w))
    ∧ CartService.get_cart env' user_id w' = (Ok (cart_view (World.db w') cart), w').
Proof.
  intros Hmiss Hlive.
  assert (Hhit : ∀ (w1 : World.t) r,
            Redis.cart (World.redis w1) !! user_id
            = Some (Env.utcnow env + settings.REDIS_CACHE_TTL, r) →
            CartService.get_cart env' user_id w1 = (Ok r, w1)).
  { intros w1 r H. unfold CartService.get_cart. unfold bind at 1, cache_get_cart at 1.
    unfold Py.datetime in *. rewrite H. unfold live. now apply Z.ltb_lt in Hlive as ->. }
  destruct (Mongo.find_one (CartService.by_user user_id)
              (Store.shopping_carts (World.db w))) as [cart0|] eqn:Hf.
  - exists cart0,
      (after (cache_set_cart env user_id (cart_view (World.db w) cart0)) w).
    split; [|split; [|split; [|split]]].
    + rewrite (get_cart_miss_found _ _ _ _ Hmiss Hf). reflexivity.
    + exact Hf.
    + now intros ? [= <-].
    + discriminate.
    + apply Hhit. cbn. now rewrite lookup_insert_eq.
  - set (w1 := World.on_db
                  (Store.on_shopping_carts
                     (λ _, (Store.shopping_carts (World.db w)
                            ++ [empty_cart env user_id])%list)) w).
    exists (empty_cart env user_id),
      (after (cache_set_cart env user_id
                (cart_view (World.db w1) (empty_cart env user_id))) w1).
    split; [|split; [|split; [|split]]].
    + unfold CartService.get_cart. unfold bind at 1, cache_get_cart at 1.
      rewrite Hmiss.
      rewrite (bind_run _ _ _ _ _ (get_or_create_cart_new env _ _ Hf)).
      reflexivity.
    + cbn. apply find_one_app_one; [exact Hf|].
      unfold CartService.by_user. now apply String.eqb_eq.
    + discriminate.
    + intros _. repeat split.
    + apply Hhit. cbn. now rewrite lookup_insert_eq.
Qed.

Lemma get_cart_reads_then_caches_witness :
  ∃ cart w',
    CartService.get_cart (Sample.env 900 "g0" 0) "dave" World.empty
    = (Ok (CartResponse.mk cart []), w')
    ∧ Cart.item_count cart = 0
    ∧ CartService.get_cart (Sample.env 1100 "g1" 0) "dave" w'
      = (Ok (CartResponse.mk cart []), w').
Proof.
  destruct (get_cart_reads_then_caches (Sample.env 900 "g0" 0)
              (Sample.env 1100 "g1" 0) "dave" World.empty eq_refl eq_refl)
    as (cart & w' & H1 & _ & _ & H4 & H5).
  destruct (H4 eq_refl) as (-> & _ & Hitems).
  exists (empty_cart (Sample.env 900 "g0" 0) "dave"), w'.
  assert (Hview : cart_view (World.db w') (empty_cart (Sample.env 900 "g0" 0) "dave")
                  = CartResponse.mk (empty_cart (Sample.env 900 "g0" 0) "dave") []).
  { unfold cart_view, CartService.cart_items_of. now rewrite Hitems. }
  rewrite Hview in H1, H5. split; [exact H1|]. split; [reflexivity | exact H5].
Defined.

Lemma NoDup_map_delete_many {A} (key : A → string) p c :
  List.NoDup (List.map key c) → List.NoDup (List.map key (Mongo.delete_many p c)).
Proof.
  unfold Mongo.delete_many. induction c as [|d r IH]; cbn; [auto|]. intros ND.
  apply List.NoDup_cons_iff in ND as [Hd ND].
  destruct (p d); cbn; [auto|]. constructor; [|auto].
  intros Hin. apply Hd. apply List.in_map_iff in Hin as (y & E & Hy).
  apply List.in_map_iff. exists y. split; [exact E|].
  now apply List.filter_In in Hy as [Hy _].
Qed.

Lemma find_delete_many_outside {A} (q p : A → bool) c :
  (∀ y, q y = true → p y = false) →
  Mongo.find q (Mongo.delete_many p c) = Mongo.find q c.
Proof.
  unfold Mongo.find, Mongo.delete_many. intros H.
  induction c as [|d r IH]; cbn; [reflexivity|].
  destruct (p d) eqn:Ep; cbn.
  - destruct (q d) eqn:Eq; [|exact IH]. rewrite (H d Eq) in Ep. discriminate.
  - now rewrite IH.
Qed.

Lemma in_cart_other cart_id cart_id' i :
  cart_id ≠ cart_id' → CartService.in_cart cart_id i = true →
  CartService.in_cart cart_id' i = false.
Proof.
  unfold CartService.in_cart. intros Hne H. apply String.eqb_eq in H.
  apply String.eqb_neq. congruence.
Qed.

Lemma consistent_lines_cleared w cart_id :
  carts_consistent w →
  carts_consistent_except (Some cart_id)
    (World.on_db
       (Store.on_cart_items (Mongo.delete_many (CartService.in_cart cart_id))) w).
Proof.
  intros (H1 & H2 & H3). split; [exact H1|]. split.
  - unfold unique_cart_item_ids. cbn. now apply NoDup_map_delete_many.
  - cbn. intros c Hc. destruct (H3 c Hc) as [Ht Ha]. split; [exact Ht|].
    intros Hskip. unfold totals_agree. cbn.
    rewrite find_delete_many_outside; [now apply Ha|].
    intros y Hy. apply (in_cart_other (Cart.id c)); [congruence | exact Hy].
Qed.

Lemma consistent_zeroed w cart_id now :
  carts_consistent_except (Some cart_id) w →
  Mongo.find (CartService.in_cart cart_id) (Store.cart_items (World.db w)) = [] →
  carts_consistent
    (World.on_db
       (Store.on_shopping_carts
          (Mongo.update_one (CartService.by_id cart_id)
             (Cart.set_totals 0%float 0%float 0%float 0 now))) w).
Proof.
  intros (H1 & H2 & H3) Hempty. split; [|split].
  - unfold unique_cart_ids. cbn. now rewrite map_update_one.
  - exact H2.
  - cbn. intros c Hc.
    apply (In_update_one_keyed Cart.id _ _ _ _ H1) in Hc
      as [[Hc Hne]|(x & Hx & <- & ->)].
    + destruct (H3 c Hc) as [Ht Ha]. split; [exact Ht|]. intros _.
      apply Ha. congruence.
    + destruct (H3 x Hx) as [Ht _]. split; [exact Ht|]. intros _.
      apply new_cart_totals; auto.
Qed.

Lemma get_or_create_cart_frame env user_id w cart w1 :
  CartService.get_or_create_cart env user_id w = (Ok cart, w1) →
  Store.cart_items (World.db w1) = Store.cart_items (World.db w)
  ∧ Store.cart_item_customizations (World.db w1)
    = Store.cart_item_customizations (World.db w)
  ∧ World.redis w1 = World.redis w.
Proof.
  destruct (Mongo.find_one (CartService.by_user user_id)
              (Store.shopping_carts (World.db w))) as [cart0|] eqn:Hf.
  - rewrite (get_or_create_cart_found _ _ _ _ Hf). now intros [= _ <-].
  - rewrite (get_or_create_cart_new _ _ _ Hf). now intros [= _ <-].
Qed.

(** [clear_cart] always returns True: the cart of the user, inserted if
    there was none, has no line left and all its totals at 0, the cached cart
    of the user is dropped, the lines of the other carts are untouched and the
    carts stay consistent. *)
Theorem clear_cart_zeroes env user_id w :
  carts_consistent w → fresh_cart_uuids env w →
  ∃ w' cart,
    CartService.clear_cart env user_id w = (Ok true, w')
    ∧ carts_consistent w'
    ∧ Mongo.find_one (CartService.by_user user_id) (Store.shopping_carts (World.db w'))
      = Some cart
    ∧ (Cart.subtotal cart = 0%float ∧ Cart.tax cart = 0%float
       ∧ Cart.total cart = 0%float ∧ Cart.item_count cart = 0)
    ∧ Mongo.find (CartService.in_cart (Cart.id cart)) (Store.cart_items (World.db w'))
      = []
    ∧ Redis.cart (World.redis w') !! user_id = None
    ∧ ∀ cart_id, cart_id ≠ Cart.id cart →
        Mongo.find (CartService.in_cart cart_id) (Store.cart_items (World.db w'))
        = Mongo.find (CartService.in_cart cart_id) (Store.cart_items (World.db w)).
Proof.
  intros HI HF.
  pose proof (triple_get_or_create_cart env user_id (λ _, False) w (conj HI HF)) as T.
  destruct (CartService.get_or_create_cart env user_id w) as [[cart|e] w1] eqn:G;
    [|contradiction].
  destruct T as (HI1 & Hf1 & _).
  destruct (get_or_create_cart_frame _ _ _ _ _ G) as (Fitems & _ & _).
  unfold CartService.clear_cart. rewrite (bind_run _ _ _ _ _ G).
  unfold bind, write, cache_delete_cart, ret.
  set (zero := Cart.set_totals 0%float 0%float 0%float 0 (Env.utcnow env)).
  eexists _, (zero cart). split; [reflexivity|].
  split; [|split; [|split; [|split; [|split]]]].
  - apply (consistent_ext None
             (World.on_db
                (Store.on_shopping_carts
                   (Mongo.update_one (CartService.by_id (Cart.id cart)) zero))
                (World.on_db
                   (Store.on_cart_items
                      (Mongo.delete_many (CartService.in_cart (Cart.id cart)))) w1)));
      [reflexivity | reflexivity |].
    apply consistent_zeroed; [now apply consistent_lines_cleared|].
    cbn. apply find_after_delete_many.
  - cbn. apply (find_one_update_keyed Cart.id); [apply HI1 | exact Hf1 | reflexivity].
  - repeat split.
  - cbn. apply find_after_delete_many.
  - cbn. now rewrite lookup_delete_eq.
  - intros cart_id Hne. cbn. rewrite <- Fitems.
    apply find_delete_many_outside. intros y Hy.
    now apply (in_cart_other cart_id).
Qed.

Lemma cart_ops_keep_consistent w0 w :
  carts_consistent w0 → cart_ops_from w0 w → carts_consistent w.
Proof.
  intros H0 Hops. induction Hops as [|w env op _ IH HF]; [exact H0|].
  now apply run_cart_op_consistent.
Qed.

Lemma sample_two_carts_consistent : carts_consistent Sample.w_two_carts.
Proof.
  apply (cart_ops_keep_consistent World.empty); [apply carts_consistent_empty|].
  apply (cart_ops_step World.empty Sample.w_cart (Sample.env 1100 "b1" 0)
           (AddLine "bob" (Sample.add "chai" 1))).
  - apply (cart_ops_step World.empty World.empty (Sample.env 1000 "a1" 0)
             (AddLine "alice" (Sample.add "dosa" 2))).
    + apply cart_ops_none.
    + repeat split; cbn; tauto.
  - repeat split; vm_compute; intuition discriminate.
Qed.

Lemma clear_cart_zeroes_witness :
  ∃ w',
    CartService.clear_cart (Sample.env 1300 "c0" 0) "alice" Sample.w_two_carts
    = (Ok true, w')
    ∧ List.map CartItem.menu_item_id (Store.cart_items (World.db w')) = ["chai"].
Proof.
  edestruct (clear_cart_zeroes (Sample.env 1300 "c0" 0) "alice" Sample.w_two_carts)
    as (w' & cart & H1 & _).
  - apply sample_two_carts_consistent.
  - repeat split; vm_compute; intuition discriminate.
  - exists w'. split; [exact H1|].
    vm_compute in H1. injection H1 as <-. reflexivity.
Defined.

(** *** Removing a line *)

Lemma no_item_in_cart cart_item_id cart_id c :
  (∀ i, In i c → CartItem.id i = cart_item_id → CartItem.cart_id i ≠ cart_id) →
  Mongo.find_one (item_in_cart cart_item_id cart_id) c = None.
Proof.
  intros H. destruct (Mongo.find_one _ c) as [i|] eqn:E; [|reflexivity].
  destruct (find_one_some _ _ _ E) as [Hin Hq].
  apply andb_true_iff in Hq as [Hi Hc]. apply String.eqb_eq in Hi, Hc.
  now destruct (H i Hin Hi).
Qed.

Lemma remove_cart_item_unknown env user_id cart_item_id w cart :
  Mongo.find_one (CartService.by_user user_id) (Store.shopping_carts (World.db w))
  = Some cart →
  Mongo.find_one (item_in_cart cart_item_id (Cart.id cart))
    (Store.cart_items (World.db w)) = None →
  CartService.remove_cart_item env user_id cart_item_id w
  = (Raise (ValueError "Cart item not found"), w).
Proof.
  intros Hcart Hnone.
  apply find_one_none_existsb in Hnone as Hex.
  unfold CartService.remove_cart_item.
  rewrite (bind_run _ _ _ _ _ (get_or_create_cart_found env _ _ _ Hcart)).
  cbv zeta. fold (item_in_cart cart_item_id (Cart.id cart)).
  unfold bind at 1, query at 1. unfold Mongo.deleted_count. rewrite Hex.
  unfold bind, write, raise. cbn [Z.eqb].
  now rewrite on_cart_items_same by (now apply delete_one_no_match).
Qed.

Lemma update_cart_item_unknown env user_id cart_item_id request w cart :
  Mongo.find_one (CartService.by_user user_id) (Store.shopping_carts (World.db w))
  = Some cart →
  Mongo.find_one (item_in_cart cart_item_id (Cart.id cart))
    (Store.cart_items (World.db w)) = None →
  CartService.update_cart_item env user_id cart_item_id request w
  = (Raise (ValueError "Cart item not found"), w).
Proof.
  intros Hcart Hnone.
  unfold CartService.update_cart_item.
  rewrite (bind_run _ _ _ _ _ (get_or_create_cart_found env _ _ _ Hcart)).
  fold (item_in_cart cart_item_id (Cart.id cart)).
  unfold bind at 1, query at 1. now rewrite Hnone.
Qed.

(** An id that no line of the cart of the user carries, be it unknown or
    the id of a line of somebody else's cart, is refused by
    [update_cart_item] and by [remove_cart_item] with
    ValueError("Cart item not found"), and nothing changes. *)
Theorem cart_item_not_found env user_id cart_item_id request w cart :
  Mongo.find_one (CartService.by_user user_id) (Store.shopping_carts (World.db w))
  = Some cart →
  (∀ i, In i (Store.cart_items (World.db w)) →
        CartItem.id i = cart_item_id → CartItem.cart_id i ≠ Cart.id cart) →
  CartService.update_cart_item env user_id cart_item_id request w
  = (Raise (ValueError "Cart item not found"), w)
  ∧ CartService.remove_cart_item env user_id cart_item_id w
    = (Raise (ValueError "Cart item not found"), w).
Proof.
  intros Hcart Hnone. apply no_item_in_cart in Hnone. split.
  - now apply update_cart_item_unknown with (cart := cart).
  - now apply remove_cart_item_unknown with (cart := cart).
Qed.

Lemma cart_item_not_found_witness :
  In "a1-1" (List.map CartItem.id (Store.cart_items (World.db Sample.w_two_carts)))
  ∧ CartService.update_cart_item (Sample.env 1300 "r0" 0) "bob" "a1-1"
      (UpdateCartItemRequest.mk (Some 1) None None) Sample.w_two_carts
    = (Raise (ValueError "Cart item not found"), Sample.w_two_carts)
  ∧ CartService.remove_cart_item (Sample.env 1300 "r0" 0) "bob" "a1-1"
      Sample.w_two_carts
    = (Raise (ValueError "Cart item not found"), Sample.w_two_carts).
Proof.
  split; [vm_compute; tauto|].
  eapply (cart_item_not_found (Sample.env 1300 "r0" 0) "bob" "a1-1" _
            Sample.w_two_carts).
  - vm_compute. reflexivity.
  - vm_compute. intros i [<-|[<-|[]]]; cbn; intros; discriminate.
Defined.








(** *** Changing a line *)

Lemma frame_cart_customizations w w' :
  without_cart_customizations w' = without_cart_customizations w →
  Store.shopping_carts (World.db w') = Store.shopping_carts (World.db w)
  ∧ Store.cart_items (World.db w') = Store.cart_items (World.db w)
  ∧ World.redis w' = World.redis w.
Proof.
  intros H.
  split; [|split].
  - change (Store.shopping_carts (World.db (without_cart_customizations w'))
            = Store.shopping_carts (World.db (without_cart_customizations w))).
    now rewrite H.
  - change (Store.cart_items (World.db (without_cart_customizations w'))
            = Store.cart_items (World.db (without_cart_customizations w))).
    now rewrite H.
  - change (World.redis (without_cart_customizations w')
            = World.redis (without_cart_customizations w)).
    now rewrite H.
Qed.






(** *** Adding a line *)





(** [add_to_cart] of a menu item that the catalog does not resolve raises
    ValueError("Menu item not found"). No line is written; a user who had
    no cart is left with an empty one, since the cart is fetched or created
    before the catalog is asked. *)
Theorem add_to_cart_unknown_item env user_id request w :
  Env.fetch_menu_item_details env (AddToCartRequest.menu_item_id request) = None →
  ∃ w',
    CartService.add_to_cart env user_id request w
    = (Raise (ValueError "Menu item not found"), w')
    ∧ Store.cart_items (World.db w') = Store.cart_items (World.db w)
    ∧ World.redis w' = World.redis w
    ∧ (∀ cart, Mongo.find_one (CartService.by_user user_id)
                 (Store.shopping_carts (World.db w)) = Some cart → w' = w)
    ∧ (Mongo.find_one (CartService.by_user user_id)
         (Store.shopping_carts (World.db w)) = None →
       Store.shopping_carts (World.db w')
       = (Store.shopping_carts (World.db w) ++ [empty_cart env user_id])%list).
Proof.
  intros Hmenu. unfold CartService.add_to_cart.
  destruct (Mongo.find_one (CartService.by_user user_id)
              (Store.shopping_carts (World.db w))) as [cart0|] eqn:Hf.
  - exists w. rewrite (bind_run _ _ _ _ _ (get_or_create_cart_found _ _ _ _ Hf)), Hmenu.
    repeat split; auto. discriminate.
  - eexists. rewrite (bind_run _ _ _ _ _ (get_or_create_cart_new _ _ _ Hf)), Hmenu.
    repeat split; auto. discriminate.
Qed.

Lemma add_to_cart_unknown_item_witness :
  ∃ w',
    CartService.add_to_cart (Sample.env 1300 "d1" 0) "dave" (Sample.add "pizza" 1)
      Sample.w_two_carts
    = (Raise (ValueError "Menu item not found"), w')
    ∧ List.map Cart.user_id (Store.shopping_carts (World.db w'))
      = ["alice"; "bob"; "dave"].
Proof.
  destruct (add_to_cart_unknown_item (Sample.env 1300 "d1" 0) "dave"
              (Sample.add "pizza" 1) Sample.w_two_carts)
    as (w' & Hrun & _ & _ & _ & Hnew).
  - reflexivity.
  - exists w'. split; [exact Hrun|]. rewrite Hnew by reflexivity. reflexivity.
Defined.

(** *** The bound on quantities *)

Lemma Forall_update_one {A} (R : A → Prop) (q : A → bool) f c :
  List.Forall R c → (∀ x, In x c → q x = true → R (f x)) →
  List.Forall R (Mongo.update_one q f c).
Proof.
  induction c as [|d r IH]; cbn; [constructor|].
  intros H Hf. apply List.Forall_cons_iff in H as [Hd Hr].
  destruct (q d) eqn:E; constructor; auto.
Qed.

Lemma Forall_delete_one {A} (R : A → Prop) (q : A → bool) c :
  List.Forall R c → List.Forall R (Mongo.delete_one q c).
Proof.
  induction c as [|d r IH]; cbn; [constructor|].
  intros H. apply List.Forall_cons_iff in H as [Hd Hr].
  destruct (q d); [exact Hr | constructor; auto].
Qed.

Lemma after_bind_keeps {A B X} (proj : World.t → X) (m : M A) (k : A → M B) :
  (∀ w, proj (after m w) = proj w) → (∀ a w, proj (after (k a) w) = proj w) →
  ∀ w, proj (after (bind m k) w) = proj w.
Proof.
  intros Hm Hk w. specialize (Hm w). unfold after, bind in *.
  destruct (m w) as [[a|e] w1]; cbn in *; [|exact Hm].
  rewrite <- Hm. apply Hk.
Qed.

Section QuantityTriples.
Variable env : Env.t.
Variable user_id : string.

(** A step that leaves the cart items alone keeps the bound. *)
Lemma triple_items_unchanged {A} (m : M A) :
  (∀ w, Store.cart_items (World.db (after m w)) = Store.cart_items (World.db w)) →
  ∀ (P : Prop),
    triple (λ w, quantities_in_range w ∧ P) m (λ _ w, quantities_in_range w ∧ P)
      quantities_in_range.
Proof.
  intros Hm P w (Hw & HP). specialize (Hm w). unfold after in Hm.
  unfold quantities_in_range.
  destruct (m w) as [[a|e] w']; cbn in Hm; rewrite Hm; auto.
Qed.

Lemma get_or_create_cart_items w :
  Store.cart_items (World.db (after (CartService.get_or_create_cart env user_id) w))
  = Store.cart_items (World.db w).
Proof.
  unfold after, CartService.get_or_create_cart, bind, query, insert.
  destruct (Mongo.find_one _ _); [reflexivity|].
  now destruct (Mongo.insert_one _ _ _).
Qed.

Lemma get_cart_items w :
  Store.cart_items (World.db (after (CartService.get_cart env user_id) w))
  = Store.cart_items (World.db w).
Proof.
  unfold after, CartService.get_cart. unfold bind at 1, cache_get_cart at 1.
  destruct (live _ _); [reflexivity|].
  pose proof (get_or_create_cart_items w) as H. unfold after in H.
  unfold bind at 1.
  destruct (CartService.get_or_create_cart env user_id w) as [[cart|e] w1];
    [|exact H].
  cbn. exact H.
Qed.

Lemma recalculate_and_read_items cart_id w :
  Store.cart_items
    (World.db (after (CartService.recalculate_cart env cart_id ;;
                      cache_delete_cart user_id ;;
                      CartService.get_cart env user_id) w))
  = Store.cart_items (World.db w).
Proof.
  revert w. apply (after_bind_keeps (λ w, Store.cart_items (World.db w)));
    [reflexivity|].
  intros _. apply (after_bind_keeps (λ w, Store.cart_items (World.db w)));
    [reflexivity|].
  intros _. exact get_cart_items.
Qed.

Lemma triple_quantities_customizations (m : M unit) :
  (∀ w, ∃ w', m w = (Ok tt, w')
              ∧ without_cart_customizations w' = without_cart_customizations w) →
  triple quantities_in_range m (λ _, quantities_in_range) quantities_in_range.
Proof.
  intros Hm. apply (triple_frame without_cart_customizations); [exact Hm|].
  intros w w' HI Hframe. unfold quantities_in_range.
  now destruct (frame_cart_customizations _ _ Hframe) as (_ & -> & _).
Qed.

Lemma triple_quantities_tail cart_id :
  triple quantities_in_range
    (CartService.recalculate_cart env cart_id ;;
     cache_delete_cart user_id ;;
     CartService.get_cart env user_id)
    (λ _, quantities_in_range) quantities_in_range.
Proof.
  intros w Hw. pose proof (recalculate_and_read_items cart_id w) as H.
  unfold after in H. unfold quantities_in_range.
  destruct ((_ ;; _) w) as [[a|e] w']; cbn in H; now rewrite H.
Qed.

Lemma triple_quantities_cart :
  triple quantities_in_range (CartService.get_or_create_cart env user_id)
    (λ _, quantities_in_range) quantities_in_range.
Proof.
  intros w Hw. pose proof (get_or_create_cart_items w) as H.
  unfold after in H. unfold quantities_in_range.
  destruct (CartService.get_or_create_cart env user_id w) as [[a|e] w'];
    cbn in H; now rewrite H.
Qed.

Lemma add_to_cart_in_range request :
  valid_add_to_cart request = true →
  triple quantities_in_range (CartService.add_to_cart env user_id request)
    (λ _, quantities_in_range) quantities_in_range.
Proof.
  intros Hv. apply andb_true_iff in Hv as [Hlo Hhi].
  apply Z.leb_le in Hlo, Hhi.
  unfold CartService.add_to_cart.
  apply (triple_bind _ _ (λ _, quantities_in_range)); [apply triple_quantities_cart|].
  intros cart.
  destruct (Env.fetch_menu_item_details env _) as [menu_item|];
    [|now apply triple_raise].
  apply (triple_bind _ _
           (λ existing w,
              quantities_in_range w
              ∧ ∀ line, existing = Some line → In line (Store.cart_items (World.db w)))).
  { apply triple_query. intros w H. split; [exact H|].
    intros line Hl. now destruct (find_one_some _ _ _ Hl). }
  intros existing.
  apply (triple_bind _ _ (λ _, quantities_in_range)).
  { destruct existing as [line|].
    - destruct (Z.ltb_spec settings.MAX_QUANTITY_PER_ITEM
                  (CartItem.quantity line + AddToCartRequest.quantity request))
        as [Hlt|Hge]; [apply triple_raise; now intros w (H & _)|].
      apply (triple_bind _ _ (λ _, quantities_in_range));
        [|intros _; apply triple_ret; auto].
      apply triple_write. intros w (Hw & Hin).
      apply Forall_update_one; [exact Hw|]. intros x _ _. cbn.
      specialize (Hin line eq_refl).
      apply (proj1 (List.Forall_forall _ _) Hw) in Hin.
      apply andb_true_iff in Hin as [Hl1 _]. apply Z.leb_le in Hl1.
      apply andb_true_iff. split; apply Z.leb_le; [lia | exact Hge].
    - apply (triple_bind _ _ (λ _, quantities_in_range));
        [|intros _; apply triple_ret; auto].
      apply triple_insert_no_index. intros w (Hw & _).
      apply List.Forall_app. split; [exact Hw|]. constructor; [|constructor].
      cbn. apply andb_true_iff. split; now apply Z.leb_le. }
  intros cart_item_id.
  apply (triple_bind _ _ (λ _, quantities_in_range));
    [|intros _; apply triple_quantities_tail].
  apply triple_quantities_customizations. intros w.
  destruct (AddToCartRequest.customizations request) as [[|c cs]|];
    [now exists w | apply replace_customizations_frame | now exists w].
Qed.

Lemma update_cart_item_in_range cart_item_id request :
  valid_update_cart_item request = true →
  triple quantities_in_range
    (CartService.update_cart_item env user_id cart_item_id request)
    (λ _, quantities_in_range) quantities_in_range.
Proof.
  intros Hv. unfold CartService.update_cart_item.
  apply (triple_bind _ _ (λ _, quantities_in_range)); [apply triple_quantities_cart|].
  intros cart.
  apply (triple_bind _ _ (λ _, quantities_in_range)); [now apply triple_query|].
  intros [line|]; [|now apply triple_raise].
  apply (triple_bind _ _
           (λ quantity w,
              quantities_in_range w
              ∧ ∀ q, quantity = Some q → quantity_in_range (fst q) = true)).
  { unfold valid_update_cart_item in Hv.
    destruct (UpdateCartItemRequest.quantity request) as [quantity|].
    - destruct (settings.MAX_QUANTITY_PER_ITEM <? quantity);
        [now apply triple_raise|].
      apply triple_ret. intros w Hw. split; [exact Hw|]. now intros q [= <-].
    - apply triple_ret. intros w Hw. split; [exact Hw|]. discriminate. }
  intros quantity.
  apply (triple_bind _ _ (λ _, quantities_in_range)).
  { assert (Hwrite : ∀ si,
      triple
        (λ w, quantities_in_range w
              ∧ ∀ q, quantity = Some q → quantity_in_range (fst q) = true)
        (write (Store.on_cart_items
                  (Mongo.update_one (CartService.item_by_id cart_item_id)
                     (CartItem.set_update_data quantity si (Env.utcnow env)))))
        (λ _, quantities_in_range) quantities_in_range).
    { intros si. apply triple_write. intros w (Hw & Hq).
      apply Forall_update_one; [exact Hw|]. intros x Hx _. cbn.
      destruct quantity as [q|]; cbn; [now apply Hq|].
      now apply (proj1 (List.Forall_forall _ _) Hw). }
    destruct quantity as [q|];
      [|destruct (UpdateCartItemRequest.special_instructions request) as [si|]];
      [apply Hwrite | apply Hwrite |].
    apply triple_ret. now intros w (Hw & _). }
  intros _.
  apply (triple_bind _ _ (λ _, quantities_in_range));
    [|intros _; apply triple_quantities_tail].
  apply triple_quantities_customizations. intros w.
  destruct (UpdateCartItemRequest.customizations request);
    [apply replace_customizations_frame | now exists w].
Qed.

Lemma remove_cart_item_in_range cart_item_id :
  triple quantities_in_range (CartService.remove_cart_item env user_id cart_item_id)
    (λ _, quantities_in_range) quantities_in_range.
Proof.
  unfold CartService.remove_cart_item.
  apply (triple_bind _ _ (λ _, quantities_in_range)); [apply triple_quantities_cart|].
  intros cart. cbv zeta.
  apply (triple_bind _ _ (λ _, quantities_in_range)); [now apply triple_query|].
  intros deleted_count.
  apply (triple_bind _ _ (λ _, quantities_in_range)).
  { apply triple_write. intros w Hw. now apply Forall_delete_one. }
  intros _. destruct (deleted_count =? 0);
    [now apply triple_raise | apply triple_quantities_tail].
Qed.

End QuantityTriples.

Lemma run_cart_op_in_range env op w :
  valid_cart_op op = true → quantities_in_range w →
  quantities_in_range (after (run_cart_op env op) w).
Proof.
  intros Hv Hw.
  assert (H : triple quantities_in_range (run_cart_op env op)
                (λ _, quantities_in_range) quantities_in_range).
  { destruct op; cbn in *.
    - now apply add_to_cart_in_range.
    - now apply update_cart_item_in_range.
    - apply remove_cart_item_in_range. }
  specialize (H w Hw). unfold after.
  now destruct (run_cart_op env op w) as [[a|e] w'].
Qed.

(** Requests that pass the validation of their schemas keep the quantity
    of every cart line between 1 and 50, whatever the sequence of additions,
    updates and removals, whether each of them succeeds or not: the check of
    the service bounds the sum on a merge, the schema the quantity of a new
    or an updated line. *)
Theorem cart_quantities_stay_in_range ops w :
  List.Forall (λ '(_, op), valid_cart_op op = true) ops →
  quantities_in_range w →
  quantities_in_range (run_cart_ops ops w).
Proof.
  unfold run_cart_ops. revert w.
  induction ops as [|[env op] ops IH]; intros w Hv Hw; cbn; [exact Hw|].
  apply List.Forall_cons_iff in Hv as [Hop Hv].
  apply IH; [exact Hv|]. now apply run_cart_op_in_range.
Qed.

Lemma cart_quantities_stay_in_range_witness :
  List.map CartItem.quantity
    (Store.cart_items
       (World.db
          (run_cart_ops
             [(Sample.env 1300 "q1" 0, AddLine "alice" (Sample.add "dosa" 48));
              (Sample.env 1400 "q2" 0, AddLine "alice" (Sample.add "dosa" 1));
              (Sample.env 1500 "q3" 0,
               UpdateLine "bob" "b1-1" (UpdateCartItemRequest.mk (Some 50) None None))]
             Sample.w_two_carts)))
  = [50; 50]
  ∧ quantities_in_range
      (run_cart_ops
         [(Sample.env 1300 "q1" 0, AddLine "alice" (Sample.add "dosa" 48));
          (Sample.env 1400 "q2" 0, AddLine "alice" (Sample.add "dosa" 1));
          (Sample.env 1500 "q3" 0,
           UpdateLine "bob" "b1-1" (UpdateCartItemRequest.mk (Some 50) None None))]
         Sample.w_two_carts).
Proof.
  split; [vm_compute; reflexivity|].
  apply cart_quantities_stay_in_range.
  - repeat constructor.
  - vm_compute. repeat constructor.
Defined.

(** ** Orders: reading *)

Lemma insert_by_timestamp_perm e l :
  OrderService.insert_by_timestamp e l ≡ₚ e :: l.
Proof.
  induction l as [|e' r IH]; cbn; [reflexivity|].
  destruct (_ <? _); [reflexivity|].
  rewrite IH. apply Permutation_swap.
Qed.

Lemma insert_by_timestamp_chronological e l :
  chronological l → chronological (OrderService.insert_by_timestamp e l).
Proof.
  induction l as [|e' r IH]; cbn; [intros _; split; [constructor | exact I]|].
  intros [Hall Hr].
  destruct (Z.ltb_spec (TimelineEntry.timestamp e) (TimelineEntry.timestamp e'))
    as [Hlt|Hge].
  - cbn. split; [|split; assumption].
    constructor; [lia|].
    eapply List.Forall_impl; [|exact Hall]. cbn. intros a Ha. lia.
  - cbn. split; [|now apply IH].
    rewrite (insert_by_timestamp_perm e r). constructor; assumption.
Qed.

Lemma sort_by_timestamp_from l sorted :
  chronological sorted →
  chronological (fold_left (λ sorted e, OrderService.insert_by_timestamp e sorted) l sorted)
  ∧ fold_left (λ sorted e, OrderService.insert_by_timestamp e sorted) l sorted
    ≡ₚ (sorted ++ l)%list.
Proof.
  revert sorted. induction l as [|e r IH]; intros sorted Hs; cbn.
  - split; [exact Hs|]. now rewrite app_nil_r.
  - destruct (IH (OrderService.insert_by_timestamp e sorted)) as [H1 H2];
      [now apply insert_by_timestamp_chronological|].
    split; [exact H1|]. rewrite H2, insert_by_timestamp_perm. cbn.
    first [apply Permutation_middle | symmetry; apply Permutation_middle].
Qed.

(** The timeline that [get_order] returns holds the entries stored for
    the order, each once, in the order of their timestamps. *)
Theorem get_order_timeline env order_id user_id w response w' :
  OrderService.get_order env order_id user_id w = (Ok response, w') →
  chronological (OrderResponse.timeline response)
  ∧ OrderResponse.timeline response
    ≡ₚ Mongo.find (OrderService.entry_of order_id)
         (Store.order_timeline (World.db w)).
Proof.
  intros H. apply get_order_ok in H as [_ ->]. cbn.
  destruct (sort_by_timestamp_from
              (Mongo.find (OrderService.entry_of order_id)
                 (Store.order_timeline (World.db w))) []) as [H1 H2];
    [exact I|].
  split; [exact H1 | exact H2].
Qed.

Lemma get_order_timeline_witness :
  ∃ response w',
    OrderService.get_order (Sample.env 2700 "g1" 0) "o1-0" (Some "alice")
      Sample.w_completed = (Ok response, w')
    ∧ List.map TimelineEntry.status (OrderResponse.timeline response)
      = [OrderStatus.PENDING; OrderStatus.COMPLETED]
    ∧ chronological (OrderResponse.timeline response).
Proof.
  eexists _, _. split; [vm_compute; reflexivity|]. split; [reflexivity|].
  refine (proj1 (get_order_timeline (Sample.env 2700 "g1" 0) "o1-0" (Some "alice")
                   Sample.w_completed _ _ _)).
  vm_compute. reflexivity.
Defined.

(** ** Orders: who may change them *)

(** Cancelling and rating go by the store, whatever the cache holds: for
    a caller who does not own an order of the given id, [cancel_order] and
    [submit_feedback] raise ValueError("Order not found"), which their routes
    answer with status 400, and nothing changes. *)
Theorem not_owner_refused env order_id user cancel feedback w :
  Mongo.find_one (OrderService.by_id_and_user order_id (User.id user))
    (Store.orders (World.db w)) = None →
  OrderService.cancel_order env order_id (User.id user) cancel w
  = (Raise (ValueError "Order not found"), w)
  ∧ OrderService.submit_feedback env order_id (User.id user) feedback w
    = (Raise (ValueError "Order not found"), w)
  ∧ Routes.cancel_order env order_id cancel user w
    = (Routes.HTTPException 400 "Order not found", w)
  ∧ Routes.submit_feedback env order_id feedback user w
    = (Routes.HTTPException 400 "Order not found", w).
Proof.
  intros H.
  assert (Hc : OrderService.cancel_order env order_id (User.id user) cancel w
               = (Raise (ValueError "Order not found"), w))
    by (unfold OrderService.cancel_order, bind, query; now rewrite H).
  assert (Hf : OrderService.submit_feedback env order_id (User.id user) feedback w
               = (Raise (ValueError "Order not found"), w))
    by (unfold OrderService.submit_feedback, bind, query; now rewrite H).
  unfold Routes.cancel_order, Routes.submit_feedback. rewrite Hc, Hf.
  repeat split.
Qed.

Lemma not_owner_refused_witness :
  cached_order (Sample.env 2100 "x" 0) Sample.w_order "o1-0" ≠ None
  ∧ Routes.cancel_order (Sample.env 2100 "x" 0) "o1-0"
      (CancelOrderRequest.mk "not mine") Sample.bob Sample.w_order
    = (Routes.HTTPException 400 "Order not found", Sample.w_order)
  ∧ Routes.submit_feedback (Sample.env 2100 "x" 0) "o1-0"
      (OrderFeedbackRequest.mk 1 None None) Sample.bob Sample.w_order
    = (Routes.HTTPException 400 "Order not found", Sample.w_order).
Proof.
  split; [vm_compute; discriminate|].
  apply (not_owner_refused (Sample.env 2100 "x" 0) "o1-0" Sample.bob
           (CancelOrderRequest.mk "not mine") (OrderFeedbackRequest.mk 1 None None)
           Sample.w_order).
  vm_compute. reflexivity.
Defined.

(** ** Orders: creation *)

Lemma no_duplicate_key {A} (unique : list (A → string)) (doc : A) c :
  (∀ key, In key unique → ¬ In (key doc) (List.map key c)) →
  Mongo.duplicate_key unique doc c = false.
Proof.
  intros H. unfold Mongo.duplicate_key.
  destruct (existsb _ c) eqn:E; [|reflexivity].
  apply existsb_exists in E as (d & Hd & E).
  apply existsb_exists in E as (key & Hk & E). apply String.eqb_eq in E.
  destruct (H key Hk). rewrite <- E. now apply in_map.
Qed.

Lemma duplicate_key_present {A} (unique : list (A → string)) (doc : A) c key :
  In key unique → In (key doc) (List.map key c) →
  Mongo.duplicate_key unique doc c = true.
Proof.
  intros Hk Hin. apply List.in_map_iff in Hin as (d & E & Hd).
  unfold Mongo.duplicate_key. apply existsb_exists. exists d. split; [exact Hd|].
  apply existsb_exists. exists key. split; [exact Hk|]. now apply String.eqb_eq.
Qed.

Lemma frame_order_lines w w' :
  without_order_lines w' = without_order_lines w →
  Store.shopping_carts (World.db w') = Store.shopping_carts (World.db w)
  ∧ Store.cart_items (World.db w') = Store.cart_items (World.db w)
  ∧ Store.cart_item_customizations (World.db w')
    = Store.cart_item_customizations (World.db w)
  ∧ Store.orders (World.db w') = Store.orders (World.db w)
  ∧ Store.order_tokens (World.db w') = Store.order_tokens (World.db w)
  ∧ Store.payments (World.db w') = Store.payments (World.db w)
  ∧ Store.order_timeline (World.db w') = Store.order_timeline (World.db w)
  ∧ World.redis w' = World.redis w
  ∧ World.queue w' = World.queue w.
Proof.
  intros H.
  repeat match goal with |- _ ∧ _ => split end.
  - change (Store.shopping_carts (World.db (without_order_lines w'))
            = Store.shopping_carts (World.db (without_order_lines w))).
    now rewrite H.
  - change (Store.cart_items (World.db (without_order_lines w'))
            = Store.cart_items (World.db (without_order_lines w))).
    now rewrite H.
  - change (Store.cart_item_customizations (World.db (without_order_lines w'))
            = Store.cart_item_customizations (World.db (without_order_lines w))).
    now rewrite H.
  - change (Store.orders (World.db (without_order_lines w'))
            = Store.orders (World.db (without_order_lines w))).
    now rewrite H.
  - change (Store.order_tokens (World.db (without_order_lines w'))
            = Store.order_tokens (World.db (without_order_lines w))).
    now rewrite H.
  - change (Store.payments (World.db (without_order_lines w'))
            = Store.payments (World.db (without_order_lines w))).
    now rewrite H.
  - change (Store.order_timeline (World.db (without_order_lines w'))
            = Store.order_timeline (World.db (without_order_lines w))).
    now rewrite H.
  - change (World.redis (without_order_lines w') = World.redis (without_order_lines w)).
    now rewrite H.
  - change (World.queue (without_order_lines w') = World.queue (without_order_lines w)).
    now rewrite H.
Qed.

(** The first phase of [create_order] on a cart with lines, when the
    order number is not taken: the order is appended and its lines are
    written; carts, tokens, payments, timeline, cache and queue are as
    before. *)
Lemma create_order_begin_runs env user_id user_data request w cart :
  Mongo.find_one (CartService.by_user user_id) (Store.shopping_carts (World.db w))
  = Some cart →
  Cart.item_count cart ≠ 0 →
  Mongo.find (CartService.in_cart (Cart.id cart)) (Store.cart_items (World.db w)) ≠ [] →
  ¬ In (generate_order_number env)
      (List.map Order.order_number (Store.orders (World.db w))) →
  ∃ w1 order,
    OrderService.create_order_begin env user_id user_data request w
    = (Ok (cart, Env.uuid4 env [0%nat], issued_today (Env.utcnow env) w + 1), w1)
    ∧ (Order.id order = Env.uuid4 env [0%nat] ∧ Order.user_id order = user_id
       ∧ Order.status order = OrderStatus.PENDING
       ∧ Order.total order = Cart.total cart)
    ∧ Store.orders (World.db w1) = (Store.orders (World.db w) ++ [order])%list
    ∧ Store.shopping_carts (World.db w1) = Store.shopping_carts (World.db w)
    ∧ Store.cart_items (World.db w1) = Store.cart_items (World.db w)
    ∧ Store.order_tokens (World.db w1) = Store.order_tokens (World.db w)
    ∧ Store.payments (World.db w1) = Store.payments (World.db w)
    ∧ Store.order_timeline (World.db w1) = Store.order_timeline (World.db w)
    ∧ World.redis w1 = World.redis w
    ∧ World.queue w1 = World.queue w.
Proof.
  intros Hcart Hcount Hlines Hnumber.
  unfold OrderService.create_order_begin.
  unfold bind at 1, query at 1. rewrite Hcart.
  destruct (Z.eqb_spec (Cart.item_count cart) 0) as [|_]; [contradiction|].
  unfold bind at 1, query at 1.
  unfold OrderService.cart_items_with_customizations.
  destruct (Mongo.find (CartService.in_cart (Cart.id cart))
              (Store.cart_items (World.db w))) as [|line lines] eqn:El;
    [contradiction|].
  cbn [List.map].
  set (order := Order.mk _ _ _ _ _ _ _ _ _ _ _ _ _ _ _ _ _ _ _ _ _ _ _ _).
  unfold bind at 1. unfold insert at 1, Mongo.insert_one.
  rewrite no_duplicate_key
    by (intros key [<-|[]]; exact Hnumber).
  match goal with |- context [bind (for_each ?body 0%nat ?xs) _ ?w0] =>
    set (wa := w0);
    destruct (order_lines_written env (Env.uuid4 env [0%nat]) xs wa)
      as (wb & Hloop & Hframe)
  end.
  rewrite (bind_run _ _ _ _ _ Hloop).
  destruct (frame_order_lines _ _ Hframe)
    as (F1 & F2 & F3 & F4 & F5 & F6 & F7 & F8 & F9).
  exists wb, order.
  unfold OrderService._get_next_token_number, bind, query, ret, issued_today.
  rewrite F5.
  repeat match goal with |- _ ∧ _ => split end; auto.
Qed.

Lemma succeeds_bind {A B} (m : M A) (k : A → M B) w a w1 :
  m w = (Ok a, w1) → succeeds (k a) w1 → succeeds (bind m k) w.
Proof.
  intros Hm (b & w' & Hk). exists b, w'. now rewrite (bind_run _ _ _ _ _ Hm).
Qed.

Lemma find_one_exists {A} (q : A → bool) c x :
  In x c → q x = true → ∃ y, Mongo.find_one q c = Some y.
Proof.
  intros Hin Hq. destruct (Mongo.find_one q c) as [y|] eqn:E; [eauto|].
  rewrite (find_one_none _ _ E x Hin) in Hq. discriminate.
Qed.

(** [get_order] for the owner of a stored order returns. *)
Lemma get_order_succeeds env order_id user_id w order :
  In order (Store.orders (World.db w)) →
  Order.id order = order_id → Order.user_id order = user_id →
  succeeds (OrderService.get_order env order_id (Some user_id)) w.
Proof.
  intros Hin Hid Hu.
  destruct (cached_order env w order_id) as [cached|] eqn:Hc.
  - eexists _, _. exact (get_order_hit _ _ _ _ _ Hc).
  - destruct (find_one_exists (order_query order_id (Some user_id))
                (Store.orders (World.db w)) order Hin) as [y Hy].
    { apply order_query_owner; [exact Hid|]. now intros u [= <-]. }
    eexists _, _. exact (get_order_miss_found _ _ _ _ _ Hc Hy).
Qed.

(** The second phase of [create_order] returns when the token and the
    order id are not taken in the tokens and the payments. *)
Lemma create_order_finish_runs env user_id user_data request auth_token cart
    order_id token_number w1 order :
  In order (Store.orders (World.db w1)) →
  Order.id order = order_id → Order.user_id order = user_id →
  ¬ In order_id (List.map OrderToken.order_id (Store.order_tokens (World.db w1))) →
  ¬ In (fst (generate_order_token env token_number))
      (List.map OrderToken.token (Store.order_tokens (World.db w1))) →
  ¬ In order_id (List.map Payment.order_id (Store.payments (World.db w1))) →
  succeeds
    (OrderService.create_order_finish env user_id user_data request auth_token
       (cart, order_id, token_number)) w1.
Proof.
  intros Hin Hid Hu Htid Htok Hpay.
  unfold OrderService.create_order_finish.
  destruct (generate_order_token env token_number) as [token token_prefix] eqn:Et.
  cbn [fst] in Htok.
  eapply succeeds_bind.
  { unfold insert, Mongo.insert_one. rewrite no_duplicate_key; [reflexivity|].
    intros key [<-|[<-|[]]]; assumption. }
  eapply succeeds_bind.
  { unfold insert, Mongo.insert_one. rewrite no_duplicate_key; [reflexivity|].
    intros key [<-|[]]. exact Hpay. }
  eapply succeeds_bind; [apply insert_no_index|].
  eapply succeeds_bind; [reflexivity|].
  eapply succeeds_bind; [reflexivity|].
  eapply succeeds_bind; [reflexivity|].
  eapply succeeds_bind; [reflexivity|].
  assert (Hlast : ∀ w, Store.orders (World.db w) = Store.orders (World.db w1) →
                       succeeds (OrderService.get_order env order_id (Some user_id)) w).
  { intros w E. apply (get_order_succeeds _ _ _ _ order); auto. now rewrite E. }
  destruct auth_token as [auth_token'|];
    [destruct (Py.truthy (Some auth_token'))|];
    (eapply succeeds_bind; [reflexivity|]); now apply Hlast.
Qed.

(** The token that the second phase of [create_order] has stored when it
    returns. *)
Lemma create_order_finish_token env user_id user_data request auth_token cart
    order_id token_number w1 response w' :
  OrderService.create_order_finish env user_id user_data request auth_token
    (cart, order_id, token_number) w1 = (Ok response, w') →
  ∃ token,
    Store.order_tokens (World.db w')
    = (Store.order_tokens (World.db w1) ++ [token])%list
    ∧ OrderToken.order_id token = order_id
    ∧ OrderToken.token token = fst (generate_order_token env token_number)
    ∧ OrderToken.token_number token = token_number
    ∧ response = hydrate (World.db w') order_id (OrderResponse.order response).
Proof.
  intros Hfinish.
  unfold OrderService.create_order_finish, generate_order_token in Hfinish.
  cbn zeta iota beta in Hfinish.
  apply bind_ok in Hfinish as ([] & wc & Htoken & Hfinish).
  apply insert_ok in Htoken as [_ ->].
  apply bind_ok in Hfinish as ([] & wd & Hpay & Hfinish).
  apply insert_ok in Hpay as [_ ->].
  unfold OrderService._add_timeline_entry in Hfinish.
  rewrite (bind_run _ _ _ _ _ (insert_no_index _ _ _ _)) in Hfinish.
  unfold bind at 1, write at 1 in Hfinish.
  unfold bind at 1, write at 1 in Hfinish.
  unfold bind at 1, cache_delete_cart at 1 in Hfinish.
  unfold bind at 1, cache_delete_pattern_orders at 1, ret at 1 in Hfinish.
  match type of Hfinish with
  | bind ?m _ ?w0 = _ =>
      assert (Hq : ∃ wq, m w0 = (Ok tt, wq) ∧ World.db wq = World.db w0)
  end.
  { destruct auth_token as [t|]; [destruct (Py.truthy (Some t))|];
      eexists; split; reflexivity. }
  destruct Hq as (wq & Hq & Fq).
  rewrite (bind_run _ _ _ _ _ Hq) in Hfinish.
  apply get_order_ok in Hfinish as [Fdb Hresp].
  rewrite Fq in Fdb, Hresp. rewrite <- Fdb in Hresp.
  eexists. split; [rewrite Fdb; cbn; reflexivity|].
  repeat match goal with |- _ ∧ _ => split end; try reflexivity.
  exact Hresp.
Qed.

(** [create_order] returns when the user has a cart with lines and a
    non-zero item count, the order number drawn is not that of a stored
    order, the order id is that of no token and no payment, and the token
    drawn is not stored yet; the token of the response is the one drawn for
    the count of the day plus one, and the cart is left without lines. *)
Theorem create_order_succeeds env user_id user_data request auth_token w cart :
  Mongo.find_one (CartService.by_user user_id) (Store.shopping_carts (World.db w))
  = Some cart →
  Cart.item_count cart ≠ 0 →
  Mongo.find (CartService.in_cart (Cart.id cart)) (Store.cart_items (World.db w)) ≠ [] →
  ¬ In (generate_order_number env)
      (List.map Order.order_number (Store.orders (World.db w))) →
  ¬ In (Env.uuid4 env [0%nat])
      (List.map OrderToken.order_id (Store.order_tokens (World.db w))) →
  ¬ In (fst (generate_order_token env (issued_today (Env.utcnow env) w + 1)))
      (List.map OrderToken.token (Store.order_tokens (World.db w))) →
  ¬ In (Env.uuid4 env [0%nat])
      (List.map Payment.order_id (Store.payments (World.db w))) →
  ∃ response w' token,
    OrderService.create_order env user_id user_data request auth_token w
    = (Ok response, w')
    ∧ OrderResponse.token response = Some token
    ∧ OrderToken.token token
      = fst (generate_order_token env (issued_today (Env.utcnow env) w + 1))
    ∧ Mongo.find (CartService.in_cart (Cart.id cart)) (Store.cart_items (World.db w'))
      = []
    ∧ length (Store.orders (World.db w')) = S (length (Store.orders (World.db w))).
Proof.
  intros Hcart Hcount Hlines Hnumber Htid Htok Hpay.
  destruct (create_order_begin_runs env user_id user_data request w cart
              Hcart Hcount Hlines Hnumber)
    as (w1 & order & Hbegin & (Oid & Ouser & _) & Eo & _ & _ & Et & Ep & _).
  destruct (create_order_finish_runs env user_id user_data request auth_token cart
              (Env.uuid4 env [0%nat]) (issued_today (Env.utcnow env) w + 1) w1 order)
    as (response & w' & Hfinish); auto.
  { rewrite Eo. apply in_or_app. right. now left. }
  { now rewrite Et. } { now rewrite Et. } { now rewrite Ep. }
  assert (Hrun : OrderService.create_order env user_id user_data request auth_token w
                 = (Ok response, w')).
  { rewrite create_order_phases. now rewrite (bind_run _ _ _ _ _ Hbegin). }
  destruct (create_order_effect _ _ _ _ _ _ _ _ Hrun)
    as (cart0 & order0 & _ & payment & entry & Hcart0 & _ & _ & _ & Eorders
        & _ & _ & _ & _ & _ & _ & _ & _ & Eitems & _ & _).
  rewrite Hcart in Hcart0. injection Hcart0 as <-.
  destruct (create_order_finish_token _ _ _ _ _ _ _ _ _ _ _ Hfinish)
    as (token & Etokens & Tid & Tstr & _ & Hresp).
  exists response, w', token.
  repeat match goal with |- _ ∧ _ => split end.
  - exact Hrun.
  - rewrite Hresp. cbn. rewrite Etokens.
    apply find_one_app_one; [|now apply String.eqb_eq].
    destruct (Mongo.find_one _ (Store.order_tokens (World.db w1))) as [t|] eqn:Ef;
      [|reflexivity].
    destruct Htid. rewrite <- Et. apply (find_one_by_key OrderToken.order_id). eauto.
  - exact Tstr.
  - rewrite Eitems. apply find_after_delete_many.
  - rewrite Eorders, length_app. cbn. lia.
Qed.

Lemma create_order_succeeds_witness :
  ∃ response w' token,
    OrderService.create_order (Sample.env 2000 "o1" 0) "alice" Sample.alice
      Sample.pay_cash (Some "jwt") Sample.w_cart = (Ok response, w')
    ∧ OrderResponse.token response = Some token
    ∧ OrderToken.token token = "A001".
Proof.
  edestruct (create_order_succeeds (Sample.env 2000 "o1" 0) "alice" Sample.alice
               Sample.pay_cash (Some "jwt") Sample.w_cart)
    as (response & w' & token & Hrun & Htoken & Hstr & _).
  - vm_compute. reflexivity.
  - vm_compute. discriminate.
  - vm_compute. discriminate.
  - vm_compute. tauto.
  - vm_compute. tauto.
  - vm_compute. tauto.
  - vm_compute. tauto.
  - exists response, w', token. split; [exact Hrun|]. split; [exact Htoken|].
    rewrite Hstr. vm_compute. reflexivity.
Defined.


(** An order can be placed once per cart: after a [create_order] that
    returned, another [create_order] of the same user raises
    ValueError("Cart is empty"), answered with status 400 by the route, and
    changes nothing, until lines are added again. *)
Theorem create_order_not_twice env user request auth_token w response w'
    env2 request2 auth_token2 authorization2 :
  unique_cart_ids w →
  OrderService.create_order env (User.id user) user request auth_token w
  = (Ok response, w') →
  OrderService.create_order env2 (User.id user) user request2 auth_token2 w'
  = (Raise (ValueError "Cart is empty"), w')
  ∧ Routes.create_order env2 request2 authorization2 user w'
    = (Routes.HTTPException 400 "Cart is empty", w').
Proof.
  intros ND Hrun.
  destruct (create_order_effect _ _ _ _ _ _ _ _ Hrun)
    as (cart & order & token & payment & entry & Hcart & _ & _ & _ & _
        & _ & _ & _ & _ & _ & _ & _ & _ & _ & Ecarts & _).
  assert (Hcart' : Mongo.find_one (CartService.by_user (User.id user))
                     (Store.shopping_carts (World.db w'))
                   = Some (Cart.set_totals 0%float 0%float 0%float 0 (Env.utcnow env)
                             cart)).
  { rewrite Ecarts. unfold CartService.by_id.
    apply (find_one_update_keyed Cart.id); [exact ND | exact Hcart | reflexivity]. }
  assert (Hraise : ∀ auth,
            OrderService.create_order env2 (User.id user) user request2 auth w'
            = (Raise (ValueError "Cart is empty"), w')).
  { intros auth. rewrite create_order_phases.
    unfold OrderService.create_order_begin. unfold bind at 1.
    unfold bind at 1, query at 1. now rewrite Hcart'. }
  split; [apply Hraise|].
  unfold Routes.create_order. cbv zeta. now rewrite Hraise.
Qed.

Lemma create_order_not_twice_witness :
  Routes.create_order (Sample.env 2050 "o2" 1) Sample.pay_cash (Some "Bearer jwt")
    Sample.alice Sample.w_order
  = (Routes.HTTPException 400 "Cart is empty", Sample.w_order).
Proof.
  eapply (create_order_not_twice (Sample.env 2000 "o1" 0) Sample.alice Sample.pay_cash
            (Some "jwt") Sample.w_cart _ Sample.w_order _ _ None).
  - vm_compute. repeat constructor. tauto.
  - vm_compute. reflexivity.
Defined.

(** The unique index on the token text spans all days while the count
    restarts every day: when the text drawn is already stored,
    [create_order] raises DuplicateKeyError, which the route answers with
    status 500. The order and its lines are written by then, without token,
    payment or timeline entry, and the cart keeps its lines. *)
Theorem create_order_token_taken env user request auth_token authorization w cart :
  Mongo.find_one (CartService.by_user (User.id user))
    (Store.shopping_carts (World.db w)) = Some cart →
  Cart.item_count cart ≠ 0 →
  Mongo.find (CartService.in_cart (Cart.id cart)) (Store.cart_items (World.db w)) ≠ [] →
  ¬ In (generate_order_number env)
      (List.map Order.order_number (Store.orders (World.db w))) →
  In (fst (generate_order_token env (issued_today (Env.utcnow env) w + 1)))
     (List.map OrderToken.token (Store.order_tokens (World.db w))) →
  ∃ w' order,
    OrderService.create_order env (User.id user) user request auth_token w
    = (Raise DuplicateKeyError, w')
    ∧ Routes.create_order env request authorization user w
      = (Routes.HTTPException 500 "Failed to create order", w')
    ∧ Store.orders (World.db w') = (Store.orders (World.db w) ++ [order])%list
    ∧ Order.id order = Env.uuid4 env [0%nat]
    ∧ Order.status order = OrderStatus.PENDING
    ∧ Store.order_tokens (World.db w') = Store.order_tokens (World.db w)
    ∧ Store.payments (World.db w') = Store.payments (World.db w)
    ∧ Store.order_timeline (World.db w') = Store.order_timeline (World.db w)
    ∧ Store.shopping_carts (World.db w') = Store.shopping_carts (World.db w)
    ∧ Store.cart_items (World.db w') = Store.cart_items (World.db w).
Proof.
  intros Hcart Hcount Hlines Hnumber Htaken.
  destruct (create_order_begin_runs env (User.id user) user request w cart
              Hcart Hcount Hlines Hnumber)
    as (w1 & order & Hbegin & (Oid & _ & Ost & _) & Eo & Ec & Ei & Et & Ep & El & _).
  assert (Hraise : ∀ auth,
            OrderService.create_order env (User.id user) user request auth w
            = (Raise DuplicateKeyError, w1)).
  { intros auth. rewrite create_order_phases, (bind_run _ _ _ _ _ Hbegin).
    unfold OrderService.create_order_finish.
    destruct (generate_order_token env _) as [token token_prefix] eqn:Eg.
    cbn [fst] in Htaken.
    unfold bind at 1, insert at 1, Mongo.insert_one.
    rewrite (duplicate_key_present _ _ _ OrderToken.token);
      [reflexivity | right; now left | now rewrite Et]. }
  exists w1, order.
  repeat match goal with |- _ ∧ _ => split end; auto.
  unfold Routes.create_order. cbv zeta. now rewrite Hraise.
Qed.

Lemma create_order_token_taken_witness :
  ∃ w',
    Routes.create_order (Sample.env 90100 "o2" 0) Sample.pay_cash (Some "Bearer jwt")
      Sample.alice Sample.w_next_day
    = (Routes.HTTPException 500 "Failed to create order", w')
    ∧ List.map Order.id (Store.orders (World.db w')) = ["o1-0"; "o2-0"]
    ∧ List.map OrderToken.order_id (Store.order_tokens (World.db w')) = ["o1-0"].
Proof.
  edestruct (create_order_token_taken (Sample.env 90100 "o2" 0) Sample.alice
               Sample.pay_cash None (Some "Bearer jwt") Sample.w_next_day)
    as (w' & order & _ & Hroute & Eo & Oid & _ & Et & _).
  - vm_compute. reflexivity.
  - vm_compute. discriminate.
  - vm_compute. discriminate.
  - vm_compute. intuition discriminate.
  - vm_compute. tauto.
  - exists w'. split; [exact Hroute|]. split.
    + rewrite Eo, List.map_app. cbn [List.map]. rewrite Oid. reflexivity.
    + rewrite Et. reflexivity.
Defined.

(** ** Orders: status updates *)

(** A status update by the staff, in full: the world it leaves and the
    order it has written. *)
Lemma update_order_status_run env order_id request updated_by updated_by_name w order :
  Mongo.find_one (OrderService.by_id order_id) (Store.orders (World.db w)) = Some order →
  ∃ response w' order',
    OrderService.update_order_status env order_id request updated_by updated_by_name
      true w = (Ok response, w')
    ∧ Mongo.find_one (OrderService.by_id order_id) (Store.orders (World.db w'))
      = Some order'
    ∧ OrderResponse.order response = order'
    ∧ order'
      = Order.set_status (UpdateOrderStatusRequest.status request) (Env.utcnow env)
          (match UpdateOrderStatusRequest.status request,
                 UpdateOrderStatusRequest.estimated_preparation_time request with
           | OrderStatus.PREPARING, Some minutes =>
               if minutes =? 0 then None
               else Some (minutes, calculate_estimated_ready_time env minutes)
           | _, _ => None
           end)
          (match UpdateOrderStatusRequest.status request with
           | OrderStatus.READY =>
               Some (Env.utcnow env,
                     match Order.estimated_ready_time order with
                     | Some _ =>
                         Some (Py.whole_minutes (Env.utcnow env - Order.updated_at order))
                     | None => None
                     end)
           | _ => None
           end)
          (match UpdateOrderStatusRequest.status request with
           | OrderStatus.COMPLETED => Some (Env.utcnow env)
           | _ => None
           end)
          order
    ∧ World.queue w'
      = match Mongo.find_one (OrderService.token_of order_id)
                (Store.order_tokens (World.db w)) with
        | Some token =>
            (World.queue w
             ++ [QueuePost.mk order_id (Order.order_number order)
                   (OrderStatus.value (UpdateOrderStatusRequest.status request)) "" 0
                   "NORMAL" (OrderToken.token token)])%list
        | None => World.queue w
        end.
Proof.
  intros Hfind.
  unfold OrderService.update_order_status.
  rewrite (bind_run _ _ w (Some order) w) by (unfold query; now rewrite Hfind).
  cbn [negb andb].
  unfold OrderService._add_timeline_entry.
  unfold bind at 1, write at 1.
  rewrite (bind_run _ _ _ _ _ (insert_no_index _ _ _ _)).
  unfold bind at 1, cache_delete_order at 1.
  set (upd := Order.set_status _ _ _ _ _).
  assert (Hupd : Mongo.find_one (OrderService.by_id order_id)
                   (Mongo.update_one (OrderService.by_id order_id) upd
                      (Store.orders (World.db w))) = Some (upd order)).
  { apply find_one_update_one; [exact Hfind|].
    now destruct (find_one_some _ _ _ Hfind). }
  unfold bind at 1, query at 1. cbv beta.
  cbn [World.db World.on_db World.on_redis Store.order_tokens Store.on_orders
       Store.on_order_timeline].
  destruct (Mongo.find_one (OrderService.token_of order_id)
              (Store.order_tokens (World.db w))) as [token_data|];
    unfold bind at 1; [unfold notify_queue_service at 1 | unfold ret at 1];
    (eexists _, _, (upd order); split; [|split; [|split; [|split]]];
     [ apply get_order_miss_found;
       [ unfold cached_order; cbn; now rewrite lookup_delete_eq | exact Hupd ]
     | exact Hupd
     | reflexivity
     | reflexivity
     | reflexivity ]).
Qed.

(** What a status update by the staff records besides the status: the
    instant of the update; on READY that instant as the actual ready time
    and, when the order has an estimate, the whole minutes since the order
    was last updated as the actual preparation time; on COMPLETED the
    instant of completion; on PREPARING with a non-zero estimate the
    estimate and the ready time it gives. The amounts, the owner, the number
    and the creation time of the order are kept. *)
Theorem update_order_status_times env order_id request updated_by updated_by_name
    w order :
  Mongo.find_one (OrderService.by_id order_id) (Store.orders (World.db w)) = Some order →
  ∃ response w' order',
    OrderService.update_order_status env order_id request updated_by updated_by_name
      true w = (Ok response, w')
    ∧ Mongo.find_one (OrderService.by_id order_id) (Store.orders (World.db w'))
      = Some order'
    ∧ OrderResponse.order response = order'
    ∧ Order.updated_at order' = Env.utcnow env
    ∧ (UpdateOrderStatusRequest.status request = OrderStatus.READY →
       Order.actual_ready_time order' = Some (Env.utcnow env)
       ∧ (Order.estimated_ready_time order ≠ None →
          Order.actual_preparation_time order'
          = Some (Py.whole_minutes (Env.utcnow env - Order.updated_at order)))
       ∧ (Order.estimated_ready_time order = None →
          Order.actual_preparation_time order' = Order.actual_preparation_time order))
    ∧ (UpdateOrderStatusRequest.status request = OrderStatus.COMPLETED →
       Order.completed_at order' = Some (Env.utcnow env))
    ∧ (UpdateOrderStatusRequest.status request = OrderStatus.PREPARING →
       ∀ minutes,
         UpdateOrderStatusRequest.estimated_preparation_time request = Some minutes →
         minutes ≠ 0 →
         Order.estimated_preparation_time order' = minutes
         ∧ Order.estimated_ready_time order'
           = Some (Env.utcnow env + 60 * minutes))
    ∧ (UpdateOrderStatusRequest.status request ≠ OrderStatus.PREPARING
       ∨ UpdateOrderStatusRequest.estimated_preparation_time request = None
       ∨ UpdateOrderStatusRequest.estimated_preparation_time request = Some 0 →
       Order.estimated_preparation_time order' = Order.estimated_preparation_time order
       ∧ Order.estimated_ready_time order' = Order.estimated_ready_time order)
    ∧ (Order.subtotal order', Order.tax order', Order.total order')
      = (Order.subtotal order, Order.tax order, Order.total order)
    ∧ (Order.id order', Order.user_id order', Order.order_number order',
       Order.created_at order')
      = (Order.id order, Order.user_id order, Order.order_number order,
         Order.created_at order).
Proof.
  intros Hfind.
  destruct (update_order_status_run env order_id request updated_by updated_by_name
              w order Hfind) as (response & w' & order' & Hrun & Hf & Hr & Ho & _).
  exists response, w', order'.
  repeat match goal with |- _ ∧ _ => split end; try assumption; rewrite Ho.
  - reflexivity.
  - intros ->. cbn. split; [reflexivity|].
    destruct (Order.estimated_ready_time order); split; try reflexivity;
      [discriminate | now intros []].
  - now intros ->.
  - intros -> minutes -> Hm. cbn. now destruct (Z.eqb_spec minutes 0).
  - intros [Hs|[->| ->]]; [|now destruct (UpdateOrderStatusRequest.status request)..].
    destruct (UpdateOrderStatusRequest.status request); try (split; reflexivity).
    now destruct Hs.
  - reflexivity.
  - reflexivity.
Qed.

Lemma update_order_status_times_witness :
  ∃ response w',
    OrderService.update_order_status (Sample.env 2600 "s1" 0) "o1-0"
      (Sample.status_request OrderStatus.READY) "carol" "Carol" true Sample.w_order
    = (Ok response, w')
    ∧ Order.actual_ready_time (OrderResponse.order response) = Some 2600
    ∧ Order.actual_preparation_time (OrderResponse.order response) = Some 10.
Proof.
  edestruct (update_order_status_times (Sample.env 2600 "s1" 0) "o1-0"
               (Sample.status_request OrderStatus.READY) "carol" "Carol" Sample.w_order)
    as (response & w' & order' & Hrun & _ & Hr & _ & Hready & _).
  - vm_compute. reflexivity.
  - destruct (Hready eq_refl) as (H1 & H2 & _).
    exists response, w'. rewrite Hr. split; [exact Hrun|]. split; [exact H1|].
    rewrite H2 by discriminate. reflexivity.
Defined.

Lemma cancel_order_queue env order_id user_id request w :
  World.queue (after (OrderService.cancel_order env order_id user_id request) w)
  = World.queue w.
Proof.
  revert w. unfold OrderService.cancel_order.
  apply (after_bind_keeps World.queue); [reflexivity|].
  intros [order|]; [|reflexivity].
  destruct (OrderService.terminal _); [reflexivity|].
  apply (after_bind_keeps World.queue); [reflexivity|]. intros _.
  apply (after_bind_keeps World.queue); [reflexivity|]. intros _.
  apply (after_bind_keeps World.queue).
  { intros w. unfold after, OrderService._add_timeline_entry.
    now rewrite insert_no_index. }
  intros _.
  apply (after_bind_keeps World.queue); [reflexivity|]. intros _.
  intros w. unfold after.
  destruct (OrderService.get_order env order_id (Some user_id) w) as [[r|e] w'] eqn:H.
  - unfold OrderService.get_order in H. revert H.
    unfold bind at 1, cache_get_order at 1.
    destruct (live _ _); unfold bind, query, ret, raise, cache_set_order.
    + now intros [= _ <-].
    + destruct (Mongo.find_one _ _); [now intros [= _ <-] | discriminate].
  - unfold OrderService.get_order in H. revert H.
    unfold bind at 1, cache_get_order at 1.
    destruct (live _ _); unfold bind, query, ret, raise, cache_set_order.
    + discriminate.
    + destruct (Mongo.find_one _ _); [discriminate | now intros [= _ <-]].
Qed.

(** What the queue service hears of a change of status. A status update
    by the staff posts one notification when the order has a token, with the
    order number in the place of the user id, the status in the place of the
    user name and the token text in the place of the bearer token, and none
    when it has no token. A cancellation by the owner posts nothing, whether
    it succeeds or not. *)
Theorem status_change_notifications env order_id request updated_by updated_by_name
    w order :
  Mongo.find_one (OrderService.by_id order_id) (Store.orders (World.db w)) = Some order →
  World.queue
    (after (OrderService.update_order_status env order_id request updated_by
              updated_by_name true) w)
  = match Mongo.find_one (OrderService.token_of order_id)
            (Store.order_tokens (World.db w)) with
    | Some token =>
        (World.queue w
         ++ [QueuePost.mk order_id (Order.order_number order)
               (OrderStatus.value (UpdateOrderStatusRequest.status request)) "" 0
               "NORMAL" (OrderToken.token token)])%list
    | None => World.queue w
    end
  ∧ ∀ user_id cancel,
      World.queue (after (OrderService.cancel_order env order_id user_id cancel) w)
      = World.queue w.
Proof.
  intros Hfind. split; [|intros; apply cancel_order_queue].
  destruct (update_order_status_run env order_id request updated_by updated_by_name
              w order Hfind) as (response & w' & order' & Hrun & _ & _ & _ & Hq).
  unfold after. now rewrite Hrun.
Qed.

Lemma status_change_notifications_witness :
  World.queue
    (after (OrderService.update_order_status (Sample.env 2600 "s1" 0) "o1-0"
              (Sample.status_request OrderStatus.READY) "carol" "Carol" true)
       Sample.w_order)
  = [QueuePost.mk "o1-0" "alice" "Alice" "555" 2 "NORMAL" "jwt";
     QueuePost.mk "o1-0" "ORD202403011200000007" "READY" "" 0 "NORMAL" "A001"]
  ∧ World.queue
      (after (OrderService.cancel_order (Sample.env 2600 "s1" 0) "o1-0" "alice"
                (CancelOrderRequest.mk "late")) Sample.w_order)
    = [QueuePost.mk "o1-0" "alice" "Alice" "555" 2 "NORMAL" "jwt"].
Proof.
  edestruct (status_change_notifications (Sample.env 2600 "s1" 0) "o1-0"
               (Sample.status_request OrderStatus.READY) "carol" "Carol" Sample.w_order)
    as [Hu Hc].
  - vm_compute. reflexivity.
  - split.
    + rewrite Hu. vm_compute. reflexivity.
    + rewrite (Hc "alice" (CancelOrderRequest.mk "late")). vm_compute. reflexivity.
Defined.

(** ** Listings and their pages *)

Section CursorFacts.
Context {A : Type}.
Implicit Types (c : list A) (key : A → Z).

Lemma insert_desc_perm key d c : Mongo.insert_desc key d c ≡ₚ d :: c.
Proof.
  induction c as [|d' r IH]; cbn; [reflexivity|].
  destruct (_ <? _); [reflexivity|]. rewrite IH. apply Permutation_swap.
Qed.

Lemma sort_desc_from key c sorted :
  fold_left (λ sorted d, Mongo.insert_desc key d sorted) c sorted ≡ₚ (sorted ++ c)%list.
Proof.
  revert sorted. induction c as [|d r IH]; intros sorted; cbn.
  - now rewrite app_nil_r.
  - rewrite IH, insert_desc_perm. cbn.
    first [apply Permutation_middle | symmetry; apply Permutation_middle].
Qed.

Lemma sort_desc_perm key c : Mongo.sort_desc key c ≡ₚ c.
Proof. unfold Mongo.sort_desc. now rewrite sort_desc_from. Qed.

Lemma sort_desc_length key c : length (Mongo.sort_desc key c) = length c.
Proof. now rewrite sort_desc_perm. Qed.

Lemma sort_desc_In key c x : In x (Mongo.sort_desc key c) ↔ In x c.
Proof.
  split; intros H.
  - eapply Permutation_in; [apply sort_desc_perm | exact H].
  - eapply Permutation_in; [symmetry; apply sort_desc_perm | exact H].
Qed.

(** The page [page] of [c], as the listings cut it. *)
Lemma page_is_slice (page page_size : Z) c :
  1 ≤ page → 1 ≤ page_size →
  Mongo.limit page_size (Mongo.skip ((page - 1) * page_size) c)
  = List.firstn (Z.to_nat page_size)
      (List.skipn (Z.to_nat (page - 1) * Z.to_nat page_size) c).
Proof.
  intros Hp Hs. unfold Mongo.limit, Mongo.skip.
  destruct (Z.eqb_spec page_size 0) as [|_]; [lia|].
  rewrite Z.abs_eq by lia. now rewrite Z2Nat.inj_mul by lia.
Qed.

Lemma slices_concat (n size : nat) c :
  List.concat
    (List.map (λ k, List.firstn size (List.skipn (k * size) c)) (List.seq 0 n))
  = List.firstn (n * size) c.
Proof.
  induction n as [|n IH]; [reflexivity|].
  rewrite List.seq_S, List.map_app, List.concat_app, IH. cbn [List.map List.concat].
  rewrite app_nil_r. cbn [Nat.add].
  replace (S n * size)%nat with (n * size + size)%nat by lia.
  apply take_take_drop.
Qed.

Lemma skipn_In (n : nat) c x : In x (List.skipn n c) → In x c.
Proof.
  revert c. induction n as [|n IH]; intros [|d r]; cbn; auto.
Qed.

Lemma firstn_In (n : nat) c x : In x (List.firstn n c) → In x c.
Proof.
  revert c. induction n as [|n IH]; intros [|d r]; cbn; try tauto.
  intros [->|H]; auto.
Qed.

Lemma page_slice_In (page page_size : Z) c x :
  In x (Mongo.limit page_size (Mongo.skip ((page - 1) * page_size) c)) → In x c.
Proof.
  unfold Mongo.limit, Mongo.skip. intros H.
  destruct (page_size =? 0).
  - now apply skipn_In in H.
  - apply firstn_In in H. now apply skipn_In in H.
Qed.

End CursorFacts.

(** The number of pages is the least that holds [total] items. *)
Lemma pages_of_bounds total page_size :
  0 ≤ total → 1 ≤ page_size →
  0 ≤ pages_of total page_size
  ∧ total ≤ pages_of total page_size * page_size
  ∧ pages_of total page_size * page_size < total + page_size.
Proof.
  intros Ht Hs. unfold pages_of.
  pose proof (Z.div_mod (total + page_size - 1) page_size ltac:(lia)) as E.
  pose proof (Z.mod_pos_bound (total + page_size - 1) page_size ltac:(lia)) as B.
  pose proof (Z.div_pos (total + page_size - 1) page_size ltac:(lia) ltac:(lia)).
  nia.
Qed.

(** A page of [get_all_payments] for an admin. *)
Lemma get_all_payments_page status_filter method_filter page page_size user w :
  existsb (String.eqb "admin") (User.roles user) = true →
  1 ≤ page → 1 ≤ page_size →
  Admin.get_all_payments status_filter method_filter page page_size user w
  = (let q := Admin.payment_query status_filter method_filter in
     let total := Mongo.count_documents q (Store.payments (World.db w)) in
     Routes.Returns
       (Routes.PaginatedResponse.mk
          (List.map
             (λ payment,
                (payment,
                 Order.order_number
                   <$> Mongo.find_one (OrderService.by_id (Payment.order_id payment))
                         (Store.orders (World.db w))))
             (List.firstn (Z.to_nat page_size)
                (List.skipn (Z.to_nat (page - 1) * Z.to_nat page_size)
                   (Mongo.sort_desc Payment.initiated_at
                      (Mongo.find q (Store.payments (World.db w)))))))
          total page page_size (pages_of total page_size)
          (page <? pages_of total page_size) (1 <? page)),
     w).
Proof.
  intros Hadmin Hp Hs. unfold Admin.get_all_payments. rewrite Hadmin. cbn [negb].
  cbv zeta.
  destruct (Z.ltb_spec ((page - 1) * page_size) 0) as [|_]; [nia|].
  unfold Routes.paginated.
  destruct (Z.eqb_spec page_size 0) as [|_]; [lia|].
  now rewrite page_is_slice by lia.
Qed.

(** The pages of [get_all_payments]: for an admin and a page size of at
    least 1, every page from 1 on is answered with the same total and the
    same number of pages, the least number of pages that holds the total;
    [has_next] holds exactly on the pages before the last, [has_prev] on
    those after the first; and pages 1 to the last, one after the other, are
    the payments that match the filters, each once, latest first, with the
    number of their order. *)
Theorem payments_pages status_filter method_filter page_size user w :
  existsb (String.eqb "admin") (User.roles user) = true →
  1 ≤ page_size →
  let q := Admin.payment_query status_filter method_filter in
  let total := Mongo.count_documents q (Store.payments (World.db w)) in
  let total_pages := pages_of total page_size in
  (total ≤ total_pages * page_size < total + page_size)
  ∧ (∀ page, 1 ≤ page →
       ∃ items,
         Admin.get_all_payments status_filter method_filter page page_size user w
         = (Routes.Returns
              (Routes.PaginatedResponse.mk items total page page_size total_pages
                 (page <? total_pages) (1 <? page)), w)
         ∧ Z.of_nat (length items) = Z.max 0 (Z.min page_size (total - (page - 1) * page_size)))
  ∧ List.concat
      (List.map
         (λ page, listed (Admin.get_all_payments status_filter method_filter
                            (Z.of_nat page) page_size user w))
         (List.seq 1 (Z.to_nat total_pages)))
    = List.map
        (λ payment,
           (payment,
            Order.order_number
              <$> Mongo.find_one (OrderService.by_id (Payment.order_id payment))
                    (Store.orders (World.db w))))
        (Mongo.sort_desc Payment.initiated_at
           (Mongo.find q (Store.payments (World.db w)))).
Proof.
  intros Hadmin Hs q total total_pages.
  assert (Ht : total = Z.of_nat (length (Mongo.sort_desc Payment.initiated_at
                                           (Mongo.find q (Store.payments (World.db w))))))
    by (now rewrite sort_desc_length).
  destruct (pages_of_bounds total page_size) as (B0 & B1 & B2); [lia | exact Hs|].
  fold total_pages in B0, B1, B2.
  split; [lia|]. split.
  - intros page Hp. eexists. split.
    + now apply get_all_payments_page.
    + rewrite length_map, length_firstn, length_skipn, <- Z2Nat.inj_mul by lia.
      fold q. assert (0 ≤ (page - 1) * page_size) by nia.
      generalize dependent ((page - 1) * page_size). intros skip Hskip.
      clearbody total. lia.
  - rewrite <- (List.seq_shift (Z.to_nat total_pages) 0), List.map_map.
    erewrite List.map_ext.
    2:{ intros k. rewrite get_all_payments_page by (auto; lia).
        unfold listed. cbn. replace (Z.to_nat (Z.of_nat (S k) - 1)) with k by lia.
        reflexivity. }
    rewrite <- (List.map_map (λ k, List.firstn (Z.to_nat page_size)
                                    (List.skipn (k * Z.to_nat page_size) _))
                  (List.map _)).
    rewrite <- List.concat_map, slices_concat. fold q.
    rewrite List.firstn_all2; [reflexivity|]. nia.
Qed.

Lemma payments_pages_witness :
  List.map (λ p, Payment.order_id (fst p))
    (List.concat
       (List.map
          (λ page, listed (Admin.get_all_payments None None (Z.of_nat page) 2
                             Sample.admin Sample.w_three_orders))
          (List.seq 1 2)))
  = ["o4-0"; "o3-0"; "o1-0"]
  ∧ List.map (λ page, length (listed (Admin.get_all_payments None None (Z.of_nat page) 2
                                        Sample.admin Sample.w_three_orders)))
      (List.seq 1 2)
    = [2%nat; 1%nat].
Proof.
  split; [|vm_compute; reflexivity].
  destruct (payments_pages None None 2 Sample.admin Sample.w_three_orders)
    as (_ & _ & H); [reflexivity | lia|].
  change (Z.to_nat (pages_of _ 2)) with 2%nat in H.
  rewrite H. vm_compute. reflexivity.
Defined.

(** ** The orders of a user *)

(** [get_order] by the owner when the cache is coherent: the stored order
    is returned, whether it is read from the cache or from the store, and the
    cache stays coherent. *)
Lemma get_order_coherent env order_id user_id w order :
  unique_order_ids w → order_cache_coherent w →
  In order (Store.orders (World.db w)) →
  Order.id order = order_id → Order.user_id order = user_id →
  ∃ w',
    OrderService.get_order env order_id (Some user_id) w
    = (Ok (hydrate (World.db w) order_id order), w')
    ∧ World.db w' = World.db w
    ∧ order_cache_coherent w'.
Proof.
  intros ND Hco Hin Hid Hu.
  pose proof (by_id_finds order_id _ order ND Hin Hid) as Hby.
  destruct (cached_order env w order_id) as [cached|] eqn:Hc.
  - exists w. rewrite (get_order_hit _ _ _ _ _ Hc).
    unfold cached_order, live in Hc.
    destruct (Redis.order (World.redis w) !! order_id) as [[expires o]|] eqn:Hl;
      [|discriminate].
    destruct (_ <? _); [|discriminate]. injection Hc as ->.
    rewrite (Hco _ _ _ Hl) in Hby. injection Hby as ->. auto.
  - assert (Hq : Mongo.find_one (order_query order_id (Some user_id))
                   (Store.orders (World.db w)) = Some order).
    { apply order_query_finds; auto. apply order_query_owner; [exact Hid|].
      now intros u [= <-]. }
    eexists. rewrite (get_order_miss_found _ _ _ _ _ Hc Hq).
    split; [reflexivity|]. split; [reflexivity|].
    intros oid expires o. unfold after, cache_set_order. cbn.
    destruct (decide (oid = order_id)) as [->|Hne].
    + rewrite lookup_insert_eq. now intros [= _ <-].
    + rewrite lookup_insert_ne by congruence. apply Hco.
Qed.

Lemma map_m_get_order env user_id l : ∀ w,
  unique_order_ids w → order_cache_coherent w →
  (∀ o, In o l → In o (Store.orders (World.db w)) ∧ Order.user_id o = user_id) →
  ∃ w',
    map_m (λ order, OrderService.get_order env (Order.id order) (Some user_id)) l w
    = (Ok (List.map (λ o, hydrate (World.db w) (Order.id o) o) l), w')
    ∧ World.db w' = World.db w
    ∧ order_cache_coherent w'.
Proof.
  induction l as [|o r IH]; intros w ND Hco Hl; cbn [map_m List.map].
  - exists w. auto.
  - destruct (Hl o (or_introl eq_refl)) as [Hin Hu].
    destruct (get_order_coherent env (Order.id o) user_id w o ND Hco Hin eq_refl Hu)
      as (w1 & H1 & D1 & C1).
    destruct (IH w1) as (w2 & H2 & D2 & C2).
    { unfold unique_order_ids. now rewrite D1. }
    { exact C1. }
    { intros x Hx. rewrite D1. apply Hl. now right. }
    exists w2. rewrite (bind_run _ _ _ _ _ H1), (bind_run _ _ _ _ _ H2).
    rewrite D1. split; [reflexivity|]. split; [congruence | exact C2].
Qed.

(** A page of [GET /api/orders/my-orders], for a page number and a page
    size of at least 1, when order ids are unique and the cache is coherent:
    the route returns; the total counts the orders of the caller that match
    the status filter; the items are the slice of those orders, latest
    first, that the page number and size cut out, each as [get_order] gives
    it, and all of them belong to the caller; the number of pages is the
    least that holds the total; [has_next] tells whether orders remain after
    this page and [has_prev] whether the page is not the first. The store is
    not changed and the cache stays coherent. *)
Theorem get_my_orders_page env status_filter page page_size user w :
  unique_order_ids w → order_cache_coherent w →
  1 ≤ page → 1 ≤ page_size →
  let q := OrderService.of_user (User.id user) status_filter in
  let total := Mongo.count_documents q (Store.orders (World.db w)) in
  ∃ items w',
    Routes.get_my_orders env status_filter page page_size user w
    = (Routes.Returns
         (Routes.PaginatedResponse.mk items total page page_size
            (pages_of total page_size) (page <? pages_of total page_size) (1 <? page)),
       w')
    ∧ items
      = List.map (λ o, hydrate (World.db w) (Order.id o) o)
          (List.firstn (Z.to_nat page_size)
             (List.skipn (Z.to_nat (page - 1) * Z.to_nat page_size)
                (Mongo.sort_desc Order.created_at
                   (Mongo.find q (Store.orders (World.db w))))))
    ∧ List.Forall (λ r, Order.user_id (OrderResponse.order r) = User.id user) items
    ∧ total ≤ pages_of total page_size * page_size < total + page_size
    ∧ ((page <? pages_of total page_size) = true ↔ page * page_size < total)
    ∧ World.db w' = World.db w
    ∧ order_cache_coherent w'.
Proof.
  intros ND Hco Hp Hs q total.
  set (slice := List.firstn (Z.to_nat page_size)
                  (List.skipn (Z.to_nat (page - 1) * Z.to_nat page_size)
                     (Mongo.sort_desc Order.created_at
                        (Mongo.find q (Store.orders (World.db w)))))).
  assert (Hslice : ∀ o, In o slice →
            In o (Store.orders (World.db w)) ∧ Order.user_id o = User.id user).
  { intros o Ho. apply firstn_In, skipn_In, sort_desc_In in Ho.
    apply List.filter_In in Ho as [Hin Hq]. split; [exact Hin|].
    apply andb_true_iff in Hq as [Hu _]. now apply String.eqb_eq in Hu. }
  destruct (map_m_get_order env (User.id user) slice w ND Hco Hslice)
    as (w' & Hmap & Hdb & Hco').
  destruct (pages_of_bounds total page_size) as (B0 & B1 & B2);
    [unfold total, Mongo.count_documents; lia | exact Hs|].
  eexists _, w'.
  repeat match goal with |- _ ∧ _ => split end.
  - unfold Routes.get_my_orders, OrderService.get_my_orders. cbv zeta.
    unfold bind at 1, query at 1.
    destruct (Z.ltb_spec ((page - 1) * page_size) 0) as [|_]; [nia|].
    unfold bind at 1, query at 1. rewrite page_is_slice by lia.
    fold q. fold slice. unfold bind at 1. rewrite Hmap. unfold ret.
    unfold Routes.paginated.
    destruct (Z.eqb_spec page_size 0) as [|_]; [lia|]. reflexivity.
  - reflexivity.
  - apply List.Forall_forall. intros r Hr.
    apply List.in_map_iff in Hr as (o & <- & Ho). cbn. now apply Hslice.
  - lia.
  - lia.
  - rewrite Z.ltb_lt. split; nia.
  - exact Hdb.
  - exact Hco'.
Qed.

Lemma sample_three_orders_coherent :
  unique_order_ids Sample.w_three_orders ∧ order_cache_coherent Sample.w_three_orders.
Proof.
  split.
  - unfold unique_order_ids.
    match goal with |- List.NoDup ?l =>
      let l' := eval vm_compute in l in change (List.NoDup l')
    end.
    repeat (apply List.NoDup_cons; [cbn; intuition discriminate|]).
    apply List.NoDup_nil.
  - assert (H : map_Forall
                  (λ k v, Mongo.find_one (OrderService.by_id k)
                            (Store.orders (World.db Sample.w_three_orders))
                          = Some (snd v))
                  (Redis.order (World.redis Sample.w_three_orders))).
    { apply map_Forall_to_list. vm_compute. repeat constructor. }
    intros order_id expires order Hl.
    exact (map_Forall_lookup_1 _ _ _ _ H Hl).
Qed.

Lemma get_my_orders_page_witness :
  ∃ items w',
    Routes.get_my_orders (Sample.env 3400 "l1" 0) None 1 1 Sample.alice
      Sample.w_three_orders
    = (Routes.Returns (Routes.PaginatedResponse.mk items 2 1 1 2 true false), w')
    ∧ List.map (λ r, Order.id (OrderResponse.order r)) items = ["o4-0"].
Proof.
  destruct (get_my_orders_page (Sample.env 3400 "l1" 0) None 1 1 Sample.alice
              Sample.w_three_orders)
    as (items & w' & Hrun & Hitems & _);
    [apply sample_three_orders_coherent | apply sample_three_orders_coherent
    | lia | lia |].
  exists items, w'. split; [exact Hrun|]. rewrite Hitems. vm_compute. reflexivity.
Defined.

(** ** The order cache under the requests on orders *)

(** What the invariant reads of a world. *)
Lemma coherent_ext skip w w' :
  Store.orders (World.db w') = Store.orders (World.db w) →
  Redis.order (World.redis w') = Redis.order (World.redis w) →
  orders_coherent_except skip w → orders_coherent_except skip w'.
Proof.
  unfold orders_coherent_except, unique_order_ids. intros -> ->. tauto.
Qed.

Lemma coherent_weaken skip w : orders_coherent w → orders_coherent_except skip w.
Proof.
  intros [H1 H2]. split; [exact H1|]. intros k e o _. now apply H2.
Qed.

Lemma coherent_iff w :
  orders_coherent w ↔ unique_order_ids w ∧ order_cache_coherent w.
Proof.
  unfold orders_coherent, orders_coherent_except, order_cache_coherent.
  split; intros [H1 H2]; (split; [exact H1|]); intros k e o.
  - now apply H2.
  - intros _. apply H2.
Qed.

Lemma find_one_app_found {A} (q : A → bool) c d x :
  Mongo.find_one q c = Some x → Mongo.find_one q (c ++ d) = Some x.
Proof.
  induction c as [|y r IH]; cbn; [discriminate|].
  destruct (q y); [auto | exact IH].
Qed.

Lemma find_one_update_other (k order_id : string) f c :
  (∀ x, Order.id (f x) = Order.id x) → k ≠ order_id →
  Mongo.find_one (OrderService.by_id k)
    (Mongo.update_one (OrderService.by_id order_id) f c)
  = Mongo.find_one (OrderService.by_id k) c.
Proof.
  intros Hf Hne. unfold OrderService.by_id, Mongo.find_one.
  induction c as [|d r IH]; [reflexivity|].
  cbn [Mongo.update_one List.find].
  destruct (String.eqb_spec (Order.id d) order_id) as [E|E]; cbn [List.find].
  - rewrite Hf. destruct (String.eqb_spec (Order.id d) k) as [E'|E']; [congruence|].
    reflexivity.
  - destruct (String.eqb (Order.id d) k); [reflexivity | exact IH].
Qed.

(** The order of a given id is rewritten: the entry of that id apart, the
    cache stays coherent. *)
Lemma coherent_update order_id f w :
  (∀ x, Order.id (f x) = Order.id x) →
  orders_coherent w →
  orders_coherent_except (Some order_id)
    (World.on_db (Store.on_orders (Mongo.update_one (OrderService.by_id order_id) f)) w).
Proof.
  intros Hf [H1 H2]. split.
  - unfold unique_order_ids. cbn. now rewrite map_update_one.
  - cbn. intros k e o Hne Hl. rewrite find_one_update_other; [|exact Hf|congruence].
    now apply (H2 k e o).
Qed.

Lemma coherent_delete order_id w :
  orders_coherent_except (Some order_id) w →
  orders_coherent
    (World.on_redis
       (λ r, Redis.mk (Redis.cart r) (delete order_id (Redis.order r))) w).
Proof.
  intros [H1 H2]. split; [exact H1|]. cbn. intros k e o _ Hl.
  destruct (decide (k = order_id)) as [->|Hne].
  - now rewrite lookup_delete_eq in Hl.
  - rewrite lookup_delete_ne in Hl by congruence. apply (H2 k e o); congruence.
Qed.

Lemma coherent_insert order w :
  ¬ In (Order.id order) (List.map Order.id (Store.orders (World.db w))) →
  orders_coherent w →
  orders_coherent
    (World.on_db (Store.on_orders (λ _, (Store.orders (World.db w) ++ [order])%list)) w).
Proof.
  intros Hfresh [H1 H2]. split.
  - unfold unique_order_ids. cbn. now apply NoDup_map_app_one.
  - cbn. intros k e o _ Hl. apply find_one_app_found. now apply (H2 k e o).
Qed.

Section CoherenceTriples.
Variable env : Env.t.

(** A step that touches neither the orders nor the order cache. *)
Lemma triple_coherent_keeps {A} skip (m : M A) :
  (∀ w, Store.orders (World.db (after m w)) = Store.orders (World.db w)) →
  (∀ w, Redis.order (World.redis (after m w)) = Redis.order (World.redis w)) →
  triple (orders_coherent_except skip) m (λ _, orders_coherent_except skip)
    (orders_coherent_except skip).
Proof.
  intros Ho Hr w Hw. specialize (Ho w). specialize (Hr w). unfold after in *.
  destruct (m w) as [[a|e] w']; cbn in *; now apply (coherent_ext skip w).
Qed.

Lemma triple_get_order order_id user_id :
  triple orders_coherent (OrderService.get_order env order_id user_id)
    (λ _, orders_coherent) orders_coherent.
Proof.
  intros w Hw.
  destruct (cached_order env w order_id) as [cached|] eqn:Hc.
  - now rewrite (get_order_hit _ _ _ _ _ Hc).
  - destruct (Mongo.find_one (order_query order_id user_id) (Store.orders (World.db w)))
      as [order|] eqn:Hf.
    + rewrite (get_order_miss_found _ _ _ _ _ Hc Hf).
      destruct Hw as [H1 H2]. split; [exact H1|].
      unfold after, cache_set_order. cbn. intros k e o _.
      destruct (decide (k = order_id)) as [->|Hne].
      * rewrite lookup_insert_eq. intros [= _ <-].
        destruct (find_one_some _ _ _ Hf) as [Hin Hq].
        apply by_id_finds; [exact H1 | exact Hin|].
        revert Hq. unfold order_query, OrderService.by_id_and_user, OrderService.by_id.
        destruct user_id as [u|]; [destruct (Py.truthy _)|];
          rewrite ?andb_true_iff, !String.eqb_eq; tauto.
      * rewrite lookup_insert_ne by congruence. now apply H2.
    + now rewrite (get_order_miss_not_found _ _ _ _ Hc Hf).
Qed.

Lemma triple_update_order_status order_id request updated_by updated_by_name is_staff :
  triple orders_coherent
    (OrderService.update_order_status env order_id request updated_by updated_by_name
       is_staff)
    (λ _, orders_coherent) orders_coherent.
Proof.
  unfold OrderService.update_order_status. cbv zeta.
  apply (triple_bind _ _ (λ _, orders_coherent)); [now apply triple_query|].
  intros [order|]; [|now apply triple_raise].
  destruct (negb is_staff && _); [now apply triple_raise|].
  apply (triple_bind _ _ (λ _, orders_coherent_except (Some order_id))).
  { apply triple_write. intros w Hw. now apply coherent_update. }
  intros _.
  apply (triple_bind _ _ (λ _, orders_coherent_except (Some order_id))).
  { apply triple_insert_no_index. intros w Hw. now apply (coherent_ext _ w). }
  intros _.
  apply (triple_bind _ _ (λ _, orders_coherent)).
  { intros w Hw. now apply coherent_delete. }
  intros _.
  apply (triple_bind _ _ (λ _, orders_coherent)); [now apply triple_query|].
  intros token_data.
  apply (triple_bind _ _ (λ _, orders_coherent)); [|intros _; apply triple_get_order].
  destruct token_data; [|now apply triple_ret].
  intros w Hw. now apply (coherent_ext _ w).
Qed.

Lemma triple_cancel_order order_id user_id request :
  triple orders_coherent (OrderService.cancel_order env order_id user_id request)
    (λ _, orders_coherent) orders_coherent.
Proof.
  unfold OrderService.cancel_order.
  apply (triple_bind _ _ (λ _, orders_coherent)); [now apply triple_query|].
  intros [order|]; [|now apply triple_raise].
  destruct (OrderService.terminal _); [now apply triple_raise|].
  apply (triple_bind _ _ (λ _, orders_coherent_except (Some order_id))).
  { apply triple_write. intros w Hw. now apply coherent_update. }
  intros _.
  apply (triple_bind _ _ (λ _, orders_coherent_except (Some order_id))).
  { apply triple_write. intros w Hw. now apply (coherent_ext _ w). }
  intros _.
  apply (triple_bind _ _ (λ _, orders_coherent_except (Some order_id))).
  { apply triple_insert_no_index. intros w Hw. now apply (coherent_ext _ w). }
  intros _.
  apply (triple_bind _ _ (λ _, orders_coherent)); [|intros _; apply triple_get_order].
  intros w Hw. now apply coherent_delete.
Qed.

Lemma triple_submit_feedback order_id user_id request :
  triple orders_coherent (OrderService.submit_feedback env order_id user_id request)
    (λ _, orders_coherent) orders_coherent.
Proof.
  unfold OrderService.submit_feedback.
  apply (triple_bind _ _ (λ _, orders_coherent)); [now apply triple_query|].
  intros [order|]; [|now apply triple_raise].
  destruct (negb _); [now apply triple_raise|].
  apply (triple_bind _ _ (λ _, orders_coherent_except (Some order_id))).
  { apply triple_write. intros w Hw. now apply coherent_update. }
  intros _.
  apply (triple_bind _ _ (λ _, orders_coherent_except (Some order_id))).
  { destruct (OrderFeedbackRequest.item_feedback request) as [item_feedback|];
      [|now apply triple_ret].
    apply (triple_frame without_item_feedback).
    - intros w. apply for_each_frame. intros k fb w0. eexists.
      split; [apply insert_no_index|]. now destruct w0 as [[] ? ?].
    - intros w w' Hw Hframe. apply (coherent_ext _ w); [| |exact Hw].
      + change (Store.orders (World.db (without_item_feedback w'))
                = Store.orders (World.db (without_item_feedback w))).
        now rewrite Hframe.
      + change (Redis.order (World.redis (without_item_feedback w'))
                = Redis.order (World.redis (without_item_feedback w))).
        now rewrite Hframe. }
  intros _.
  apply (triple_bind _ _ (λ _, orders_coherent)); [|intros _; apply triple_get_order].
  intros w Hw. now apply coherent_delete.
Qed.

Lemma triple_map_get_order user_id l :
  triple orders_coherent
    (map_m (λ order, OrderService.get_order env (Order.id order) user_id) l)
    (λ _, orders_coherent) orders_coherent.
Proof.
  induction l as [|o r IH]; cbn [map_m]; [now apply triple_ret|].
  apply (triple_bind _ _ (λ _, orders_coherent)); [apply triple_get_order|].
  intros y. apply (triple_bind _ _ (λ _, orders_coherent)); [exact IH|].
  intros ys. now apply triple_ret.
Qed.

Lemma triple_get_my_orders user_id status page page_size :
  triple orders_coherent
    (OrderService.get_my_orders env user_id status page page_size)
    (λ _, orders_coherent) orders_coherent.
Proof.
  unfold OrderService.get_my_orders. cbv zeta.
  apply (triple_bind _ _ (λ _, orders_coherent)); [now apply triple_query|].
  intros total. destruct (_ <? 0); [now apply triple_raise|].
  apply (triple_bind _ _ (λ _, orders_coherent)); [now apply triple_query|].
  intros cursor.
  apply (triple_bind _ _ (λ _, orders_coherent)); [apply triple_map_get_order|].
  intros orders. now apply triple_ret.
Qed.

Lemma triple_create_order user_id user_data request auth_token :
  triple
    (λ w, orders_coherent w
          ∧ ¬ In (Env.uuid4 env [0%nat]) (List.map Order.id (Store.orders (World.db w))))
    (OrderService.create_order env user_id user_data request auth_token)
    (λ _, orders_coherent) orders_coherent.
Proof.
  rewrite create_order_phases.
  apply (triple_bind _ _ (λ _, orders_coherent)).
  - unfold OrderService.create_order_begin.
    apply (triple_bind _ _
             (λ _ w, orders_coherent w
                     ∧ ¬ In (Env.uuid4 env [0%nat])
                           (List.map Order.id (Store.orders (World.db w)))));
      [now apply triple_query|].
    intros [cart|]; [|apply triple_raise; tauto].
    destruct (_ =? 0); [apply triple_raise; tauto|].
    apply (triple_bind _ _
             (λ _ w, orders_coherent w
                     ∧ ¬ In (Env.uuid4 env [0%nat])
                           (List.map Order.id (Store.orders (World.db w)))));
      [now apply triple_query|].
    intros [|line lines]; [apply triple_raise; tauto|].
    apply (triple_bind _ _ (λ _, orders_coherent)).
    { intros w [Hw Hfresh]. unfold insert.
      destruct (Mongo.insert_one _ _ _) as [c'|] eqn:Ei; [|exact Hw].
      unfold Mongo.insert_one in Ei. destruct (Mongo.duplicate_key _ _ _); [discriminate|].
      injection Ei as <-. now apply coherent_insert. }
    intros _.
    apply (triple_bind _ _ (λ _, orders_coherent)).
    { apply (triple_frame without_order_lines); [apply order_lines_written|].
      intros w w' Hw Hframe.
      destruct (frame_order_lines _ _ Hframe) as (_ & _ & _ & Fo & _ & _ & _ & Fr & _).
      apply (coherent_ext _ w); [exact Fo | now rewrite Fr | exact Hw]. }
    intros _.
    apply (triple_bind _ _ (λ _, orders_coherent)); [|intros n; now apply triple_ret].
    unfold OrderService._get_next_token_number.
    apply (triple_bind _ _ (λ _, orders_coherent)); [now apply triple_query|].
    intros count. now apply triple_ret.
  - intros [[cart order_id] token_number].
    unfold OrderService.create_order_finish.
    destruct (generate_order_token env token_number) as [token token_prefix].
    apply (triple_bind _ _ (λ _, orders_coherent)).
    { apply triple_coherent_keeps; intros w; unfold after, insert;
        now destruct (Mongo.insert_one _ _ _). }
    intros _.
    apply (triple_bind _ _ (λ _, orders_coherent)).
    { apply triple_coherent_keeps; intros w; unfold after, insert;
        now destruct (Mongo.insert_one _ _ _). }
    intros _.
    apply (triple_bind _ _ (λ _, orders_coherent)).
    { apply triple_insert_no_index. intros w Hw. now apply (coherent_ext _ w). }
    intros _.
    apply (triple_bind _ _ (λ _, orders_coherent)).
    { apply triple_write. intros w Hw. now apply (coherent_ext _ w). }
    intros _.
    apply (triple_bind _ _ (λ _, orders_coherent)).
    { apply triple_write. intros w Hw. now apply (coherent_ext _ w). }
    intros _.
    apply (triple_bind _ _ (λ _, orders_coherent)).
    { intros w Hw. now apply (coherent_ext _ w). }
    intros _.
    apply (triple_bind _ _ (λ _, orders_coherent)); [now apply triple_ret|].
    intros _.
    apply (triple_bind _ _ (λ _, orders_coherent)); [|intros _; apply triple_get_order].
    destruct auth_token as [t|]; [destruct (Py.truthy _)|]; try (now apply triple_ret).
    intros w Hw. now apply (coherent_ext _ w).
Qed.

End CoherenceTriples.

(** *** The requests on carts leave orders and their cache alone *)

Lemma get_or_create_cart_order_side env user_id w :
  order_side (after (CartService.get_or_create_cart env user_id) w) = order_side w.
Proof.
  unfold after, CartService.get_or_create_cart, bind, query, insert.
  destruct (Mongo.find_one _ _); [reflexivity|].
  now destruct (Mongo.insert_one _ _ _).
Qed.

Lemma get_cart_order_side env user_id w :
  order_side (after (CartService.get_cart env user_id) w) = order_side w.
Proof.
  revert w. unfold CartService.get_cart.
  apply (after_bind_keeps order_side); [reflexivity|].
  intros [cached|]; [reflexivity|].
  apply (after_bind_keeps order_side); [apply get_or_create_cart_order_side|].
  intros cart. apply (after_bind_keeps order_side); [reflexivity|].
  intros items. apply (after_bind_keeps order_side); reflexivity.
Qed.

Lemma tail_order_side env user_id cart_id w :
  order_side (after (CartService.recalculate_cart env cart_id ;;
                     cache_delete_cart user_id ;;
                     CartService.get_cart env user_id) w)
  = order_side w.
Proof.
  revert w. apply (after_bind_keeps order_side); [reflexivity|].
  intros _. apply (after_bind_keeps order_side); [reflexivity|].
  intros _. apply get_cart_order_side.
Qed.

Lemma customizations_order_side (m : M unit) :
  (∀ w, ∃ w', m w = (Ok tt, w')
              ∧ without_cart_customizations w' = without_cart_customizations w) →
  ∀ w, order_side (after m w) = order_side w.
Proof.
  intros Hm w. destruct (Hm w) as (w' & Hrun & Hframe). unfold after. rewrite Hrun.
  change (order_side (without_cart_customizations w')
          = order_side (without_cart_customizations w)).
  now rewrite Hframe.
Qed.

Lemma run_cart_op_order_side env op w :
  order_side (after (run_cart_op env op) w) = order_side w.
Proof.
  revert w. destruct op as [user_id request|user_id cart_item_id request
                           |user_id cart_item_id]; cbn [run_cart_op].
  - unfold CartService.add_to_cart.
    apply (after_bind_keeps order_side); [apply get_or_create_cart_order_side|].
    intros cart. destruct (Env.fetch_menu_item_details env _); [|reflexivity].
    apply (after_bind_keeps order_side); [reflexivity|].
    intros existing. apply (after_bind_keeps order_side).
    { destruct existing as [line|].
      - destruct (_ <? _); [reflexivity|].
        apply (after_bind_keeps order_side); reflexivity.
      - apply (after_bind_keeps order_side); [|reflexivity].
        intros w. unfold after. now rewrite insert_no_index. }
    intros cart_item_id. apply (after_bind_keeps order_side).
    { apply customizations_order_side. intros w.
      destruct (AddToCartRequest.customizations request) as [[|c cs]|];
        [now exists w | apply replace_customizations_frame | now exists w]. }
    intros _. apply tail_order_side.
  - unfold CartService.update_cart_item.
    apply (after_bind_keeps order_side); [apply get_or_create_cart_order_side|].
    intros cart. apply (after_bind_keeps order_side); [reflexivity|].
    intros [line|]; [|reflexivity].
    apply (after_bind_keeps order_side).
    { destruct (UpdateCartItemRequest.quantity request) as [q|]; [|reflexivity].
      now destruct (_ <? _). }
    intros quantity. apply (after_bind_keeps order_side).
    { destruct quantity;
        [|destruct (UpdateCartItemRequest.special_instructions request)];
        reflexivity. }
    intros _. apply (after_bind_keeps order_side).
    { apply customizations_order_side. intros w.
      destruct (UpdateCartItemRequest.customizations request);
        [apply replace_customizations_frame | now exists w]. }
    intros _. apply tail_order_side.
  - unfold CartService.remove_cart_item.
    apply (after_bind_keeps order_side); [apply get_or_create_cart_order_side|].
    intros cart. cbv zeta. apply (after_bind_keeps order_side); [reflexivity|].
    intros deleted_count. apply (after_bind_keeps order_side); [reflexivity|].
    intros _. destruct (_ =? 0); [reflexivity | apply tail_order_side].
Qed.

Lemma clear_cart_order_side env user_id w :
  order_side (after (CartService.clear_cart env user_id) w) = order_side w.
Proof.
  revert w. unfold CartService.clear_cart.
  apply (after_bind_keeps order_side); [apply get_or_create_cart_order_side|].
  intros cart. apply (after_bind_keeps order_side); [reflexivity|].
  intros _. apply (after_bind_keeps order_side); [reflexivity|].
  intros _. apply (after_bind_keeps order_side); reflexivity.
Qed.

Lemma coherent_order_side w w' :
  order_side w' = order_side w → orders_coherent w → orders_coherent w'.
Proof.
  unfold order_side. intros [= Ho Hr]. now apply coherent_ext.
Qed.

Lemma after_request_coherent env r w :
  orders_coherent w → fresh_for env r w → orders_coherent (after_request env r w).
Proof.
  intros Hw Hfresh.
  assert (Hafter : ∀ A (m : M A),
            triple orders_coherent m (λ _, orders_coherent) orders_coherent →
            orders_coherent (after m w)).
  { intros A m H. specialize (H w Hw). unfold after.
    now destruct (m w) as [[a|e] w']. }
  destruct r; cbn [after_request].
  - apply (coherent_order_side w); [apply run_cart_op_order_side | exact Hw].
  - apply (coherent_order_side w); [apply get_cart_order_side | exact Hw].
  - apply (coherent_order_side w); [apply clear_cart_order_side | exact Hw].
  - pose proof (triple_create_order env (User.id user) user request auth_token w
                  (conj Hw Hfresh)) as H.
    unfold after. now destruct (OrderService.create_order _ _ _ _ _ w) as [[a|e] w'].
  - apply Hafter, triple_get_order.
  - apply Hafter, triple_get_my_orders.
  - apply Hafter, triple_update_order_status.
  - apply Hafter, triple_cancel_order.
  - apply Hafter, triple_submit_feedback.
Qed.

(** The order cache never goes stale. From a world without orders and
    with an empty cache, whatever requests on carts and orders are served
    one after the other, returning or raising, each creation drawing an id
    that is not in use: order ids stay unique, every entry of the order cache
    is the stored order of its key, and [get_order] by the owner of a stored
    order returns that order as the store has it. *)
Theorem order_cache_never_stale w :
  served_from World.empty w →
  unique_order_ids w
  ∧ order_cache_coherent w
  ∧ ∀ env order,
      In order (Store.orders (World.db w)) →
      ∃ w',
        OrderService.get_order env (Order.id order) (Some (Order.user_id order)) w
        = (Ok (hydrate (World.db w) (Order.id order) order), w')
        ∧ World.db w' = World.db w.
Proof.
  intros Hops.
  assert (H : orders_coherent w).
  { induction Hops as [|w env r Hops IH Hfresh].
    - split; [constructor|]. intros k e o _ Hl. cbn in Hl.
      now rewrite lookup_empty in Hl.
    - now apply after_request_coherent. }
  apply coherent_iff in H as [H1 H2]. split; [exact H1|]. split; [exact H2|].
  intros env order Hin.
  destruct (get_order_coherent env (Order.id order) (Order.user_id order) w order)
    as (w' & Hrun & Hdb & _); auto.
  now exists w'.
Qed.

Lemma sample_completed_served : served_from World.empty Sample.w_completed.
Proof.
  apply (served_step _ _ (Sample.env 2600 "s1" 0)
           (UpdateStatus "o1-0" (Sample.status_request OrderStatus.COMPLETED)
              "carol" "Carol" true)); [|exact I].
  apply (served_step _ _ (Sample.env 2000 "o1" 0)
           (CreateOrder Sample.alice Sample.pay_cash (Some "jwt")));
    [|vm_compute; tauto].
  apply (served_step _ _ (Sample.env 1000 "a1" 0)
           (OnCart (AddLine "alice" (Sample.add "dosa" 2))));
    [|repeat split; vm_compute; tauto].
  apply served_none.
Qed.

Lemma order_cache_never_stale_witness :
  ∃ response w',
    OrderService.get_order (Sample.env 2700 "g1" 0) "o1-0" (Some "alice")
      Sample.w_completed = (Ok response, w')
    ∧ Order.status (OrderResponse.order response) = OrderStatus.COMPLETED
    ∧ order_cache_coherent Sample.w_completed.
Proof.
  destruct (order_cache_never_stale Sample.w_completed sample_completed_served)
    as (_ & Hco & Hget).
  edestruct (Hget (Sample.env 2700 "g1" 0)) as (w' & Hrun & _).
  - vm_compute. left. reflexivity.
  - eexists _, w'. split; [exact Hrun|]. split; [reflexivity | exact Hco].
Defined.

(** ** The carts under every request *)

Lemma get_order_cart_side env order_id user_id w :
  cart_side (after (OrderService.get_order env order_id user_id) w) = cart_side w.
Proof.
  unfold after.
  destruct (OrderService.get_order env order_id user_id w) as [[r|e] w'] eqn:H.
  - apply get_order_ok in H as [Hdb _]. unfold cart_side. cbn. now rewrite Hdb.
  - destruct (cached_order env w order_id) as [cached|] eqn:Hc;
      [now rewrite (get_order_hit _ _ _ _ _ Hc) in H|].
    destruct (Mongo.find_one (order_query order_id user_id) (Store.orders (World.db w)))
      as [order|] eqn:Hf;
      [now rewrite (get_order_miss_found _ _ _ _ _ Hc Hf) in H|].
    rewrite (get_order_miss_not_found _ _ _ _ Hc Hf) in H. now injection H as _ <-.
Qed.

Lemma map_get_order_cart_side env user_id l w :
  cart_side
    (after (map_m (λ order, OrderService.get_order env (Order.id order) user_id) l) w)
  = cart_side w.
Proof.
  revert w. induction l as [|o r IH]; [reflexivity|]. cbn [map_m].
  apply (after_bind_keeps cart_side); [apply get_order_cart_side|].
  intros y. apply (after_bind_keeps cart_side); [exact IH | reflexivity].
Qed.

Lemma get_my_orders_cart_side env user_id status page page_size w :
  cart_side (after (OrderService.get_my_orders env user_id status page page_size) w)
  = cart_side w.
Proof.
  revert w. unfold OrderService.get_my_orders. cbv zeta.
  apply (after_bind_keeps cart_side); [reflexivity|].
  intros total. destruct (_ <? 0); [reflexivity|].
  apply (after_bind_keeps cart_side); [reflexivity|].
  intros cursor. apply (after_bind_keeps cart_side); [|reflexivity].
  intros w. apply map_get_order_cart_side.
Qed.

Lemma timeline_entry_cart_side env site order_id status message updated_by
    updated_by_name w :
  cart_side
    (after (OrderService._add_timeline_entry env site order_id status message
              updated_by updated_by_name) w)
  = cart_side w.
Proof.
  unfold after, OrderService._add_timeline_entry. now rewrite insert_no_index.
Qed.

Lemma update_order_status_cart_side env order_id request updated_by updated_by_name
    is_staff w :
  cart_side
    (after (OrderService.update_order_status env order_id request updated_by
              updated_by_name is_staff) w)
  = cart_side w.
Proof.
  revert w. unfold OrderService.update_order_status. cbv zeta.
  apply (after_bind_keeps cart_side); [reflexivity|].
  intros [order|]; [|reflexivity].
  destruct (negb is_staff && _); [reflexivity|].
  apply (after_bind_keeps cart_side); [reflexivity|]. intros _.
  apply (after_bind_keeps cart_side); [intros w; apply timeline_entry_cart_side|].
  intros _. apply (after_bind_keeps cart_side); [reflexivity|]. intros _.
  apply (after_bind_keeps cart_side); [reflexivity|]. intros token_data.
  apply (after_bind_keeps cart_side); [now destruct token_data|]. intros _.
  intros w. apply get_order_cart_side.
Qed.

Lemma cancel_order_cart_side env order_id user_id request w :
  cart_side (after (OrderService.cancel_order env order_id user_id request) w)
  = cart_side w.
Proof.
  revert w. unfold OrderService.cancel_order.
  apply (after_bind_keeps cart_side); [reflexivity|].
  intros [order|]; [|reflexivity].
  destruct (OrderService.terminal _); [reflexivity|].
  apply (after_bind_keeps cart_side); [reflexivity|]. intros _.
  apply (after_bind_keeps cart_side); [reflexivity|]. intros _.
  apply (after_bind_keeps cart_side); [intros w; apply timeline_entry_cart_side|].
  intros _. apply (after_bind_keeps cart_side); [reflexivity|]. intros _.
  intros w. apply get_order_cart_side.
Qed.

Lemma submit_feedback_cart_side env order_id user_id request w :
  cart_side (after (OrderService.submit_feedback env order_id user_id request) w)
  = cart_side w.
Proof.
  revert w. unfold OrderService.submit_feedback.
  apply (after_bind_keeps cart_side); [reflexivity|].
  intros [order|]; [|reflexivity].
  destruct (negb _); [reflexivity|].
  apply (after_bind_keeps cart_side); [reflexivity|]. intros _.
  apply (after_bind_keeps cart_side).
  { destruct (OrderFeedbackRequest.item_feedback request) as [item_feedback|];
      [|reflexivity].
    intros w.
    match goal with |- context [for_each ?body 0%nat item_feedback] =>
      destruct (for_each_frame without_item_feedback body) with (xs := item_feedback)
        (i := 0%nat) (w := w) as (w' & Hrun & Hframe)
    end.
    - intros k fb w0. eexists. split; [apply insert_no_index|].
      now destruct w0 as [[] ? ?].
    - unfold after. rewrite Hrun.
      change (cart_side (without_item_feedback w') = cart_side (without_item_feedback w)).
      now rewrite Hframe. }
  intros _. apply (after_bind_keeps cart_side); [reflexivity|]. intros _.
  intros w. apply get_order_cart_side.
Qed.

Lemma consistent_cart_side w w' :
  cart_side w' = cart_side w → carts_consistent w → carts_consistent w'.
Proof.
  unfold cart_side. intros [= Hc Hi]. now apply consistent_ext.
Qed.

Lemma create_order_begin_cart_side env user_id user_data request w :
  cart_side (after (OrderService.create_order_begin env user_id user_data request) w)
  = cart_side w.
Proof.
  revert w. unfold OrderService.create_order_begin.
  apply (after_bind_keeps cart_side); [reflexivity|].
  intros [cart|]; [|reflexivity].
  destruct (_ =? 0); [reflexivity|].
  apply (after_bind_keeps cart_side); [reflexivity|].
  intros [|line lines]; [reflexivity|]. cbv zeta.
  apply (after_bind_keeps cart_side).
  { intros w. unfold after, insert. now destruct (Mongo.insert_one _ _ _). }
  intros _. apply (after_bind_keeps cart_side).
  { intros w.
    match goal with |- context [for_each _ 0%nat ?xs] =>
      destruct (order_lines_written env (Env.uuid4 env [0%nat]) xs w)
        as (w' & Hrun & Hframe)
    end.
    match goal with |- cart_side (after ?m w) = _ =>
      assert (E : after m w = w') by (unfold after; exact (f_equal snd Hrun))
    end.
    rewrite E.
    destruct (frame_order_lines _ _ Hframe) as (Fc & Fi & _).
    unfold cart_side. now rewrite Fc, Fi. }
  intros _. apply (after_bind_keeps cart_side); reflexivity.
Qed.

Lemma create_order_consistent env user_id user_data request auth_token :
  triple carts_consistent
    (OrderService.create_order env user_id user_data request auth_token)
    (λ _, carts_consistent) carts_consistent.
Proof.
  assert (Hkeep : ∀ A (m : M A) skip,
            (∀ w, cart_side (after m w) = cart_side w) →
            triple (carts_consistent_except skip) m
              (λ _, carts_consistent_except skip) (carts_consistent_except skip)).
  { intros A m skip Hm w Hw. specialize (Hm w). unfold after in Hm.
    destruct (m w) as [[a|e] w']; cbn in Hm; injection Hm as Hc Hi;
      now apply (consistent_ext skip w). }
  rewrite create_order_phases.
  apply (triple_bind _ _ (λ _, carts_consistent)).
  { apply (Hkeep _ _ None). apply create_order_begin_cart_side. }
  intros [[cart order_id] token_number].
  unfold OrderService.create_order_finish.
  destruct (generate_order_token env token_number) as [token token_prefix].
  apply (triple_bind _ _ (λ _, carts_consistent)).
  { apply (Hkeep _ _ None). intros w. unfold after, insert.
    now destruct (Mongo.insert_one _ _ _). }
  intros _.
  apply (triple_bind _ _ (λ _, carts_consistent)).
  { apply (Hkeep _ _ None). intros w. unfold after, insert.
    now destruct (Mongo.insert_one _ _ _). }
  intros _.
  apply (triple_bind _ _ (λ _, carts_consistent)).
  { apply (Hkeep _ _ None). intros w. apply timeline_entry_cart_side. }
  intros _.
  apply (triple_bind _ _
           (λ _ w, carts_consistent_except (Some (Cart.id cart)) w
                   ∧ Mongo.find (CartService.in_cart (Cart.id cart))
                       (Store.cart_items (World.db w)) = [])).
  { apply triple_write. intros w Hw. split; [now apply consistent_lines_cleared|].
    cbn. apply find_after_delete_many. }
  intros _.
  apply (triple_bind _ _ (λ _, carts_consistent)).
  { apply triple_write. intros w [Hw Hempty]. now apply consistent_zeroed. }
  intros _.
  apply (triple_bind _ _ (λ _, carts_consistent)); [now apply (Hkeep _ _ None)|].
  intros _.
  apply (triple_bind _ _ (λ _, carts_consistent)); [now apply (Hkeep _ _ None)|].
  intros _.
  apply (triple_bind _ _ (λ _, carts_consistent)).
  { apply (Hkeep _ _ None).
    destruct auth_token as [t|]; [destruct (Py.truthy _)|]; reflexivity. }
  intros _. apply (Hkeep _ _ None). intros w. apply get_order_cart_side.
Qed.

Lemma clear_cart_consistent env user_id w :
  carts_consistent w → fresh_cart_uuids env w →
  carts_consistent (after (CartService.clear_cart env user_id) w).
Proof.
  intros HI HF.
  pose proof (triple_get_or_create_cart env user_id (λ _, False) w (conj HI HF)) as T.
  unfold after, CartService.clear_cart.
  destruct (CartService.get_or_create_cart env user_id w) as [[cart|e] w1] eqn:G;
    [|contradiction].
  destruct T as (HI1 & _ & _).
  rewrite (bind_run _ _ _ _ _ G). unfold bind, write, cache_delete_cart, ret. cbn [snd].
  apply (consistent_ext None
           (World.on_db
              (Store.on_shopping_carts
                 (Mongo.update_one (CartService.by_id (Cart.id cart))
                    (Cart.set_totals 0%float 0%float 0%float 0 (Env.utcnow env))))
              (World.on_db
                 (Store.on_cart_items
                    (Mongo.delete_many (CartService.in_cart (Cart.id cart)))) w1)));
    [reflexivity | reflexivity |].
  apply consistent_zeroed; [now apply consistent_lines_cleared|].
  cbn. apply find_after_delete_many.
Qed.

Lemma get_cart_consistent env user_id w :
  carts_consistent w → fresh_cart_uuids env w →
  carts_consistent (after (CartService.get_cart env user_id) w).
Proof.
  intros HI HF. unfold after, CartService.get_cart.
  unfold bind at 1, cache_get_cart at 1.
  destruct (live _ _); [exact HI|].
  pose proof (triple_get_or_create_cart env user_id (λ _, False) w (conj HI HF)) as T.
  destruct (CartService.get_or_create_cart env user_id w) as [[cart|e] w1] eqn:G;
    [|contradiction].
  destruct T as (HI1 & _ & _).
  rewrite (bind_run _ _ _ _ _ G). unfold bind, query, cache_set_cart, ret. cbn [snd].
  now apply (consistent_ext None w1).
Qed.

Lemma after_request_consistent env r w :
  carts_consistent w → fresh_for env r w → carts_consistent (after_request env r w).
Proof.
  intros Hw Hfresh. destruct r; cbn [after_request fresh_for] in *.
  - now apply run_cart_op_consistent.
  - now apply get_cart_consistent.
  - now apply clear_cart_consistent.
  - pose proof (create_order_consistent env (User.id user) user request auth_token
                  w Hw) as H.
    unfold after. now destruct (OrderService.create_order _ _ _ _ _ w) as [[a|e] w'].
  - apply (consistent_cart_side w); [apply get_order_cart_side | exact Hw].
  - apply (consistent_cart_side w); [apply get_my_orders_cart_side | exact Hw].
  - apply (consistent_cart_side w); [apply update_order_status_cart_side | exact Hw].
  - apply (consistent_cart_side w); [apply cancel_order_cart_side | exact Hw].
  - apply (consistent_cart_side w); [apply submit_feedback_cart_side | exact Hw].
Qed.

(** The totals of the carts under every request. From the empty world,
    whatever requests on carts and orders are served one after the other,
    returning or raising, the ids drawn being fresh: ids of carts and of
    cart lines stay unique, every cart has the tax percentage 5, and the
    subtotal, tax, total and item count of every cart are those of its
    lines; in particular a cart that an order was created from, or that was
    cleared, has no lines and zero totals. *)
Theorem carts_consistent_under_requests w :
  served_from World.empty w →
  carts_consistent w
  ∧ ∀ cart, In cart (Store.shopping_carts (World.db w)) →
      Mongo.find (CartService.in_cart (Cart.id cart)) (Store.cart_items (World.db w))
      = [] →
      Cart.subtotal cart = 0%float ∧ Cart.tax cart = 0%float
      ∧ Cart.total cart = 0%float ∧ Cart.item_count cart = 0.
Proof.
  intros Hops.
  assert (H : carts_consistent w).
  { induction Hops as [|w env r Hops IH Hfresh];
      [apply carts_consistent_empty | now apply after_request_consistent]. }
  split; [exact H|]. intros cart Hin Hempty.
  destruct H as (_ & _ & H). destruct (H cart Hin) as [Ht Ha].
  destruct (Ha ltac:(discriminate)) as (H1 & H2 & H3 & H4).
  rewrite Hempty in H1, H4. cbn in H1, H4.
  rewrite H1, Ht in H2. rewrite H1, H2 in H3.
  repeat split; assumption.
Qed.

Lemma carts_consistent_under_requests_witness :
  carts_consistent Sample.w_completed
  ∧ List.map (λ c, (Cart.user_id c, Cart.total c, Cart.item_count c))
      (Store.shopping_carts (World.db Sample.w_completed))
    = [("alice", 0%float, 0)].
Proof.
  split; [|vm_compute; reflexivity].
  apply (carts_consistent_under_requests Sample.w_completed).
  apply sample_completed_served.
Defined.

(** ** An order is a snapshot of the cart *)

Lemma after_bind_run {A B} (m : M A) (k : A → M B) w a w1 :
  m w = (Ok a, w1) → after (bind m k) w = after (k a) w1.
Proof. intros H. unfold after. now rewrite (bind_run _ _ _ _ _ H). Qed.

Lemma for_each_keeps {A X} (proj : World.t → X) (body : nat → A → M unit) :
  (∀ k x w, proj (after (body k x) w) = proj w) →
  ∀ xs i w, proj (after (for_each body i xs) w) = proj w.
Proof.
  intros Hbody xs. induction xs as [|x r IH]; intros i w; [reflexivity|].
  cbn [for_each]. revert w. apply (after_bind_keeps proj); [apply Hbody|].
  intros _ w. apply IH.
Qed.

(** The order items that the loop of [create_order] writes: one per cart
    line, in the order of the lines, each a copy of its line. *)
Lemma order_items_written env order_id
    (cart_items : list (CartItem.t * list CartItemCustomization.t)) : ∀ i w,
  ∃ items,
    Store.order_items
      (World.db
         (after
            (for_each
               (λ i '(cart_item, customizations),
                  let order_item_id := Env.uuid4 env [1%nat; i] in
                  let order_item :=
                    OrderItem.mk order_item_id order_id
                      (CartItem.menu_item_id cart_item)
                      (CartItem.menu_item_name cart_item)
                      (CartItem.menu_item_image cart_item) (CartItem.quantity cart_item)
                      (CartItem.unit_price cart_item) (CartItem.total_price cart_item)
                      (CartItem.special_instructions cart_item) in
                  insert Store.order_items Store.on_order_items [] order_item ;;
                  for_each
                    (λ j custom,
                       insert Store.order_item_customizations
                         Store.on_order_item_customizations []
                         (OrderItemCustomization.mk (Env.uuid4 env [2%nat; i; j])
                            order_item_id (CartItemCustomization.custom custom)))
                    0%nat customizations)
               i cart_items) w))
    = (Store.order_items (World.db w) ++ items)%list
    ∧ List.Forall2 (λ line item, copies (fst line) item ∧ OrderItem.order_id item = order_id)
        cart_items items.
Proof.
  induction cart_items as [|[cart_item customizations] r IH]; intros i w.
  - exists []. split; [cbn; now rewrite app_nil_r | constructor].
  - cbn [for_each].
    match goal with |- context [after (bind ?m _) w] =>
      assert (Hbody : ∃ w1, m w = (Ok tt, w1)
                ∧ Store.order_items (World.db w1)
                  = (Store.order_items (World.db w)
                     ++ [OrderItem.mk (Env.uuid4 env [1%nat; i]) order_id
                           (CartItem.menu_item_id cart_item)
                           (CartItem.menu_item_name cart_item)
                           (CartItem.menu_item_image cart_item)
                           (CartItem.quantity cart_item)
                           (CartItem.unit_price cart_item)
                           (CartItem.total_price cart_item)
                           (CartItem.special_instructions cart_item)])%list)
    end.
    { cbv zeta. rewrite (bind_run _ _ _ _ _ (insert_no_index _ _ _ _)).
      match goal with |- context [for_each ?body 0%nat customizations ?w1] =>
        destruct (for_each_frame without_order_lines body) with (xs := customizations)
          (i := 0%nat) (w := w1) as (w2 & H2 & _);
        [|pose proof (for_each_keeps (λ w, Store.order_items (World.db w)) body)
            as Hkeep]
      end.
      - intros j custom w0. eexists. split; [apply insert_no_index|].
        now destruct w0 as [[] ? ?].
      - exists w2. split; [exact H2|].
        match type of H2 with for_each _ _ _ ?w1 = _ =>
          specialize (Hkeep ltac:(intros k x w0; unfold after;
                                  now rewrite insert_no_index) customizations 0%nat w1)
        end.
        unfold after in Hkeep. rewrite H2 in Hkeep. exact Hkeep. }
    destruct Hbody as (w1 & Hrun & Hitems).
    rewrite (after_bind_run _ _ _ _ _ Hrun).
    destruct (IH (S i) w1) as (items & E & Hcopies).
    eexists (_ :: items). split.
    + refine (eq_trans E _). rewrite Hitems, <- app_assoc. reflexivity.
    + constructor; [|exact Hcopies]. repeat split.
Qed.

Lemma get_order_orders_and_items env order_id user_id w :
  orders_and_items (after (OrderService.get_order env order_id user_id) w)
  = orders_and_items w.
Proof.
  unfold after.
  destruct (OrderService.get_order env order_id user_id w) as [[r|e] w'] eqn:H.
  - apply get_order_ok in H as [Hdb _]. unfold orders_and_items. cbn. now rewrite Hdb.
  - destruct (cached_order env w order_id) as [cached|] eqn:Hc;
      [now rewrite (get_order_hit _ _ _ _ _ Hc) in H|].
    destruct (Mongo.find_one (order_query order_id user_id) (Store.orders (World.db w)))
      as [order|] eqn:Hf;
      [now rewrite (get_order_miss_found _ _ _ _ _ Hc Hf) in H|].
    rewrite (get_order_miss_not_found _ _ _ _ Hc Hf) in H. now injection H as _ <-.
Qed.

Lemma create_order_finish_orders_and_items env user_id user_data request auth_token
    begun w :
  orders_and_items
    (after (OrderService.create_order_finish env user_id user_data request auth_token
              begun) w)
  = orders_and_items w.
Proof.
  revert w. destruct begun as [[cart order_id] token_number].
  unfold OrderService.create_order_finish.
  destruct (generate_order_token env token_number) as [token token_prefix].
  apply (after_bind_keeps orders_and_items).
  { intros w. unfold after, insert. now destruct (Mongo.insert_one _ _ _). }
  intros _. apply (after_bind_keeps orders_and_items).
  { intros w. unfold after, insert. now destruct (Mongo.insert_one _ _ _). }
  intros _. apply (after_bind_keeps orders_and_items).
  { intros w. unfold after, OrderService._add_timeline_entry.
    now rewrite insert_no_index. }
  intros _. apply (after_bind_keeps orders_and_items); [reflexivity|].
  intros _. apply (after_bind_keeps orders_and_items); [reflexivity|].
  intros _. apply (after_bind_keeps orders_and_items); [reflexivity|].
  intros _. apply (after_bind_keeps orders_and_items); [reflexivity|].
  intros _. apply (after_bind_keeps orders_and_items).
  { destruct auth_token as [t|]; [destruct (Py.truthy _)|]; reflexivity. }
  intros _ w. apply get_order_orders_and_items.
Qed.

Lemma Forall2_map_left {A B C} (P : B → C → Prop) (f : A → B) l k :
  List.Forall2 P (List.map f l) k → List.Forall2 (λ x, P (f x)) l k.
Proof.
  revert k. induction l as [|x r IH]; intros k H; inversion H; subst; constructor; auto.
Qed.

Lemma Forall2_weaken {A B} (P Q : A → B → Prop) l k :
  (∀ x y, P x y → Q x y) → List.Forall2 P l k → List.Forall2 Q l k.
Proof. intros H. induction 1; constructor; auto. Qed.

Lemma find_all_match {A} (q : A → bool) c :
  List.Forall (λ x, q x = true) c → Mongo.find q c = c.
Proof.
  unfold Mongo.find. induction 1 as [|x r Hx Hr IH]; [reflexivity|].
  cbn [List.filter]. now rewrite Hx, IH.
Qed.

(** An order is a snapshot of the cart it is created from: when
    [create_order] returns and the id of the order is that of no stored
    order item, the order stored last carries the subtotal, the tax and the
    total of the cart, an estimated preparation time of 10 minutes plus 2 per
    item counted by the cart, the ready time that this gives, and the name,
    email and phone of the caller; and the items of the response are copies
    of the lines of the cart, one per line and in their order. *)
Theorem create_order_snapshot env user_id user_data request auth_token w response w' :
  ¬ In (Env.uuid4 env [0%nat])
      (List.map OrderItem.order_id (Store.order_items (World.db w))) →
  OrderService.create_order env user_id user_data request auth_token w
  = (Ok response, w') →
  ∃ cart order,
    Mongo.find_one (CartService.by_user user_id) (Store.shopping_carts (World.db w))
    = Some cart
    ∧ Store.orders (World.db w') = (Store.orders (World.db w) ++ [order])%list
    ∧ (Order.id order = Env.uuid4 env [0%nat] ∧ Order.user_id order = user_id
       ∧ Order.status order = OrderStatus.PENDING)
    ∧ (Order.subtotal order, Order.tax order, Order.total order)
      = (Cart.subtotal cart, Cart.tax cart, Cart.total cart)
    ∧ Order.estimated_preparation_time order = 10 + Cart.item_count cart * 2
    ∧ Order.estimated_ready_time order
      = Some (Env.utcnow env + 60 * (10 + Cart.item_count cart * 2))
    ∧ (Order.user_name order, Order.user_email order, Order.user_phone order)
      = (User.name user_data, User.email user_data, User.phone user_data)
    ∧ List.Forall2 copies
        (Mongo.find (CartService.in_cart (Cart.id cart)) (Store.cart_items (World.db w)))
        (List.map OrderItemResponse.item (OrderResponse.items response)).
Proof.
  intros Hfresh H. rewrite create_order_phases in H.
  apply bind_ok in H as (begun & w1 & Hbegin & Hfinish).
  pose proof (create_order_finish_orders_and_items env user_id user_data request
                auth_token begun w1) as Hkeep.
  unfold after in Hkeep. rewrite Hfinish in Hkeep. cbn [snd] in Hkeep.
  injection Hkeep as Ko Ki.
  assert (Hresp : response
                  = hydrate (World.db w') (Env.uuid4 env [0%nat])
                      (OrderResponse.order response)
                  ∨ fst (fst begun) = fst (fst begun)) by (now right).
  clear Hresp.
  unfold OrderService.create_order_begin in Hbegin.
  unfold bind at 1, query at 1 in Hbegin.
  destruct (Mongo.find_one (CartService.by_user user_id) _) as [cart|] eqn:Hcart;
    [|discriminate].
  destruct (Z.eqb_spec (Cart.item_count cart) 0) as [|Hcount]; [discriminate|].
  unfold bind at 1, query at 1 in Hbegin.
  unfold OrderService.cart_items_with_customizations in Hbegin.
  set (lines := Mongo.find (CartService.in_cart (Cart.id cart))
                  (Store.cart_items (World.db w))) in *.
  destruct (List.map _ lines) as [|l ls] eqn:Hlines; [discriminate|].
  apply bind_ok in Hbegin as ([] & wa & Hins & Hbegin).
  apply insert_ok in Hins as [_ ->].
  match type of Hbegin with
  | bind (for_each ?body 0%nat ?xs) _ ?w0 = _ =>
      set (wa := w0) in *;
      destruct (order_lines_written env (Env.uuid4 env [0%nat]) xs wa)
        as (wb & Hloop & Hframe);
      destruct (order_items_written env (Env.uuid4 env [0%nat]) xs 0%nat wa)
        as (items & Eitems & Hcopies)
  end.
  assert (Eitems' : Store.order_items (World.db wb)
                    = (Store.order_items (World.db wa) ++ items)%list)
    by exact (eq_trans
                (eq_sym (f_equal (λ x, Store.order_items (World.db (snd x))) Hloop))
                Eitems).
  clear Eitems.
  rewrite (bind_run _ _ _ _ _ Hloop) in Hbegin.
  unfold OrderService._get_next_token_number, bind, query, ret in Hbegin.
  injection Hbegin as <- <-.
  destruct (frame_order_lines _ _ Hframe) as (_ & _ & _ & Fo & _).
  apply create_order_finish_token in Hfinish as (_ & _ & _ & _ & _ & Hresp).
  eexists cart, _.
  repeat match goal with |- _ ∧ _ => split end.
  - reflexivity.
  - rewrite Ko, Fo. reflexivity.
  - reflexivity.
  - reflexivity.
  - reflexivity.
  - reflexivity.
  - reflexivity.
  - cbn. unfold calculate_estimated_ready_time, estimate_preparation_time, Py.minutes.
    reflexivity.
  - reflexivity.
  - rewrite Hresp. cbn [hydrate OrderResponse.items]. rewrite List.map_map.
    cbn [OrderItemResponse.item]. rewrite List.map_id, Ki, Eitems'.
    rewrite <- Hlines in Hcopies. apply Forall2_map_left in Hcopies.
    unfold OrderService.item_of. subst wa.
    cbn [World.db World.on_db Store.order_items Store.on_orders].
    unfold Mongo.find at 1. rewrite List.filter_app.
    change (List.filter ?q ?c) with (Mongo.find q c).
    rewrite (find_by_key_absent OrderItem.order_id) by exact Hfresh.
    cbn [app]. rewrite (find_all_match _ items).
    + refine (Forall2_weaken _ _ _ _ _ Hcopies). cbn. tauto.
    + clear -Hcopies. induction Hcopies as [|line item ls' items' [_ Hid] _ IH];
        constructor; [now apply String.eqb_eq | exact IH].
Qed.

Lemma create_order_snapshot_witness :
  ∃ cart order,
    Store.orders (World.db Sample.w_order)
    = (Store.orders (World.db Sample.w_cart) ++ [order])%list
    ∧ Cart.item_count cart = 2
    ∧ Order.estimated_preparation_time order = 14
    ∧ Order.total order = 210%float.
Proof.
  assert (Hrun : ∃ response,
            OrderService.create_order (Sample.env 2000 "o1" 0) "alice" Sample.alice
              Sample.pay_cash (Some "jwt") Sample.w_cart
            = (Ok response, Sample.w_order))
    by (eexists; vm_compute; reflexivity).
  destruct Hrun as [response Hrun].
  destruct (create_order_snapshot (Sample.env 2000 "o1" 0) "alice" Sample.alice
              Sample.pay_cash (Some "jwt") Sample.w_cart response Sample.w_order)
    as (cart & order & Hcart & Ho & _ & Hmoney & Hprep & _).
  - vm_compute. tauto.
  - exact Hrun.
  - vm_compute in Hcart. injection Hcart as <-.
    exists (Cart.mk "a1-0" "alice" 200%float 10%float 5%float 210%float 2 1000 1000), order.
    split; [exact Ho|]. split; [reflexivity|]. split; [exact Hprep|].
    now injection Hmoney as _ _ ->.
Defined.

(** ** Who passes the gates of the routes *)

(** The two checks of the staff role agree: [require_staff] of the admin
    routes lets through exactly the users for whom [check_staff_role] of the
    order routes holds, and answers 403 to the others. The payment listing
    asks for "admin" in the list of roles and answers 403 otherwise; who
    passes it passes the staff check, but the single role "admin" does not
    open it. A caller who is not staff gets status 500 from the route that
    updates the status of an order, and nothing changes. *)
Theorem staff_gates user :
  (Admin.require_staff user = Routes.Returns user
   ↔ Routes.check_staff_role user = true)
  ∧ (Admin.require_staff user = Routes.HTTPException 403 "Staff access required"
     ↔ Routes.check_staff_role user = false)
  ∧ (existsb (String.eqb "admin") (User.roles user) = true →
     Routes.check_staff_role user = true)
  ∧ (existsb (String.eqb "admin") (User.roles user) = false →
     ∀ status_filter method_filter page page_size w,
       Admin.get_all_payments status_filter method_filter page page_size user w
       = (Routes.HTTPException 403 "Admin access required", w))
  ∧ (Routes.check_staff_role user = false →
     ∀ env order_id request w,
       Routes.update_order_status env order_id request user w
       = (Routes.HTTPException 500 "Failed to update order status", w)).
Proof.
  unfold Admin.require_staff, Routes.check_staff_role, Admin.get_all_payments,
    Routes.update_order_status, Routes.check_staff_role.
  cbv zeta.
  destruct (String.eqb (User.role user) "staff" || String.eqb (User.role user) "admin");
    destruct (existsb (String.eqb "staff") (User.roles user));
    destruct (existsb (String.eqb "admin") (User.roles user));
    cbn; repeat split; intros; try reflexivity; try discriminate.
Qed.

Lemma staff_gates_witness :
  Admin.require_staff (User.mk "dan" None None None "admin" [])
  = Routes.Returns (User.mk "dan" None None None "admin" [])
  ∧ Admin.get_all_payments None None 1 20 (User.mk "dan" None None None "admin" [])
      Sample.w_order
    = (Routes.HTTPException 403 "Admin access required", Sample.w_order)
  ∧ Routes.update_order_status (Sample.env 2600 "s1" 0) "o1-0"
      (Sample.status_request OrderStatus.CANCELLED) Sample.alice Sample.w_order
    = (Routes.HTTPException 500 "Failed to update order status", Sample.w_order).
Proof.
  split; [|split].
  - apply (staff_gates (User.mk "dan" None None None "admin" [])). reflexivity.
  - apply (staff_gates (User.mk "dan" None None None "admin" [])). reflexivity.
  - apply (staff_gates Sample.alice). reflexivity.
Defined.

(** ** The customizations of a cart line *)

(** The loop that stores the customizations of a request appends one
    document per customization, in the order of the request. *)
Lemma customizations_written env site cart_item_id (customs : list Customization.t) :
  ∀ i w,
  ∃ w' news,
    for_each
      (λ k custom,
         insert Store.cart_item_customizations Store.on_cart_item_customizations []
           (CartItemCustomization.mk (Env.uuid4 env [site; k]) cart_item_id custom))
      i customs w = (Ok tt, w')
    ∧ without_cart_customizations w' = without_cart_customizations w
    ∧ Store.cart_item_customizations (World.db w')
      = (Store.cart_item_customizations (World.db w) ++ news)%list
    ∧ List.map CartItemCustomization.custom news = customs
    ∧ List.Forall
        (λ doc, CartService.of_item cart_item_id doc = true) news.
Proof.
  induction customs as [|custom r IH]; intros i w.
  - exists w, []. cbn. rewrite app_nil_r. repeat split. constructor.
  - cbn [for_each]. rewrite (bind_run _ _ _ _ _ (insert_no_index _ _ _ _)).
    match goal with |- context [for_each _ (S i) r ?w1] =>
      destruct (IH (S i) w1) as (w' & news & Hrun & Hframe & Hdocs & Hmap & Hall)
    end.
    exists w'. eexists (_ :: news). split; [exact Hrun|].
    split; [rewrite Hframe; now destruct w as [[] ? ?]|].
    split; [rewrite Hdocs; cbn; now rewrite <- app_assoc|].
    split; [cbn; now rewrite Hmap|].
    constructor; [|exact Hall]. apply String.eqb_eq. reflexivity.
Qed.

Lemma find_none_match {A} (q : A → bool) c :
  List.Forall (λ x, q x = false) c → Mongo.find q c = [].
Proof.
  intros H. apply find_none_of. now apply List.Forall_forall.
Qed.

(** [replace_customizations] in full: the customizations stored for the
    line become those given, in their order; those of other lines stay. *)
Lemma replace_customizations_exact env site cart_item_id customs w :
  ∃ w',
    CartService.replace_customizations env site cart_item_id customs w = (Ok tt, w')
    ∧ without_cart_customizations w' = without_cart_customizations w
    ∧ List.map CartItemCustomization.custom
        (Mongo.find (CartService.of_item cart_item_id)
           (Store.cart_item_customizations (World.db w')))
      = customs
    ∧ ∀ other, other ≠ cart_item_id →
        Mongo.find (CartService.of_item other)
          (Store.cart_item_customizations (World.db w'))
        = Mongo.find (CartService.of_item other)
            (Store.cart_item_customizations (World.db w)).
Proof.
  unfold CartService.replace_customizations. unfold bind at 1, write at 1.
  match goal with |- context [for_each _ 0%nat customs ?w1] =>
    destruct (customizations_written env site cart_item_id customs 0%nat w1)
      as (w' & news & Hrun & Hframe & Hdocs & Hmap & Hall)
  end.
  exists w'. split; [exact Hrun|].
  split; [rewrite Hframe; now destruct w as [[] ? ?]|].
  rewrite Hdocs. cbn [World.db World.on_db Store.cart_item_customizations
                      Store.on_cart_item_customizations].
  split.
  - unfold Mongo.find at 1. rewrite List.filter_app.
    change (List.filter ?q ?c) with (Mongo.find q c).
    rewrite find_after_delete_many, (find_all_match _ news) by exact Hall.
    exact Hmap.
  - intros other Hne. unfold Mongo.find at 1. rewrite List.filter_app.
    change (List.filter ?q ?c) with (Mongo.find q c).
    rewrite (find_none_match _ news), app_nil_r.
    + apply find_delete_many_outside. intros y Hy.
      unfold CartService.of_item in *. apply String.eqb_eq in Hy.
      apply String.eqb_neq. congruence.
    + eapply List.Forall_impl; [|exact Hall]. cbn. intros doc Hd.
      unfold CartService.of_item in *. apply String.eqb_eq in Hd.
      apply String.eqb_neq. congruence.
Qed.

(** [update_cart_item] with a list of customizations replaces those of
    the line: the line of the answer carries the customizations of the
    request, in their order, were the list empty; the customizations of
    every other line stay as they were. *)
Theorem update_cart_item_customizations env user_id cart_item_id request w cart line
    customs :
  unique_cart_ids w →
  Mongo.find_one (CartService.by_user user_id) (Store.shopping_carts (World.db w))
  = Some cart →
  Mongo.find_one (item_in_cart cart_item_id (Cart.id cart))
    (Store.cart_items (World.db w)) = Some line →
  (∀ quantity, UpdateCartItemRequest.quantity request = Some quantity →
               quantity ≤ settings.MAX_QUANTITY_PER_ITEM) →
  UpdateCartItemRequest.customizations request = Some customs →
  ∃ w' cart',
    CartService.update_cart_item env user_id cart_item_id request w
    = (Ok (cart_view (World.db w') cart'), w')
    ∧ List.map CartItemCustomization.custom
        (Mongo.find (CartService.of_item cart_item_id)
           (Store.cart_item_customizations (World.db w')))
      = customs
    ∧ (∀ item, In item (CartResponse.items (cart_view (World.db w') cart')) →
         CartItem.id (CartItemResponse.item item) = cart_item_id →
         CartItemResponse.customizations item = customs)
    ∧ ∀ other, other ≠ cart_item_id →
        Mongo.find (CartService.of_item other)
          (Store.cart_item_customizations (World.db w'))
        = Mongo.find (CartService.of_item other)
            (Store.cart_item_customizations (World.db w)).
Proof.
  intros U1 Hcart Hline Hq Hcustoms.
  unfold CartService.update_cart_item.
  rewrite (bind_run _ _ _ _ _ (get_or_create_cart_found env _ _ _ Hcart)).
  fold (item_in_cart cart_item_id (Cart.id cart)).
  unfold bind at 1, query at 1. rewrite Hline, Hcustoms.
  assert (Hfirst : ∃ quantity w1,
            match UpdateCartItemRequest.quantity request with
            | Some quantity =>
                if settings.MAX_QUANTITY_PER_ITEM <? quantity
                then raise (ValueError CartService.max_quantity_message)
                else ret (Some (quantity,
                                (CartItem.unit_price line
                                 * Py.float_of_Z quantity)%float))
            | None => ret None
            end w = (Ok quantity, w)
            ∧ match quantity, UpdateCartItemRequest.special_instructions request with
              | None, None => ret tt
              | _, _ =>
                  write (Store.on_cart_items
                           (Mongo.update_one (CartService.item_by_id cart_item_id)
                              (CartItem.set_update_data quantity
                                 (UpdateCartItemRequest.special_instructions request)
                                 (Env.utcnow env))))
              end w = (Ok tt, w1)
            ∧ Store.shopping_carts (World.db w1) = Store.shopping_carts (World.db w)
            ∧ Store.cart_item_customizations (World.db w1)
              = Store.cart_item_customizations (World.db w)).
  { destruct (UpdateCartItemRequest.quantity request) as [quantity|].
    - specialize (Hq quantity eq_refl).
      destruct (Z.ltb_spec settings.MAX_QUANTITY_PER_ITEM quantity) as [|_]; [lia|].
      eexists _, _. split; [reflexivity|]. repeat split.
    - destruct (UpdateCartItemRequest.special_instructions request);
        eexists _, _; (split; [reflexivity|]); repeat split. }
  destruct Hfirst as (quantity & w1 & Hrun0 & Hrun1 & Fc1 & Fcu1).
  rewrite (bind_run _ _ _ _ _ Hrun0), (bind_run _ _ _ _ _ Hrun1).
  destruct (replace_customizations_exact env 1 cart_item_id customs w1)
    as (w2 & Hrun2 & Hframe & Hnew & Hother).
  rewrite (bind_run _ _ _ _ _ Hrun2).
  destruct (frame_cart_customizations _ _ Hframe) as (Fc & Fi & Fr).
  destruct (recalculate_and_read_view env user_id w2 cart)
    as (w' & cart' & Hrun & Hdb & Hcart' & _).
  { now rewrite Fc, Fc1. }
  assert (Fcu : Store.cart_item_customizations (World.db w')
                = Store.cart_item_customizations (World.db w2))
    by (now rewrite Hdb).
  exists w', cart'. split; [exact Hrun|]. rewrite Fcu.
  split; [exact Hnew|]. split.
  - intros item Hin Hid. unfold cart_view, CartService.cart_items_of in Hin.
    cbn [CartResponse.items] in Hin. apply List.in_map_iff in Hin as (i & <- & _).
    cbn in Hid |- *. now rewrite Hid, Fcu.
  - intros other Hne. now rewrite Hother, Fcu1.
Qed.

Lemma update_cart_item_customizations_witness :
  ∃ w' cart',
    CartService.update_cart_item (Sample.env 1300 "u1" 0) "alice" "a1-1"
      (UpdateCartItemRequest.mk None None
         (Some [Customization.mk "spice" "Spice" "Hot" "hot" 0%float]))
      Sample.w_two_carts
    = (Ok (cart_view (World.db w') cart'), w')
    ∧ List.map CartItemCustomization.custom
        (Mongo.find (CartService.of_item "a1-1")
           (Store.cart_item_customizations (World.db w')))
      = [Customization.mk "spice" "Spice" "Hot" "hot" 0%float].
Proof.
  edestruct (update_cart_item_customizations (Sample.env 1300 "u1" 0) "alice" "a1-1"
               (UpdateCartItemRequest.mk None None
                  (Some [Customization.mk "spice" "Spice" "Hot" "hot" 0%float]))
               Sample.w_two_carts)
    as (w' & cart' & Hrun & Hnew & _).
  - apply sample_two_carts_consistent.
  - vm_compute. reflexivity.
  - vm_compute. reflexivity.
  - discriminate.
  - reflexivity.
  - exists w', cart'. split; [exact Hrun | exact Hnew].
Defined.

(** ** Sample runs *)

(** The example of the specification: one line of two items at 100 under
    the tax of 5%. *)
Example sample_cart_totals :
  List.map (λ c, (Cart.subtotal c, Cart.tax c, Cart.total c, Cart.item_count c))
    (Store.shopping_carts (World.db Sample.w_cart))
  = [(200%float, 10%float, 210%float, 2)].
Proof. vm_compute. reflexivity. Qed.

Example sample_order_token :
  List.map OrderToken.token (Store.order_tokens (World.db Sample.w_order)) = ["A001"].
Proof. vm_compute. reflexivity. Qed.

(** [round(2.675, 2)]: the float nearest to 2.675 is below it. *)
Example round2_below_half :
  Py.round2 0x1.5666666666666p+1%float = 0x1.55c28f5c28f5cp+1%float.
Proof. vm_compute. reflexivity. Qed.

(** [round(0.125, 2)] is a tie and goes to the even hundredth, 0.12. *)
Example round2_tie_to_even :
  Py.round2 0.125%float = 0x1.eb851eb851eb8p-4%float.
Proof. vm_compute. reflexivity. Qed.

Example format_03d_7 : Py.format_03d 7 = "007".
Proof. reflexivity. Qed.

Example format_03d_1234 : Py.format_03d 1234 = "1234".
Proof. reflexivity. Qed.

(** A caller who is not staff is refused by the route with the status of
    its [except Exception] handler. *)
Example route_refuses_non_staff :
  Routes.update_order_status (Sample.env 2600 "s1" 0) "o1-0"
    (Sample.status_request OrderStatus.CANCELLED) Sample.alice Sample.w_order
  = (Routes.HTTPException 500 "Failed to update order status", Sample.w_order).
Proof. reflexivity. Qed.
